(** * s3-multipart-uploader: a shallow embedding of [s3_multipart_uploader.py]

    The program splits a local file into pieces, uploads them to S3 as one
    multipart upload, completes (or aborts) the upload and checks the stored
    object against the local file.  The embedding follows the four functions
    of the module: [get_file_hash], [split_input_file], [upload_file_pieces]
    and [upload_file]. *)

From Stdlib Require Import SpecFloat.
From Stdlib Require Import ZArith Lia List String Ascii.
From Stdlib Require Import Strings.Byte.
From stdpp Require Import base option list strings pretty gmap.
Import ListNotations.
Local Open Scope string_scope.
Local Open Scope list_scope.
Local Open Scope Z_scope.

(** ** Bytes and 32-bit words *)

Module Bytes.

Definition to_Z (b : byte) : Z := Z.of_N (Byte.to_N b).

Definition of_Z (z : Z) : byte :=
  match Byte.of_N (Z.to_N (z mod 256)) with
  | Some b => b
  | None => x00
  end.

(** [n] bytes of [z], least significant first. *)
Fixpoint le_bytes (n : nat) (z : Z) : list byte :=
  match n with
  | O => []
  | S n' => of_Z z :: le_bytes n' (Z.shiftr z 8)
  end.

(** [n] bytes of [z], most significant first. *)
Definition be_bytes (n : nat) (z : Z) : list byte := rev (le_bytes n z).

Definition le_word (bs : list byte) : Z :=
  fold_right (fun b acc => Z.lor (to_Z b) (Z.shiftl acc 8)) 0 bs.

Definition be_word (bs : list byte) : Z := le_word (rev bs).

(** Cut a list into consecutive groups of [n] elements; [k] is the number
    of groups. *)
Fixpoint groups {A} (n k : nat) (l : list A) : list (list A) :=
  match k with
  | O => []
  | S k' => take n l :: groups n k' (drop n l)
  end.

End Bytes.

Module Word32.

Definition wrap (x : Z) : Z := x mod 2 ^ 32.
Definition add (x y : Z) : Z := wrap (x + y).
Definition not (x : Z) : Z := Z.lxor x 0xFFFFFFFF.
Definition rotl (x n : Z) : Z :=
  Z.lor (wrap (Z.shiftl x n)) (Z.shiftr x (32 - n)).
Definition rotr (x n : Z) : Z :=
  Z.lor (Z.shiftr x n) (wrap (Z.shiftl x (32 - n))).

End Word32.

(** ** [hashlib.md5] (RFC 1321) *)

Module MD5.
Import Bytes Word32.

Definition block_size : Z := 64.

Definition shifts : list Z :=
  [7; 12; 17; 22; 7; 12; 17; 22; 7; 12; 17; 22; 7; 12; 17; 22;
   5; 9; 14; 20; 5; 9; 14; 20; 5; 9; 14; 20; 5; 9; 14; 20;
   4; 11; 16; 23; 4; 11; 16; 23; 4; 11; 16; 23; 4; 11; 16; 23;
   6; 10; 15; 21; 6; 10; 15; 21; 6; 10; 15; 21; 6; 10; 15; 21].

(** T[i] = floor(2^32 * abs(sin(i + 1))) *)
Definition sines : list Z :=
  [0xd76aa478; 0xe8c7b756; 0x242070db; 0xc1bdceee;
   0xf57c0faf; 0x4787c62a; 0xa8304613; 0xfd469501;
   0x698098d8; 0x8b44f7af; 0xffff5bb1; 0x895cd7be;
   0x6b901122; 0xfd987193; 0xa679438e; 0x49b40821;
   0xf61e2562; 0xc040b340; 0x265e5a51; 0xe9b6c7aa;
   0xd62f105d; 0x02441453; 0xd8a1e681; 0xe7d3fbc8;
   0x21e1cde6; 0xc33707d6; 0xf4d50d87; 0x455a14ed;
   0xa9e3e905; 0xfcefa3f8; 0x676f02d9; 0x8d2a4c8a;
   0xfffa3942; 0x8771f681; 0x6d9d6122; 0xfde5380c;
   0xa4beea44; 0x4bdecfa9; 0xf6bb4b60; 0xbebfbc70;
   0x289b7ec6; 0xeaa127fa; 0xd4ef3085; 0x04881d05;
   0xd9d4d039; 0xe6db99e5; 0x1fa27cf8; 0xc4ac5665;
   0xf4292244; 0x432aff97; 0xab9423a7; 0xfc93a039;
   0x655b59c3; 0x8f0ccc92; 0xffeff47d; 0x85845dd1;
   0x6fa87e4f; 0xfe2ce6e0; 0xa3014314; 0x4e0811a1;
   0xf7537e82; 0xbd3af235; 0x2ad7d2bb; 0xeb86d391].

Definition pad (msg : list byte) : list byte :=
  let len := Z.of_nat (length msg) in
  let zeros := Z.to_nat ((55 - len) mod 64) in
  msg ++ [x80] ++ replicate zeros x00 ++ le_bytes 8 (8 * len).

Record regs := Regs { ra : Z; rb : Z; rc : Z; rd : Z }.

Definition init : regs :=
  Regs 0x67452301 0xefcdab89 0x98badcfe 0x10325476.

Definition mix (i b c d : Z) : Z :=
  if i <? 16 then Z.lor (Z.land b c) (Z.land (not b) d)
  else if i <? 32 then Z.lor (Z.land d b) (Z.land (not d) c)
  else if i <? 48 then Z.lxor (Z.lxor b c) d
  else Z.lxor c (Z.lor b (not d)).

Definition word_index (i : Z) : Z :=
  if i <? 16 then i
  else if i <? 32 then (5 * i + 1) mod 16
  else if i <? 48 then (3 * i + 5) mod 16
  else (7 * i) mod 16.

Definition step (m : list Z) (r : regs) (i : Z) : regs :=
  let f := mix i (rb r) (rc r) (rd r) in
  let g := Z.to_nat (word_index i) in
  let f' := add (add (add f (ra r)) (nth (Z.to_nat i) sines 0)) (nth g m 0) in
  Regs (rd r)
       (add (rb r) (rotl f' (nth (Z.to_nat i) shifts 0)))
       (rb r)
       (rc r).

Definition rounds : list Z := map Z.of_nat (seq 0 64).

Definition compress (r : regs) (block : list byte) : regs :=
  let m := map le_word (groups 4 16 block) in
  let r' := fold_left (step m) rounds r in
  Regs (add (ra r) (ra r')) (add (rb r) (rb r'))
       (add (rc r) (rc r')) (add (rd r) (rd r')).

Definition digest (msg : list byte) : list byte :=
  let padded := pad msg in
  let r := fold_left compress (groups 64 (length padded / 64) padded) init in
  le_bytes 4 (ra r) ++ le_bytes 4 (rb r) ++ le_bytes 4 (rc r)
           ++ le_bytes 4 (rd r).

End MD5.

(** ** [hashlib.sha256] (FIPS 180-4) *)

Module SHA256.
Import Bytes Word32.

Definition block_size : Z := 64.

(** Integer cube root, most significant bit first. *)
Fixpoint cbrt_bits (bits : nat) (n acc : Z) : Z :=
  match bits with
  | O => acc
  | S b =>
      let cand := acc + 2 ^ Z.of_nat b in
      cbrt_bits b n (if cand * cand * cand <=? n then cand else acc)
  end.

Definition primes : list Z :=
  [2; 3; 5; 7; 11; 13; 17; 19; 23; 29; 31; 37; 41; 43; 47; 53;
   59; 61; 67; 71; 73; 79; 83; 89; 97; 101; 103; 107; 109; 113; 127; 131;
   137; 139; 149; 151; 157; 163; 167; 173; 179; 181; 191; 193; 197; 199;
   211; 223; 227; 229; 233; 239; 241; 251; 257; 263; 269; 271; 277; 281;
   283; 293; 307; 311].

(** The first 32 bits of the fractional parts of the cube roots of the
    first 64 primes. *)
Definition K : list Z :=
  Eval vm_compute in
    map (fun p => wrap (cbrt_bits 36 (p * 2 ^ 96) 0)) primes.

(** The first 32 bits of the fractional parts of the square roots of the
    first 8 primes. *)
Definition init : list Z :=
  Eval vm_compute in
    map (fun p => wrap (Z.sqrt (p * 2 ^ 64))) (take 8 primes).

Definition pad (msg : list byte) : list byte :=
  let len := Z.of_nat (length msg) in
  let zeros := Z.to_nat ((55 - len) mod 64) in
  msg ++ [x80] ++ replicate zeros x00 ++ be_bytes 8 (8 * len).

Definition Ch (x y z : Z) := Z.lxor (Z.land x y) (Z.land (not x) z).
Definition Maj (x y z : Z) :=
  Z.lxor (Z.lxor (Z.land x y) (Z.land x z)) (Z.land y z).
Definition Sigma0 x := Z.lxor (Z.lxor (rotr x 2) (rotr x 13)) (rotr x 22).
Definition Sigma1 x := Z.lxor (Z.lxor (rotr x 6) (rotr x 11)) (rotr x 25).
Definition sigma0 x := Z.lxor (Z.lxor (rotr x 7) (rotr x 18)) (Z.shiftr x 3).
Definition sigma1 x :=
  Z.lxor (Z.lxor (rotr x 17) (rotr x 19)) (Z.shiftr x 10).

(** Message schedule: [w] holds W[0..t-1]; [n] more words are appended. *)
Fixpoint schedule (n : nat) (w : list Z) : list Z :=
  match n with
  | O => w
  | S n' =>
      let t := length w in
      let at_ k := nth (t - k) w 0 in
      schedule n'
        (w ++ [add (add (add (sigma1 (at_ 2%nat)) (at_ 7%nat))
                        (sigma0 (at_ 15%nat))) (at_ 16%nat)])
  end.

Definition round (h : list Z) (kw : Z * Z) : list Z :=
  match h with
  | [a; b; c; d; e; f; g; hh] =>
      let t1 := add (add (add (add hh (Sigma1 e)) (Ch e f g)) kw.1) kw.2 in
      let t2 := add (Sigma0 a) (Maj a b c) in
      [add t1 t2; a; b; c; add d t1; e; f; g]
  | _ => h
  end.

Definition compress (h : list Z) (block : list byte) : list Z :=
  let w := schedule 48 (map be_word (groups 4 16 block)) in
  let h' := fold_left round (zip K w) h in
  zip_with add h h'.

Definition digest (msg : list byte) : list byte :=
  let padded := pad msg in
  let h := fold_left compress (groups 64 (length padded / 64) padded) init in
  concat (map (be_bytes 4) h).

End SHA256.

(** ** [hashlib.sha224] (FIPS 180-4): SHA-256 from other initial values,
    cut to 28 bytes *)

Module SHA224.
Import Bytes Word32.

Definition block_size : Z := 64.

(** The second 32 bits of the fractional parts of the square roots of the
    9th to the 16th prime. *)
Definition init : list Z :=
  Eval vm_compute in
    map (fun p => wrap (Z.sqrt (p * 2 ^ 128))) (take 8 (drop 8 SHA256.primes)).

Definition digest (msg : list byte) : list byte :=
  let padded := SHA256.pad msg in
  let h := fold_left SHA256.compress
             (groups 64 (length padded / 64) padded) init in
  take 28 (concat (map (be_bytes 4) h)).

End SHA224.

(** ** [hashlib.sha1] (FIPS 180-4) *)

Module SHA1.
Import Bytes Word32.

Definition block_size : Z := 64.

Definition init : list Z :=
  [0x67452301; 0xEFCDAB89; 0x98BADCFE; 0x10325476; 0xC3D2E1F0].

(** The round constants: 2^30 times the square roots of 2, 3, 5 and 10. *)
Definition K (t : nat) : Z :=
  Z.sqrt (nth (t / 20) [2; 3; 5; 10] 0 * 2 ^ 60).

Definition f (t : nat) (b c d : Z) : Z :=
  match (t / 20)%nat with
  | 0%nat => SHA256.Ch b c d
  | 2%nat => SHA256.Maj b c d
  | _ => Z.lxor (Z.lxor b c) d
  end.

(** Message schedule: [w] holds W[0..t-1]; [n] more words are appended. *)
Fixpoint schedule (n : nat) (w : list Z) : list Z :=
  match n with
  | O => w
  | S n' =>
      let t := length w in
      let at_ k := nth (t - k) w 0 in
      schedule n'
        (w ++ [rotl (Z.lxor (Z.lxor (Z.lxor (at_ 3%nat) (at_ 8%nat))
                                    (at_ 14%nat)) (at_ 16%nat)) 1])
  end.

Definition round (h : list Z) (tw : nat * Z) : list Z :=
  match h with
  | [a; b; c; d; e] =>
      let temp :=
        add (add (add (add (rotl a 5) (f tw.1 b c d)) e) (K tw.1)) tw.2 in
      [temp; a; rotl b 30; c; d]
  | _ => h
  end.

Definition compress (h : list Z) (block : list byte) : list Z :=
  let w := schedule 64 (map be_word (groups 4 16 block)) in
  let h' := fold_left round (zip (seq 0 80) w) h in
  zip_with add h h'.

Definition digest (msg : list byte) : list byte :=
  let padded := SHA256.pad msg in
  let h := fold_left compress (groups 64 (length padded / 64) padded) init in
  concat (map (be_bytes 4) h).

End SHA1.

(** ** [hashlib.sha512] and [hashlib.sha384] (FIPS 180-4) *)

Module Word64.

Definition wrap (x : Z) : Z := x mod 2 ^ 64.
Definition add (x y : Z) : Z := wrap (x + y).
Definition not (x : Z) : Z := Z.lxor x 0xFFFFFFFFFFFFFFFF.
Definition rotr (x n : Z) : Z :=
  Z.lor (Z.shiftr x n) (wrap (Z.shiftl x (64 - n))).

End Word64.

Module SHA512.
Import Bytes Word64.

Definition block_size : Z := 128.

Definition primes : list Z :=
  SHA256.primes
    ++ [313; 317; 331; 337; 347; 349; 353; 359; 367; 373; 379; 383; 389;
        397; 401; 409].

(** The first 64 bits of the fractional parts of the cube roots of the
    first 80 primes. *)
Definition K : list Z :=
  Eval vm_compute in
    map (fun p => wrap (SHA256.cbrt_bits 68 (p * 2 ^ 192) 0)) primes.

(** The first 64 bits of the fractional parts of the square roots of the
    first 8 primes. *)
Definition init : list Z :=
  Eval vm_compute in
    map (fun p => wrap (Z.sqrt (p * 2 ^ 128))) (take 8 primes).

Definition pad (msg : list byte) : list byte :=
  let len := Z.of_nat (length msg) in
  let zeros := Z.to_nat ((111 - len) mod 128) in
  msg ++ [x80] ++ replicate zeros x00 ++ be_bytes 16 (8 * len).

Definition Ch (x y z : Z) := Z.lxor (Z.land x y) (Z.land (not x) z).
Definition Maj (x y z : Z) :=
  Z.lxor (Z.lxor (Z.land x y) (Z.land x z)) (Z.land y z).
Definition Sigma0 x := Z.lxor (Z.lxor (rotr x 28) (rotr x 34)) (rotr x 39).
Definition Sigma1 x := Z.lxor (Z.lxor (rotr x 14) (rotr x 18)) (rotr x 41).
Definition sigma0 x := Z.lxor (Z.lxor (rotr x 1) (rotr x 8)) (Z.shiftr x 7).
Definition sigma1 x :=
  Z.lxor (Z.lxor (rotr x 19) (rotr x 61)) (Z.shiftr x 6).

(** Message schedule: [w] holds W[0..t-1]; [n] more words are appended. *)
Fixpoint schedule (n : nat) (w : list Z) : list Z :=
  match n with
  | O => w
  | S n' =>
      let t := length w in
      let at_ k := nth (t - k) w 0 in
      schedule n'
        (w ++ [add (add (add (sigma1 (at_ 2%nat)) (at_ 7%nat))
                        (sigma0 (at_ 15%nat))) (at_ 16%nat)])
  end.

Definition round (h : list Z) (kw : Z * Z) : list Z :=
  match h with
  | [a; b; c; d; e; f; g; hh] =>
      let t1 := add (add (add (add hh (Sigma1 e)) (Ch e f g)) kw.1) kw.2 in
      let t2 := add (Sigma0 a) (Maj a b c) in
      [add t1 t2; a; b; c; add d t1; e; f; g]
  | _ => h
  end.

Definition compress (h : list Z) (block : list byte) : list Z :=
  let w := schedule 64 (map be_word (groups 8 16 block)) in
  let h' := fold_left round (zip K w) h in
  zip_with add h h'.

Definition digest_from (init : list Z) (msg : list byte) : list byte :=
  let padded := pad msg in
  let h := fold_left compress (groups 128 (length padded / 128) padded) init
  in
  concat (map (be_bytes 8) h).

Definition digest : list byte -> list byte := digest_from init.

End SHA512.

Module SHA384.
Import Bytes Word64.

Definition block_size : Z := 128.

(** The first 64 bits of the fractional parts of the square roots of the
    9th to the 16th prime. *)
Definition init : list Z :=
  Eval vm_compute in
    map (fun p => wrap (Z.sqrt (p * 2 ^ 128))) (take 8 (drop 8 SHA256.primes)).

Definition digest (msg : list byte) : list byte :=
  take 48 (SHA512.digest_from init msg).

End SHA384.

(** ** [base64.b64encode] (RFC 4648) *)

Module Base64.
Import Bytes.

Definition alphabet : string :=
  "ABCDEFGHIJKLMNOPQRSTUVWXYZabcdefghijklmnopqrstuvwxyz0123456789+/".

Definition sextet (n : Z) : ascii :=
  match String.get (Z.to_nat (n mod 64)) alphabet with
  | Some c => c
  | None => "="%char
  end.

Fixpoint encode_fuel (fuel : nat) (bs : list byte) : string :=
  match fuel with
  | O => ""
  | S fuel' =>
      match bs with
      | [] => ""
      | [a] =>
          let n := Z.shiftl (to_Z a) 16 in
          String (sextet (Z.shiftr n 18))
            (String (sextet (Z.shiftr n 12)) "==")
      | [a; b] =>
          let n := Z.lor (Z.shiftl (to_Z a) 16) (Z.shiftl (to_Z b) 8) in
          String (sextet (Z.shiftr n 18))
            (String (sextet (Z.shiftr n 12))
               (String (sextet (Z.shiftr n 6)) "="))
      | a :: b :: c :: rest =>
          let n := Z.lor (Z.lor (Z.shiftl (to_Z a) 16)
                                (Z.shiftl (to_Z b) 8)) (to_Z c) in
          String (sextet (Z.shiftr n 18))
            (String (sextet (Z.shiftr n 12))
               (String (sextet (Z.shiftr n 6))
                  (String (sextet n) (encode_fuel fuel' rest))))
      end
  end.

Definition b64encode (bs : list byte) : string :=
  encode_fuel (S (length bs)) bs.

End Base64.

(** ** Double precision: [float(n)], [x / y], [math.ceil], [int(x)]

    CPython floats are IEEE 754 binary64 values; the operations are those
    of the standard library's executable specification [SpecFloat]. *)

Module Float.

Definition prec : Z := 53.
Definition emax : Z := 1024.

(** [float(n)] for an integer [n]: the nearest double, ties to even. *)
Definition of_int (n : Z) : spec_float := binary_normalize prec emax n 0 false.

Definition div (x y : spec_float) : spec_float := SFdiv prec emax x y.

Definition is_zero (x : spec_float) : bool :=
  match x with S754_zero _ => true | _ => false end.

Definition is_finite (x : spec_float) : bool :=
  match x with S754_zero _ | S754_finite _ _ _ => true | _ => false end.

(** [int(math.ceil(x))]; [None] for an infinity or a NaN. *)
Definition ceil_int (x : spec_float) : option Z :=
  match x with
  | S754_zero _ => Some 0
  | S754_finite s m e =>
      let n := cond_Zopp s (Z.pos m) in
      Some (if 0 <=? e then n * 2 ^ e else - ((- n) / 2 ^ (- e)))
  | _ => None
  end.

End Float.

(** ** Strings and paths: [str], [str.zfill], [os.path] *)

Definition str (n : Z) : string := pretty n.

Definition len (s : string) : Z := Z.of_nat (String.length s).

Fixpoint zeros (n : nat) : string :=
  match n with
  | O => ""
  | S n' => String "0" (zeros n')
  end.

(** [s.zfill(width)]: zeros go after a leading sign. *)
Definition zfill (s : string) (width : Z) : string :=
  let fill := zeros (Z.to_nat (width - len s)) in
  match s with
  | String c rest =>
      if (Ascii.eqb c "+" || Ascii.eqb c "-")%bool
      then String c (fill +:+ rest)
      else fill +:+ s
  | EmptyString => fill
  end.

Definition is_sep (c : ascii) : bool := Ascii.eqb c "/".

Fixpoint has_sep (s : string) : bool :=
  match s with
  | EmptyString => false
  | String c rest => (is_sep c || has_sep rest)%bool
  end.

(** [os.path.basename(p)]: what follows the last slash. *)
Fixpoint basename (p : string) : string :=
  match p with
  | EmptyString => ""
  | String c rest =>
      if (is_sep c || has_sep rest)%bool then basename rest else p
  end.

Fixpoint ends_with_sep (p : string) : bool :=
  match p with
  | EmptyString => false
  | String c EmptyString => is_sep c
  | String _ rest => ends_with_sep rest
  end.

(** The prefix [os.path.join(a, _)] puts in front of a relative name. *)
Definition dir_prefix (a : string) : string :=
  match a with
  | EmptyString => ""
  | _ => if ends_with_sep a then a else a +:+ "/"
  end.

(** [os.path.join(a, b)] *)
Definition join (a b : string) : string :=
  match b with
  | String c _ => if is_sep c then b else dir_prefix a +:+ b
  | EmptyString => dir_prefix a
  end.

(** ['.'.join((a, b))] *)
Definition dot_join (a b : string) : string := a +:+ "." +:+ b.

(** ** [hashlib]

    A hash object accumulates what [update] feeds it; [digest] runs the
    algorithm over the accumulated bytes. *)

Record hash_algorithm := HashAlgorithm {
  block_size : Z;
  run : list byte -> list byte
}.

Record hash_object := HashObject {
  algorithm_of : hash_algorithm;
  fed : list byte
}.

Definition update (h : hash_object) (chunk : list byte) : hash_object :=
  HashObject (algorithm_of h) (fed h ++ chunk).

Definition digest (h : hash_object) : list byte := run (algorithm_of h) (fed h).

(** An attribute of the [hashlib] module. *)
Inductive attribute :=
| Constructor (a : hash_algorithm)  (* [hashlib.md5], ...: calling it gives a hash object *)
| Other                             (* [hashlib.new], [hashlib.algorithms], ...: not callable without arguments *)
| Missing.                          (* no such attribute *)

Definition hashlib (name : string) : attribute :=
  if String.eqb name "md5" then Constructor (HashAlgorithm MD5.block_size MD5.digest)
  else if String.eqb name "sha1" then Constructor (HashAlgorithm SHA1.block_size SHA1.digest)
  else if String.eqb name "sha224" then Constructor (HashAlgorithm SHA224.block_size SHA224.digest)
  else if String.eqb name "sha256" then Constructor (HashAlgorithm SHA256.block_size SHA256.digest)
  else if String.eqb name "sha384" then Constructor (HashAlgorithm SHA384.block_size SHA384.digest)
  else if String.eqb name "sha512" then Constructor (HashAlgorithm SHA512.block_size SHA512.digest)
  else if existsb (String.eqb name)
            ["new"; "algorithms"; "algorithms_guaranteed";
             "algorithms_available"; "pbkdf2_hmac"]
  then Other
  else Missing.

(** ** Exceptions and outcomes *)

Inductive exn :=
| AttributeError (name : string)
| TypeError
| IOError (path : string)
| OSError (path : string)
| OverflowError
| ZeroDivisionError
| KeyError (key : string)
| AssertionError (message : string)
| ClientError (operation code : string).   (* raised by the boto3 client *)

Inductive outcome (A : Type) :=
| Return (a : A)
| Raise (e : exn).
Arguments Return {A} a.
Arguments Raise {A} e.

(** ** The S3 client

    The remote store is outside the program: a client is any implementation
    of the five operations the program calls, over a store state of its own.
    An operation answers with a response or fails with an error code, which
    the client raises as [ClientError]. *)

Inductive result (A : Type) :=
| Ok (response : A)
| Err (code : string).
Arguments Ok {A} response.
Arguments Err {A} code.

(** Responses are dictionaries; a field is [None] when the key is absent. *)
Record create_mpu_response := { UploadId : option string }.
Record upload_part_response := { part_ETag : option string }.
Record complete_mpu_response := { ETag : option string }.
Record head_object_response := {
  Metadata : option (gmap string string);
  ContentLength : option Z
}.

(** An entry of [fileparts['Parts']]. *)
Record part := Part { Part_ETag : string; PartNumber : Z }.

Record S3Client := {
  store : Type;
  create_multipart_upload :
    string -> string -> gmap string string -> store ->
    result create_mpu_response * store;
  upload_part :
    string -> string -> string -> Z -> list byte -> string -> store ->
    result upload_part_response * store;
  complete_multipart_upload :
    string -> string -> string -> list part -> store ->
    result complete_mpu_response * store;
  abort_multipart_upload :
    string -> string -> string -> store -> result unit * store;
  head_object :
    string -> string -> store -> result head_object_response * store
}.

(** ** Observable events, in the order they happen *)

Inductive event :=
| Print (line : string)
| Mkdtemp (dir : string)
| Write (path : string) (data : list byte)
| Rmtree (dir : string)
| CreateMultipartUpload (Bucket Key : string) (Meta : gmap string string)
    (r : result create_mpu_response)
| UploadPart (Bucket Key Upload : string) (Number : Z) (Body : list byte)
    (ContentMD5 : string) (r : result upload_part_response)
| CompleteMultipartUpload (Bucket Key Upload : string) (Parts : list part)
    (r : result complete_mpu_response)
| AbortMultipartUpload (Bucket Key Upload : string) (r : result unit)
| HeadObject (Bucket Key : string) (r : result head_object_response).

(** Values compared by the final checks: a digest or a size. *)
Inductive value :=
| Str (s : string)
| Int (n : Z).

Global Instance value_eq_dec : EqDecision value.
Proof. solve_decision. Defined.

Record assertion := Assertion {
  description : string;
  expected : value;
  found : value
}.

Definition DEFAULT_FILE_PIECE_SIZE : Z := 10 * 1024 * 1024.

(** The [algorithm='md5'] default of [get_file_hash]. *)
Definition default_algorithm : string := "md5".

(** [file.read(n)] on what is left of an open file: the bytes read and the
    bytes left.  A negative [n] reads to the end. *)
Definition read (n : Z) (file_ : list byte) : list byte * list byte :=
  if n <? 0 then (file_, [])
  else (take (Z.to_nat n) file_, drop (Z.to_nat n) file_).

(** [iter(read_chunk, '')]: chunks until the first empty read. *)
Fixpoint read_chunks (fuel : nat) (n : Z) (file_ : list byte)
  : list (list byte) :=
  match fuel with
  | O => []
  | S fuel' =>
      match read n file_ with
      | ([], _) => []
      | (chunk, rest) => chunk :: read_chunks fuel' n rest
      end
  end.

Fixpoint dropwhile_not {A} (keep : A -> bool) (l : list A) : list A :=
  match l with
  | [] => []
  | x :: rest => if keep x then l else dropwhile_not keep rest
  end.

(** [range(n)] *)
Definition range (n : Z) : list Z := map Z.of_nat (seq 0 (Z.to_nat n)).

Section Program.
Context (s3 : S3Client).

(** The state the program runs in: the local file system (regular files
    by path, the directories that exist, the names [tempfile] will try),
    the remote store, and the events so far. *)
Record world := World {
  files : gmap string (list byte);
  dirs : gset string;
  tmp_names : list string;
  remote : store s3;
  trace : list event
}.

(** A computation returns a value or raises, and leaves a world. *)
Definition M (A : Type) : Type := world -> outcome A * world.

Global Instance M_ret : MRet M := fun A a w => (Return a, w).

Global Instance M_bind : MBind M := fun A B f m w =>
  match m w with
  | (Return a, w1) => f a w1
  | (Raise e, w1) => (Raise e, w1)
  end.

Definition raise {A} (e : exn) : M A := fun w => (Raise e, w).

(** [try: body finally: handler].  The handler sees the value the body
    assigned, if it got that far.  An exception of the handler replaces
    whatever the body left pending. *)
Definition try_finally {A} (body : M A) (handler : option A -> M unit)
  : M A := fun w =>
  let '(r, w1) := body w in
  let assigned := match r with Return a => Some a | Raise _ => None end in
  match handler assigned w1 with
  | (Return _, w2) => (r, w2)
  | (Raise e, w2) => (Raise e, w2)
  end.

Definition emit (e : event) : M unit := fun w =>
  (Return tt,
   World (files w) (dirs w) (tmp_names w) (remote w) (trace w ++ [e])).

Definition print (line : string) : M unit := emit (Print line).

(** [d[key]] *)
Definition getitem {A} (key : string) (field : option A) : M A :=
  match field with
  | Some v => mret v
  | None => raise (KeyError key)
  end.

(** *** The file system *)

Definition getsize (path : string) : M Z := fun w =>
  match files w !! path with
  | Some content => (Return (Z.of_nat (length content)), w)
  | None => (Raise (OSError path), w)
  end.

(** [open(path, 'rb')]: the content of the file. *)
Definition open_rb (path : string) : M (list byte) := fun w =>
  match files w !! path with
  | Some content => (Return content, w)
  | None => (Raise (IOError path), w)
  end.

(** [open(path, 'wb')] followed by one [write(data)].  The directory is
    taken to exist: the program only writes into the directory [mkdtemp]
    has just made. *)
Definition write_file (path : string) (data : list byte) : M unit :=
  fun w =>
  (Return tt,
   World (<[path := data]> (files w)) (dirs w) (tmp_names w) (remote w)
         (trace w ++ [Write path data])).

Definition usable (w : world) (name : string) : bool :=
  (negb (bool_decide (name ∈ dirs w))
   && negb (bool_decide (is_Some (files w !! name))))%bool.

(** [tempfile.mkdtemp()]: the first candidate name that does not exist
    yet becomes a directory; the call fails when no candidate is left. *)
Definition mkdtemp : M string := fun w =>
  match dropwhile_not (usable w) (tmp_names w) with
  | dir :: later =>
      (Return dir,
       World (files w) ({[dir]} ∪ dirs w) later (remote w)
             (trace w ++ [Mkdtemp dir]))
  | [] =>
      (Raise (IOError "No usable temporary directory name found"),
       World (files w) (dirs w) [] (remote w) (trace w))
  end.

(** A path lies under [dir] when it extends the prefix [os.path.join]
    builds from [dir]. *)
Definition under (dir path : string) : bool :=
  String.prefix (dir_prefix dir) path.

(** [shutil.rmtree(dir)]: the directory and the files under it go. *)
Definition rmtree (dir : string) : M unit := fun w =>
  if bool_decide (dir ∈ dirs w) then
    (Return tt,
     World (filter (fun entry => under dir entry.1 = false) (files w))
           (dirs w ∖ {[dir]}) (tmp_names w) (remote w)
           (trace w ++ [Rmtree dir]))
  else (Raise (OSError dir), w).

(** *** Calls through the boto3 client *)

Definition call {A} (operation : string)
    (request : store s3 -> result A * store s3)
    (log : result A -> event) : M A := fun w =>
  let '(r, remote') := request (remote w) in
  let w' := World (files w) (dirs w) (tmp_names w) remote'
                  (trace w ++ [log r]) in
  match r with
  | Ok response => (Return response, w')
  | Err code => (Raise (ClientError operation code), w')
  end.

Definition s3_create_multipart_upload (Bucket Key : string)
    (Meta : gmap string string) : M create_mpu_response :=
  call "CreateMultipartUpload"
       (create_multipart_upload s3 Bucket Key Meta)
       (CreateMultipartUpload Bucket Key Meta).

Definition s3_upload_part (Bucket Key Upload : string) (Number : Z)
    (Body : list byte) (ContentMD5 : string) : M upload_part_response :=
  call "UploadPart"
       (upload_part s3 Bucket Key Upload Number Body ContentMD5)
       (UploadPart Bucket Key Upload Number Body ContentMD5).

Definition s3_complete_multipart_upload (Bucket Key Upload : string)
    (Parts : list part) : M complete_mpu_response :=
  call "CompleteMultipartUpload"
       (complete_multipart_upload s3 Bucket Key Upload Parts)
       (CompleteMultipartUpload Bucket Key Upload Parts).

Definition s3_abort_multipart_upload (Bucket Key Upload : string)
  : M unit :=
  call "AbortMultipartUpload"
       (abort_multipart_upload s3 Bucket Key Upload)
       (AbortMultipartUpload Bucket Key Upload).

Definition s3_head_object (Bucket Key : string) : M head_object_response :=
  call "HeadObject" (head_object s3 Bucket Key) (HeadObject Bucket Key).

(** *** [get_file_hash] *)

(** [getattr(hashlib, algorithm)()] *)
Definition new_hash (algorithm : string) : M hash_object :=
  match hashlib algorithm with
  | Constructor a => mret (HashObject a [])
  | Other => raise TypeError
  | Missing => raise (AttributeError algorithm)
  end.

Definition get_file_hash (filename algorithm : string) : M string :=
  hash_obj ← new_hash algorithm;
  file_ ← open_rb filename;
  let chunks :=
    read_chunks (S (length file_))
                (block_size (algorithm_of hash_obj) * 1024) file_ in
  let hash_obj := fold_left update chunks hash_obj in
  let file_hash := digest hash_obj in
  let file_hash := Base64.b64encode file_hash in
  mret file_hash.

(** *** [split_input_file] *)

(** [int(math.ceil(input_file_size / float(file_piece_size)))] *)
Definition count_file_pieces (input_file_size file_piece_size : Z) : M Z :=
  let divisor := Float.of_int file_piece_size in
  if negb (Float.is_finite divisor) then raise OverflowError else
  let dividend := Float.of_int input_file_size in
  if negb (Float.is_finite dividend) then raise OverflowError else
  if Float.is_zero divisor then raise ZeroDivisionError else
  match Float.ceil_int (Float.div dividend divisor) with
  | Some n => mret n
  | None => raise OverflowError
  end.

Definition file_piece_name (input_filename temp_dir : string)
    (num_file_pieces index : Z) : string :=
  join temp_dir
       (dot_join (basename input_filename)
                 (zfill (str (index + 1)) (len (str num_file_pieces)))).

(** The body of the [for index in range(num_file_pieces)] loop:
    [input_file] is what is left to read of the source. *)
Fixpoint write_file_pieces (input_filename temp_dir : string)
    (file_piece_size num_file_pieces : Z) (indices : list Z)
    (input_file : list byte) (file_piece_names : list string)
  : M (list string) :=
  match indices with
  | [] => mret file_piece_names
  | index :: later =>
      let this_file_piece_name :=
        file_piece_name input_filename temp_dir num_file_pieces index in
      let '(data, input_file) := read file_piece_size input_file in
      write_file this_file_piece_name data;;
      write_file_pieces input_filename temp_dir file_piece_size
        num_file_pieces later input_file
        (file_piece_names ++ [this_file_piece_name])
  end.

Definition split_input_file (input_filename temp_dir : string)
    (file_piece_size : Z) : M (list string) :=
  input_file_size ← getsize input_filename;
  num_file_pieces ← count_file_pieces input_file_size file_piece_size;
  let file_piece_names := [] in
  input_file ← open_rb input_filename;
  write_file_pieces input_filename temp_dir file_piece_size num_file_pieces
    (range num_file_pieces) input_file file_piece_names.

(** *** [upload_file_pieces] *)

Definition uploading_message (file_piece_name : string) (part_num total_num : Z)
    (file_piece_hash : string) : string :=
  "Uploading " +:+ file_piece_name +:+ " (part " +:+ str part_num
    +:+ " of " +:+ str total_num +:+ "), hash: " +:+ file_piece_hash
    +:+ " ".

(** The [for index, file_piece_name in enumerate(file_piece_names)] loop;
    [todo] is what is left of the enumeration and [Parts] is
    [fileparts['Parts']]. *)
Fixpoint upload_parts (bucket_name key upload_id : string) (total_num : Z)
    (todo : list (Z * string)) (Parts : list part) : M (list part) :=
  match todo with
  | [] => mret Parts
  | (index, file_piece_name) :: later =>
      let part_num := index + 1 in
      file_piece_hash ← get_file_hash file_piece_name default_algorithm;
      print (uploading_message file_piece_name part_num total_num
                               file_piece_hash);;
      file_piece ← open_rb file_piece_name;
      upload_part_response ←
        s3_upload_part bucket_name key upload_id part_num file_piece
                       file_piece_hash;
      etag ← getitem "ETag" (part_ETag upload_part_response);
      upload_parts bucket_name key upload_id total_num later
                   (Parts ++ [Part etag part_num])
  end.

(** [enumerate(l)] *)
Definition enumerate {A} (l : list A) : list (Z * A) :=
  zip (range (Z.of_nat (length l))) l.

(** The [for assertion in assertions] loop. *)
Fixpoint check_assertions (assertions : list assertion) : M unit :=
  match assertions with
  | [] => mret tt
  | a :: later =>
      if decide (expected a = found a) then
        print ("Passed check '" +:+ description a +:+ "'.");;
        check_assertions later
      else
        raise (AssertionError ("Failed check '" +:+ description a +:+ "'!"))
  end.

(** The [try] block (lines 72 to 104): upload every piece, then ask the
    store to complete.  What it returns is what line 99 assigns to
    [complete_mpu_response]. *)
Definition upload_file_pieces_try (bucket_name key upload_id : string)
    (file_piece_names : list string) : M complete_mpu_response :=
  let fileparts := [] in
  fileparts ←
    upload_parts bucket_name key upload_id
      (Z.of_nat (length file_piece_names))
      (enumerate file_piece_names) fileparts;
  print "Finished uploading.";;
  s3_complete_multipart_upload bucket_name key upload_id fileparts.

(** The [finally] block (lines 105 to 113).  [assigned] is the response
    line 99 assigned, if the [try] block got that far; otherwise
    [complete_mpu_response] still is the [{}] of line 70. *)
Definition upload_file_pieces_finally (bucket_name key upload_id : string)
    (assigned : option complete_mpu_response) : M unit :=
  let complete_mpu_response := default {| ETag := None |} assigned in
  match ETag complete_mpu_response with
  | None =>
      print ("Exiting program and the upload is incomplete. "
               +:+ "Aborting multipart upload...");;
      s3_abort_multipart_upload bucket_name key upload_id;;
      print "Upload aborted."
  | Some _ => mret tt
  end.

(** The checks on the stored object (lines 115 to 132). *)
Definition upload_file_pieces_checks (bucket_name key : string)
    (expected_complete_file_hash : string)
    (expected_complete_file_size : Z) : M unit :=
  head_object_response ← s3_head_object bucket_name key;
  metadata ← getitem "Metadata" (Metadata head_object_response);
  found_hash ← getitem "md5" (metadata !! "md5");
  found_size ← getitem "ContentLength" (ContentLength head_object_response);
  let assertions :=
    [ Assertion "hashes for combined files are equal"
                (Str expected_complete_file_hash) (Str found_hash);
      Assertion "file sizes of combined files are equal"
                (Int expected_complete_file_size) (Int found_size) ] in
  check_assertions assertions;;
  print "Upload successful!".

Definition upload_file_pieces (bucket_name key : string)
    (expected_complete_file_hash : string)
    (expected_complete_file_size : Z)
    (file_piece_names : list string) : M unit :=
  create_mpu_response ←
    s3_create_multipart_upload bucket_name key
      {[ "md5" := expected_complete_file_hash ]};
  upload_id ← getitem "UploadId" (UploadId create_mpu_response);
  try_finally
    (upload_file_pieces_try bucket_name key upload_id file_piece_names)
    (upload_file_pieces_finally bucket_name key upload_id);;
  upload_file_pieces_checks bucket_name key expected_complete_file_hash
    expected_complete_file_size.

(** *** [upload_file] *)

(** The [try] block of [upload_file] (lines 139 to 151). *)
Definition upload_file_try (bucket_name original_filename temp_dir : string)
    (file_piece_size : Z) : M unit :=
  file_piece_names ←
    split_input_file original_filename temp_dir file_piece_size;
  expected_complete_file_hash ←
    get_file_hash original_filename default_algorithm;
  expected_complete_file_size ← getsize original_filename;
  upload_file_pieces bucket_name (basename original_filename)
    expected_complete_file_hash expected_complete_file_size
    file_piece_names.

(** The [finally] block of [upload_file] (lines 152 to 159). *)
Definition upload_file_finally (temp_dir : string)
    (keep_file_pieces : bool) : M unit :=
  if negb keep_file_pieces then
    print ("Deleting file piece directory " +:+ temp_dir +:+ "...");;
    rmtree temp_dir;;
    print ("Deleted " +:+ temp_dir +:+ " successfully.")
  else
    print ("Leaving file piece directory " +:+ temp_dir
             +:+ " at user request.").

Definition upload_file (bucket_name original_filename : string)
    (file_piece_size : Z) (keep_file_pieces : bool) : M unit :=
  temp_dir ← mkdtemp;
  try_finally
    (upload_file_try bucket_name original_filename temp_dir
       file_piece_size)
    (fun _ => upload_file_finally temp_dir keep_file_pieces).

End Program.

Arguments World {s3} files dirs tmp_names remote trace.
Arguments files {s3} w.
Arguments dirs {s3} w.
Arguments tmp_names {s3} w.
Arguments remote {s3} w.
Arguments trace {s3} w.

(** ** A scripted client

    A client whose answers are fixed in advance; it stands for a store in a
    given condition (healthy, rejecting parts, unable to abort, ...). *)

Record script := Script {
  create_reply : result create_mpu_response;
  part_reply : Z -> result upload_part_response;
  complete_reply : result complete_mpu_response;
  abort_reply : result unit;
  head_reply : result head_object_response
}.

Definition scripted (s : script) : S3Client := {|
  store := unit;
  create_multipart_upload := fun _ _ _ st => (create_reply s, st);
  upload_part := fun _ _ _ n _ _ st => (part_reply s n, st);
  complete_multipart_upload := fun _ _ _ _ st => (complete_reply s, st);
  abort_multipart_upload := fun _ _ _ st => (abort_reply s, st);
  head_object := fun _ _ st => (head_reply s, st)
|}.

(** The 50 bytes of [SMALL_TESTFILE_CONTENT]. *)
Definition SMALL_TESTFILE_CONTENT : list byte :=
  list_byte_of_string "+ELokXtvOjByfb92hqVRE74SOaA0B2AS3iwtPkjv74HTY76sqt".

Definition SMALL_TESTFILE_PATH : string := "./tests/small_testfile".

(** A store in good health, holding the test file once it is asked for
    the finished object. *)
Definition healthy : script :=
  Script (Ok {| UploadId := Some "upload-1" |})
         (fun n => Ok {| part_ETag := Some ("etag-" +:+ str n) |})
         (Ok {| ETag := Some "etag-object" |})
         (Ok tt)
         (Ok {| Metadata :=
                  Some {[ "md5" :=
                            Base64.b64encode
                              (MD5.digest SMALL_TESTFILE_CONTENT) ]};
                ContentLength :=
                  Some (Z.of_nat (length SMALL_TESTFILE_CONTENT)) |}).

(** A world with the test file and nothing else. *)
Definition test_world (s : script) : world (scripted s) :=
  World (s3 := scripted s)
        {[ SMALL_TESTFILE_PATH := SMALL_TESTFILE_CONTENT ]} ∅
        ["/tmp/tmpA"; "/tmp/tmpB"] tt [].

(** ** What a computation may do *)

Section Effects.
Context {s3 : S3Client}.

(** [m] only appends events satisfying [P], and leaves the directories and
    the name supply alone. *)
Definition emits {A} (P : event -> Prop) (m : M s3 A) : Prop :=
  forall w r w', m w = (r, w') ->
    dirs w' = dirs w /\ tmp_names w' = tmp_names w
    /\ exists evs, trace w' = trace w ++ evs /\ Forall P evs.

End Effects.

(** ** The session as the trace shows it *)

(** The two ways a multipart session ends. *)
Inductive terminal := Completed | Aborted.

(** A completion counts when the store answered with an [ETag], which is
    the test of line 106; an abort counts as soon as it is requested. *)
Definition terminal_of (e : event) : option terminal :=
  match e with
  | CompleteMultipartUpload _ _ _ _ (Ok response) =>
      match ETag response with
      | Some _ => Some Completed
      | None => None
      end
  | AbortMultipartUpload _ _ _ _ => Some Aborted
  | _ => None
  end.

Definition terminals (evs : list event) : list terminal :=
  omap terminal_of evs.

Definition is_print (e : event) : Prop :=
  match e with Print _ => True | _ => False end.

Definition print_or_upload (e : event) : Prop :=
  match e with
  | Print _ | UploadPart _ _ _ _ _ _ _ => True
  | _ => False
  end.

(** No part was refused. *)
Definition accepted (e : event) : Prop :=
  match e with
  | UploadPart _ _ _ _ _ _ (Err _) => False
  | _ => True
  end.

Definition md5_base64 (content : list byte) : string :=
  Base64.b64encode (MD5.digest content).

(** The part [p] acknowledges the piece [entry] of the enumeration: it
    carries the piece's number and the [ETag] the store gave when the bytes
    of that piece, with their digest, were uploaded under that number. *)
Definition acknowledges (Bucket Key Upload : string)
    (fs : gmap string (list byte)) (evs : list event)
    (entry : Z * string) (p : part) : Prop :=
  PartNumber p = entry.1 + 1
  /\ exists body,
       fs !! entry.2 = Some body
       /\ UploadPart Bucket Key Upload (entry.1 + 1) body (md5_base64 body)
            (Ok {| part_ETag := Some (Part_ETag p) |}) ∈ evs.

Section Steady.
Context {s3 : S3Client}.

(** From [w] to [w'] only the remote store moved and [evs] happened. *)
Definition steady (w w' : world s3) (evs : list event) : Prop :=
  files w' = files w /\ dirs w' = dirs w /\ tmp_names w' = tmp_names w
  /\ trace w' = trace w ++ evs.

End Steady.

(** What the two checks say. *)
Definition passed_hashes : event :=
  Print "Passed check 'hashes for combined files are equal'.".
Definition passed_sizes : event :=
  Print "Passed check 'file sizes of combined files are equal'.".
Definition failed_hashes : exn :=
  AssertionError "Failed check 'hashes for combined files are equal'!".
Definition failed_sizes : exn :=
  AssertionError "Failed check 'file sizes of combined files are equal'!".

(** The events [chk] and the outcome [r] of the checks on the stored
    object: one [HeadObject] request, then the two comparisons in order,
    stopping at the first that fails. *)
Definition checked (Bucket Key expected_hash : string) (expected_size : Z)
    (r : outcome unit) (chk : list event) : Prop :=
  exists reply told,
    chk = HeadObject Bucket Key reply :: told /\ Forall is_print told
    /\ match reply with
       | Err code => r = Raise (ClientError "HeadObject" code) /\ told = []
       | Ok head =>
           match Metadata head ≫= (.!! "md5"), ContentLength head with
           | Some found_hash, Some found_size =>
               if decide (expected_hash = found_hash) then
                 if decide (expected_size = found_size) then
                   r = Return tt
                   /\ told = [passed_hashes; passed_sizes;
                              Print "Upload successful!"]
                 else r = Raise failed_sizes /\ told = [passed_hashes]
               else r = Raise failed_hashes /\ told = []
           | _, _ => (exists key, r = Raise (KeyError key)) /\ told = []
           end
       end.

(** The events [tail] that end the [try] block, with what the block leaves
    in [complete_mpu_response] ([assigned]) and the exception it leaves
    pending ([pending]). *)
Definition attempted (Bucket Key Upload : string)
    (fs : gmap string (list byte)) (names : list string)
    (ups tail : list event) (assigned : option complete_mpu_response)
    (pending : option exn) : Prop :=
  (tail = [] /\ assigned = None /\ is_Some pending)
  \/ exists parts res,
       tail = [Print "Finished uploading.";
               CompleteMultipartUpload Bucket Key Upload parts res]
       /\ Forall2 (acknowledges Bucket Key Upload fs ups)
                  (enumerate names) parts
       /\ Forall accepted ups
       /\ match res with
          | Ok response => assigned = Some response /\ pending = None
          | Err code =>
              assigned = None
              /\ pending =
                   Some (ClientError "CompleteMultipartUpload" code)
          end.

(** The events [fin] of the [finally] block and [chk] of the checks, with
    the outcome [r] of the whole call. *)
Definition concluded (Bucket Key Upload expected_hash : string)
    (expected_size : Z) (assigned : option complete_mpu_response)
    (pending : option exn) (fin chk : list event) (r : outcome unit)
  : Prop :=
  match assigned ≫= ETag with
  | Some _ => fin = [] /\ checked Bucket Key expected_hash expected_size r chk
  | None =>
      exists res,
        fin = [Print ("Exiting program and the upload is incomplete. "
                        +:+ "Aborting multipart upload...");
               AbortMultipartUpload Bucket Key Upload res]
                ++ match res with
                   | Ok _ => [Print "Upload aborted."]
                   | Err _ => []
                   end
        /\ match res, pending with
           | Err code, _ =>
               r = Raise (ClientError "AbortMultipartUpload" code)
               /\ chk = []
           | Ok _, Some e => r = Raise e /\ chk = []
           | Ok _, None =>
               checked Bucket Key expected_hash expected_size r chk
           end
  end.

(** A store that refuses every part and then cannot abort. *)
Definition refusing : script :=
  Script (Ok {| UploadId := Some "upload-1" |})
         (fun _ => Err "BadDigest")
         (Err "InvalidPart")
         (Err "InternalError")
         (Err "NoSuchKey").

(** A store that takes the upload but ends up holding another object:
    neither the digest nor the length agree with the test file. *)
Definition corrupting : script :=
  Script (Ok {| UploadId := Some "upload-1" |})
         (fun n => Ok {| part_ETag := Some ("etag-" +:+ str n) |})
         (Ok {| ETag := Some "etag-object" |})
         (Ok tt)
         (Ok {| Metadata := Some {[ "md5" := "1B2M2Y8AsgTpgAmY7PhCfg==" ]};
                ContentLength := Some 0 |}).

(** A check is reported when its pass line was printed or its failure is
    the error the call ends with. *)
Definition reported (description : string) (r : outcome unit)
    (evs : list event) : Prop :=
  Print ("Passed check '" +:+ description +:+ "'.") ∈ evs
  \/ r = Raise (AssertionError ("Failed check '" +:+ description +:+ "'!")).

(** Decimal numerals. *)
Definition is_digit (c : ascii) : Prop :=
  exists d, (d < 10)%N /\ c = pretty_N_char d.

Definition digits_only (s : string) : Prop :=
  forall c, In c (list_ascii_of_string s) -> is_digit c.

Definition is_head (e : event) : Prop :=
  match e with HeadObject _ _ _ => True | _ => False end.

(** A world with one empty file and nothing else. *)
Definition EMPTY_TESTFILE_PATH : string := "./tests/empty_testfile".

Definition empty_world (s : script) : world (scripted s) :=
  World (s3 := scripted s)
        {[ EMPTY_TESTFILE_PATH := [] ]} ∅
        ["/tmp/tmpA"; "/tmp/tmpB"] tt [].

(** ** The requests of the upload loop, given the answers of the store *)

(** The [ETag] an answer to [upload_part] carries, if it carries one. *)
Definition granted (reply : result upload_part_response) : option string :=
  match reply with
  | Ok response => part_ETag response
  | Err _ => None
  end.

(** What the loop of [upload_file_pieces] prints and sends for the pieces
    [todo] when the store gives the answers [replies], one per request: it
    goes on as long as the piece file is there and the answer carries an
    [ETag]. *)
Fixpoint part_requests (Bucket Key Upload : string) (total : Z)
    (fs : gmap string (list byte)) (todo : list (Z * string))
    (replies : list (result upload_part_response)) : list event :=
  match todo, replies with
  | (index, name) :: todo', reply :: replies' =>
      match fs !! name with
      | Some body =>
          Print (uploading_message name (index + 1) total (md5_base64 body))
          :: UploadPart Bucket Key Upload (index + 1) body (md5_base64 body)
               reply
          :: match granted reply with
             | Some _ =>
                 part_requests Bucket Key Upload total fs todo' replies'
             | None => []
             end
      | None => []
      end
  | _, _ => []
  end.

(** How the loop ends with these answers: with the list of parts, or with
    the first error; [None] when the answers run out. *)
Fixpoint parts_outcome (fs : gmap string (list byte))
    (todo : list (Z * string)) (replies : list (result upload_part_response))
    (Parts : list part) : option (outcome (list part)) :=
  match todo with
  | [] => Some (Return Parts)
  | (index, name) :: todo' =>
      match fs !! name, replies with
      | None, _ => Some (Raise (IOError name))
      | Some _, [] => None
      | Some _, Err code :: _ => Some (Raise (ClientError "UploadPart" code))
      | Some _, Ok response :: replies' =>
          match part_ETag response with
          | Some etag =>
              parts_outcome fs todo' replies'
                            (Parts ++ [Part etag (index + 1)])
          | None => Some (Raise (KeyError "ETag"))
          end
      end
  end.

(** What an [UploadPart] request sends: the part number, the body and the
    digest announced for it. *)
Definition sent (e : event) : option (Z * list byte * string) :=
  match e with
  | UploadPart _ _ _ number body md5 _ => Some (number, body, md5)
  | _ => None
  end.

(** The events of the [finally] block when it aborts, with the answer
    [res] of the store. *)
Definition abort_events (Bucket Key Upload : string) (res : result unit)
  : list event :=
  [Print ("Exiting program and the upload is incomplete. "
            +:+ "Aborting multipart upload...");
   AbortMultipartUpload Bucket Key Upload res]
    ++ match res with
       | Ok _ => [Print "Upload aborted."]
       | Err _ => []
       end.

(** The error a refused part, or an answer without an [ETag], ends the
    loop with. *)
Definition refusal (answer : result upload_part_response) : exn :=
  match answer with
  | Err code => ClientError "UploadPart" code
  | Ok _ => KeyError "ETag"
  end.

(** The event is a line of output or a request about the upload [Upload]
    of [Key] in [Bucket]. *)
Definition addressed (Bucket Key Upload : string) (e : event) : Prop :=
  match e with
  | Print _ => True
  | UploadPart b k u _ _ _ _
  | CompleteMultipartUpload b k u _ _
  | AbortMultipartUpload b k u _ => b = Bucket /\ k = Key /\ u = Upload
  | HeadObject b k _ => b = Bucket /\ k = Key
  | _ => False
  end.

(** A store that takes whatever it is sent for [Key] in [Bucket], and
    then shows an object with the digest and the length announced. *)
Definition obliging (s3 : S3Client) (Bucket Key expected_hash : string)
    (expected_size : Z) : Prop :=
  (forall st, exists response st' u,
     create_multipart_upload s3 Bucket Key {[ "md5" := expected_hash ]} st
     = (Ok response, st')
     /\ UploadId response = Some u)
  /\ (forall u n body md5 st, exists response st' etag,
        upload_part s3 Bucket Key u n body md5 st = (Ok response, st')
        /\ part_ETag response = Some etag)
  /\ (forall u parts st, exists response st' etag,
        complete_multipart_upload s3 Bucket Key u parts st
        = (Ok response, st')
        /\ ETag response = Some etag)
  /\ (forall st, exists head st',
        head_object s3 Bucket Key st = (Ok head, st')
        /\ Metadata head ≫= (.!! "md5") = Some expected_hash
        /\ ContentLength head = Some expected_size).

(** A store that lets no session begin. *)
Definition closed : script :=
  Script (Err "AccessDenied")
         (fun _ => Err "NoSuchUpload")
         (Err "NoSuchUpload")
         (Err "NoSuchUpload")
         (Err "NoSuchKey").

(** What the [finally] block of [upload_file] prints and does. *)
Definition cleanup_events (temp_dir : string) (keep_file_pieces : bool)
  : list event :=
  if keep_file_pieces then
    [Print ("Leaving file piece directory " +:+ temp_dir
              +:+ " at user request.")]
  else
    [Print ("Deleting file piece directory " +:+ temp_dir +:+ "...");
     Rmtree temp_dir;
     Print ("Deleted " +:+ temp_dir +:+ " successfully.")].

(** The event is a request to the store. *)
Definition is_request (e : event) : Prop :=
  match e with
  | CreateMultipartUpload _ _ _ _ | UploadPart _ _ _ _ _ _ _
  | CompleteMultipartUpload _ _ _ _ _ | AbortMultipartUpload _ _ _ _
  | HeadObject _ _ _ => True
  | _ => False
  end.

(** The bucket and the key a request names. *)
Definition target (e : event) : option (string * string) :=
  match e with
  | CreateMultipartUpload b k _ _ | UploadPart b k _ _ _ _ _
  | CompleteMultipartUpload b k _ _ _ | AbortMultipartUpload b k _ _
  | HeadObject b k _ => Some (b, k)
  | _ => None
  end.

(** The key the checks of [upload_file_pieces] miss first in an answer to
    [head_object] that lacks the metadata, the [md5] entry or the length. *)
Definition missing_key (head : head_object_response) : string :=
  match Metadata head with
  | None => "Metadata"
  | Some metadata =>
      match metadata !! "md5" with
      | None => "md5"
      | Some _ => "ContentLength"
      end
  end.

(** A store that takes the upload and then shows an object without
    metadata. *)
Definition forgetful : script :=
  Script (Ok {| UploadId := Some "upload-1" |})
         (fun n => Ok {| part_ETag := Some ("etag-" +:+ str n) |})
         (Ok {| ETag := Some "etag-object" |})
         (Ok tt)
         (Ok {| Metadata := None; ContentLength := Some 50 |}).

(** The event is the making of the temporary directory or the writing of
    a piece. *)
Definition is_local (e : event) : Prop :=
  match e with
  | Mkdtemp _ | Write _ _ => True
  | _ => False
  end.

(** * Properties *)

(** ** Reading in chunks *)

Lemma read_app n file_ : (read n file_).1 ++ (read n file_).2 = file_.
Proof.
  unfold read. destruct (n <? 0); simpl.
  - apply app_nil_r.
  - apply take_drop.
Qed.

Lemma read_rest_length n file_ :
  0 < n -> (read n file_).1 <> [] ->
  (length (read n file_).2 < length file_)%nat.
Proof.
  unfold read. destruct (n <? 0) eqn:E; [lia|]. simpl. intros Hn Hne.
  rewrite length_drop. destruct file_ as [|b bs].
  - rewrite take_nil in Hne. congruence.
  - simpl. lia.
Qed.

Lemma read_empty n file_ : 0 < n -> (read n file_).1 = [] -> file_ = [].
Proof.
  unfold read. destruct (n <? 0) eqn:E; [lia|]. simpl. intros Hn H.
  destruct file_ as [|b bs]; [reflexivity|].
  destruct (Z.to_nat n) eqn:En; [lia|]. discriminate.
Qed.

Lemma read_chunks_concat fuel n file_ :
  0 < n -> (length file_ < fuel)%nat ->
  concat (read_chunks fuel n file_) = file_.
Proof.
  intros Hn. revert file_. induction fuel as [|fuel IH]; intros file_ Hlen.
  - lia.
  - simpl. pose proof (read_app n file_) as Happ.
    pose proof (read_rest_length n file_ Hn) as Hrest.
    pose proof (read_empty n file_ Hn) as Hemp.
    destruct (read n file_) as [chunk rest]. simpl in *.
    destruct chunk as [|b chunk].
    + symmetry. apply Hemp. reflexivity.
    + simpl. rewrite IH.
      * exact Happ.
      * assert ((length rest < length file_)%nat) by (apply Hrest; discriminate).
        lia.
Qed.

Lemma fold_update_fed chunks h :
  fold_left update chunks h
  = HashObject (algorithm_of h) (fed h ++ concat chunks).
Proof.
  revert h. induction chunks as [|c chunks IH]; intros h; simpl.
  - rewrite app_nil_r. destruct h; reflexivity.
  - rewrite IH. unfold update. simpl. rewrite <- app_assoc. reflexivity.
Qed.

Section Hasher.
Context (s3 : S3Client).
Implicit Types w : world s3.

(** Hashing never changes the world: it reads one file and nothing else. *)
Lemma get_file_hash_pure filename algorithm w r w' :
  get_file_hash s3 filename algorithm w = (r, w') -> w' = w.
Proof.
  unfold get_file_hash, new_hash, open_rb, mbind, M_bind, mret, M_ret, raise.
  destruct (hashlib algorithm); destruct (files w !! filename);
    intros [= <- <-]; reflexivity.
Qed.

(** Feeding the hash object chunk by chunk is hashing the whole content. *)
Lemma get_file_hash_content filename algorithm a content w :
  hashlib algorithm = Constructor a -> 0 < block_size a ->
  files w !! filename = Some content ->
  get_file_hash s3 filename algorithm w
  = (Return (Base64.b64encode (run a content)), w).
Proof.
  intros Ha Hb Hf.
  unfold get_file_hash, new_hash, open_rb, mbind, M_bind, mret, M_ret.
  rewrite Ha, Hf. cbv beta iota zeta.
  rewrite fold_update_fed. unfold digest. cbn [algorithm_of fed].
  rewrite read_chunks_concat by (simpl; lia). reflexivity.
Qed.

Lemma get_file_hash_missing_file filename algorithm a w :
  hashlib algorithm = Constructor a ->
  files w !! filename = None ->
  get_file_hash s3 filename algorithm w = (Raise (IOError filename), w).
Proof.
  intros Ha Hf.
  unfold get_file_hash, new_hash, open_rb, mbind, M_bind, mret, M_ret.
  rewrite Ha, Hf. reflexivity.
Qed.

End Hasher.

Lemma md5_SMALL_TESTFILE :
  Base64.b64encode (MD5.digest SMALL_TESTFILE_CONTENT)
  = "CoM0C8BkxBNJJJyzEO+PYw==".
Proof. vm_compute. reflexivity. Qed.

Lemma sha256_SMALL_TESTFILE :
  Base64.b64encode (SHA256.digest SMALL_TESTFILE_CONTENT)
  = "2GMyryXzElFw2g5yZxpPEU8dgoIRv9FNHoZeTSKU67s=".
Proof. vm_compute. reflexivity. Qed.

(** The other constructors of the module, on the same 50 bytes. *)
Lemma other_digests_SMALL_TESTFILE :
  map (fun name =>
         match hashlib name with
         | Constructor a => Base64.b64encode (run a SMALL_TESTFILE_CONTENT)
         | _ => ""
         end)
      ["sha1"; "sha224"; "sha384"; "sha512"]
  = ["eQnEEPGogle65F7kAA0JAMj30WE=";
     "mJDF8ffVLGH2f+yyDIdeIGoCuPddIWkbmNx4/A==";
     "dRvF0z1JHdHSaSGjXPAZb5CcLp6vvgvFpqZsVkRqXspbewcWbbW66K4cBW+pOrQy";
     "dbIfqhCid9k22LF6RVtBUw1dckGX2Krc0o9G3PeiNFcxV/JaLZlEA3Xq/8A9l+s3m2RlkwStvSwyAWJQFibJAQ=="].
Proof. vm_compute. reflexivity. Qed.

(** C7.  On the 50-byte test file, [get_file_hash] returns the base64 MD5
    digest [CoM0C8BkxBNJJJyzEO+PYw==] under the default algorithm and the
    base64 SHA-256 digest [2GMyryXzElFw2g5yZxpPEU8dgoIRv9FNHoZeTSKU67s=]
    when [sha256] is asked for, whatever the rest of the world is. *)
Theorem get_file_hash_known_vectors (s3 : S3Client) (w : world s3)
    (path : string) :
  files w !! path = Some SMALL_TESTFILE_CONTENT ->
  get_file_hash s3 path default_algorithm w
    = (Return "CoM0C8BkxBNJJJyzEO+PYw==", w)
  /\ get_file_hash s3 path "sha256" w
    = (Return "2GMyryXzElFw2g5yZxpPEU8dgoIRv9FNHoZeTSKU67s=", w).
Proof.
  intros Hf. split.
  - rewrite (get_file_hash_content s3 path default_algorithm
               (HashAlgorithm MD5.block_size MD5.digest)
               SMALL_TESTFILE_CONTENT w); [|reflexivity|reflexivity|exact Hf].
    cbn [run]. rewrite md5_SMALL_TESTFILE. reflexivity.
  - rewrite (get_file_hash_content s3 path "sha256"
               (HashAlgorithm SHA256.block_size SHA256.digest)
               SMALL_TESTFILE_CONTENT w); [|reflexivity|reflexivity|exact Hf].
    cbn [run]. rewrite sha256_SMALL_TESTFILE. reflexivity.
Qed.

(** C9.  Called with a name that is not one of the module's hash
    constructors, [get_file_hash] fails at its first line (with the
    [AttributeError] of [getattr], or the [TypeError] of calling an
    attribute that is no constructor) and leaves the world as it found it:
    no file was opened and no call went to the remote store. *)
Theorem get_file_hash_unsupported_algorithm (s3 : S3Client) (w : world s3)
    (filename algorithm : string) :
  (forall a, hashlib algorithm <> Constructor a) ->
  exists e,
    get_file_hash s3 filename algorithm w = (Raise e, w)
    /\ (e = AttributeError algorithm \/ e = TypeError)
    /\ remote (get_file_hash s3 filename algorithm w).2 = remote w
    /\ trace (get_file_hash s3 filename algorithm w).2 = trace w.
Proof.
  intros Hno.
  unfold get_file_hash, new_hash, mbind, M_bind, raise.
  destruct (hashlib algorithm) as [a| |] eqn:E.
  - exfalso. apply (Hno a). reflexivity.
  - exists TypeError. simpl. auto.
  - exists (AttributeError algorithm). simpl. auto.
Qed.

Lemma get_file_hash_unsupported_algorithm_witness :
  (forall a, hashlib "crc32" <> Constructor a)
  /\ exists e,
       get_file_hash (scripted healthy) SMALL_TESTFILE_PATH "crc32"
                     (test_world healthy)
       = (Raise e, test_world healthy).
Proof.
  assert (H : forall a, hashlib "crc32" <> Constructor a)
    by (intros a; vm_compute; discriminate).
  split; [exact H|].
  destruct (get_file_hash_unsupported_algorithm
              (scripted healthy) (test_world healthy)
              SMALL_TESTFILE_PATH "crc32" H) as (e & Hrun & _).
  exists e. exact Hrun.
Defined.

(** ** Effects of the building blocks *)

Section Effects.
Context {s3 : S3Client}.
Implicit Types w : world s3.

Lemma emits_ret {A} P (a : A) : emits P (mret a : M s3 A).
Proof.
  intros w r w' [= <- <-]. repeat split; try reflexivity.
  exists []. rewrite app_nil_r. auto.
Qed.

Lemma emits_raise {A} P e : emits P (raise s3 e : M s3 A).
Proof.
  intros w r w' [= <- <-]. repeat split; try reflexivity.
  exists []. rewrite app_nil_r. auto.
Qed.

Lemma emits_bind {A B} P (m : M s3 A) (f : A -> M s3 B) :
  emits P m -> (forall a, emits P (f a)) -> emits P (m ≫= f).
Proof.
  intros Hm Hf w r w'. unfold mbind, M_bind.
  destruct (m w) as [[a|e] w1] eqn:E; intros H.
  - destruct (Hm _ _ _ E) as (D1 & T1 & evs1 & Tr1 & F1).
    destruct (Hf a _ _ _ H) as (D2 & T2 & evs2 & Tr2 & F2).
    repeat split; try congruence.
    exists (evs1 ++ evs2). rewrite Tr2, Tr1, app_assoc. split; [reflexivity|].
    apply Forall_app; auto.
  - injection H as <- <-. exact (Hm _ _ _ E).
Qed.

Lemma emits_weaken {A} (P Q : event -> Prop) (m : M s3 A) :
  (forall e, P e -> Q e) -> emits P m -> emits Q m.
Proof.
  intros HPQ Hm w r w' H. destruct (Hm _ _ _ H) as (D & T & evs & Tr & F).
  repeat split; auto. exists evs. split; [exact Tr|].
  eapply Forall_impl; eauto.
Qed.

Lemma emits_emit P e : P e -> emits P (emit s3 e).
Proof.
  intros He w r w' [= <- <-]. simpl. repeat split; try reflexivity.
  exists [e]. auto.
Qed.

Lemma emits_call {A} P op (request : store s3 -> result A * store s3) log :
  (forall r, P (log r)) -> emits P (call s3 op request log).
Proof.
  intros Hlog w r w'. unfold call.
  destruct (request (remote w)) as [res st] eqn:E.
  destruct res; intros [= <- <-]; simpl; repeat split; try reflexivity;
    eexists [_]; split; try reflexivity; auto.
Qed.

Lemma emits_try_finally {A} P (body : M s3 A) handler :
  emits P body -> (forall o, emits P (handler o)) ->
  emits P (try_finally s3 body handler).
Proof.
  intros Hb Hh w r w'. unfold try_finally.
  destruct (body w) as [rb w1] eqn:E.
  destruct (handler _ w1) as [[[]|e] w2] eqn:E2; intros [= <- <-];
    destruct (Hb _ _ _ E) as (D1 & T1 & evs1 & Tr1 & F1);
    destruct (Hh _ _ _ _ E2) as (D2 & T2 & evs2 & Tr2 & F2);
    (repeat split; try congruence;
     exists (evs1 ++ evs2); rewrite Tr2, Tr1, app_assoc; split;
     [reflexivity|apply Forall_app; auto]).
Qed.

Lemma emits_getitem {A} P key (field : option A) : emits P (getitem s3 key field).
Proof. destruct field; [apply emits_ret|apply emits_raise]. Qed.

Lemma emits_getsize P path : emits P (getsize s3 path).
Proof.
  intros w r w'. unfold getsize. destruct (files w !! path);
    intros [= <- <-]; repeat split; exists []; rewrite app_nil_r; auto.
Qed.

Lemma emits_open_rb P path : emits P (open_rb s3 path).
Proof.
  intros w r w'. unfold open_rb. destruct (files w !! path);
    intros [= <- <-]; repeat split; exists []; rewrite app_nil_r; auto.
Qed.

Lemma emits_get_file_hash P filename algorithm :
  emits P (get_file_hash s3 filename algorithm).
Proof.
  intros w r w' H. apply get_file_hash_pure in H. subst w'.
  repeat split. exists []. rewrite app_nil_r. auto.
Qed.

End Effects.

(** ** Anatomy of [upload_file_pieces] *)

Section Session.
Context {s3 : S3Client}.
Implicit Types w : world s3.

Lemma steady_refl w : steady w w [].
Proof. unfold steady. rewrite app_nil_r. auto. Qed.

Lemma steady_trans w w1 w2 evs1 evs2 :
  steady w w1 evs1 -> steady w1 w2 evs2 -> steady w w2 (evs1 ++ evs2).
Proof.
  intros (F1 & D1 & T1 & Tr1) (F2 & D2 & T2 & Tr2).
  unfold steady. rewrite Tr2, Tr1, app_assoc. repeat split; congruence.
Qed.

Lemma emit_steady e w : steady w (emit s3 e w).2 [e].
Proof. unfold steady. simpl. auto. Qed.

Lemma call_inv {A} op (request : store s3 -> result A * store s3) log
    w r w' :
  call s3 op request log w = (r, w') ->
  exists res,
    steady w w' [log res]
    /\ r = match res with
           | Ok a => Return a
           | Err code => Raise (ClientError op code)
           end.
Proof.
  unfold call. destruct (request (remote w)) as [res st].
  intros H. exists res.
  destruct res; injection H as <- <-; unfold steady; simpl; auto.
Qed.

Lemma get_file_hash_md5_inv name w r w' :
  get_file_hash s3 name default_algorithm w = (r, w') ->
  w' = w
  /\ forall h, r = Return h ->
       exists body, files w !! name = Some body /\ h = md5_base64 body.
Proof.
  intros H. split; [eapply get_file_hash_pure; eauto|].
  intros h ->. destruct (files w !! name) as [body|] eqn:E.
  - exists body. split; [reflexivity|].
    rewrite (get_file_hash_content s3 name default_algorithm
               (HashAlgorithm MD5.block_size MD5.digest) body w) in H;
      [|reflexivity|reflexivity|exact E].
    injection H as <- _. reflexivity.
  - rewrite (get_file_hash_missing_file s3 name default_algorithm
               (HashAlgorithm MD5.block_size MD5.digest) w) in H;
      [|reflexivity|exact E].
    discriminate.
Qed.

Lemma upload_parts_spec b k u total todo Parts w r w' :
  upload_parts s3 b k u total todo Parts w = (r, w') ->
  exists ups,
    steady w w' ups /\ Forall print_or_upload ups
    /\ forall parts, r = Return parts ->
         exists news,
           parts = Parts ++ news
           /\ Forall2 (acknowledges b k u (files w) ups) todo news
           /\ Forall accepted ups.
Proof.
  revert Parts w. induction todo as [|[index name] later IH];
    intros Parts w H.
  - injection H as <- <-. exists []. split; [apply steady_refl|].
    split; [constructor|]. intros parts [= <-]. exists [].
    rewrite app_nil_r. split; [reflexivity|]. split; constructor.
  - cbn [upload_parts] in H. unfold mbind, M_bind in H.
    destruct (get_file_hash s3 name default_algorithm w)
      as [[h|e] w1] eqn:Eh;
      destruct (get_file_hash_md5_inv _ _ _ _ Eh) as [-> Hh].
    2:{ injection H as <- <-. exists []. split; [apply steady_refl|].
        split; [constructor|]. discriminate. }
    destruct (Hh h eq_refl) as (body & Hbody & ->). clear Hh Eh.
    unfold print, emit, open_rb in H. cbn [files] in H.
    rewrite Hbody in H.
    match type of H with
    | context [s3_upload_part s3 b k u ?n ?bd ?h ?w0] =>
        destruct (s3_upload_part s3 b k u n bd h w0) as [ru w2] eqn:Eu
    end.
    unfold s3_upload_part in Eu. apply call_inv in Eu.
    destruct Eu as (res & (F2 & D2 & T2 & Tr2) & ->).
    cbn [files dirs tmp_names trace] in F2, D2, T2, Tr2.
    rewrite <- app_assoc in Tr2. cbn [app] in Tr2.
    set (ev := UploadPart b k u (index + 1) body (md5_base64 body) res)
      in *.
    destruct res as [resp|code].
    2:{ injection H as <- <-. eexists. split; [repeat split; eauto|].
        split; [repeat constructor|]. discriminate. }
    destruct resp as [[etag|]]; cbn [getitem part_ETag] in H.
    2:{ injection H as <- <-. eexists. split; [repeat split; eauto|].
        split; [repeat constructor|]. discriminate. }
    change ((mret etag : M s3 string) w2) with (Return etag, w2) in H.
    cbv beta iota in H.
    apply IH in H. destruct H as (ups & (F3 & D3 & T3 & Tr3) & Fa & Hp).
    exists ([Print (uploading_message name (index + 1) total
                      (md5_base64 body)); ev] ++ ups).
    split.
    { unfold steady. rewrite Tr3, Tr2, <- app_assoc.
      repeat split; congruence. }
    split.
    { apply Forall_app. split; [repeat constructor|exact Fa]. }
    intros parts ->.
    destruct (Hp parts eq_refl) as (news & -> & F2' & Hacc).
    exists (Part etag (index + 1) :: news). split.
    { rewrite <- app_assoc. reflexivity. }
    split; [|apply Forall_app; split; [repeat constructor|exact Hacc]].
    constructor.
    + split; [reflexivity|]. exists body. split; [exact Hbody|].
      cbn. apply list_elem_of_In. right. left. reflexivity.
    + eapply Forall2_impl; [exact F2'|].
      intros [i n] p (Hn & bd & Hbd & Hin). split; [exact Hn|].
      exists bd. split; [congruence|].
      apply elem_of_app. right. exact Hin.
Qed.

End Session.

(** ** The three parts of [upload_file_pieces] *)

Section Segments.
Context {s3 : S3Client}.
Implicit Types w : world s3.

(** The [try] block either stops at a failed piece, or reaches the
    completion request with one acknowledgement per piece. *)
Lemma upload_file_pieces_try_spec b k u names w rb wb :
  upload_file_pieces_try s3 b k u names w = (rb, wb) ->
  exists ups tail,
    steady w wb (ups ++ tail) /\ Forall print_or_upload ups
    /\ ((tail = [] /\ exists e, rb = Raise e)
        \/ exists parts res,
             tail = [Print "Finished uploading.";
                     CompleteMultipartUpload b k u parts res]
             /\ Forall2 (acknowledges b k u (files w) ups)
                        (enumerate names) parts
             /\ Forall accepted ups
             /\ rb = match res with
                     | Ok response => Return response
                     | Err code =>
                         Raise (ClientError "CompleteMultipartUpload" code)
                     end).
Proof.
  unfold upload_file_pieces_try, mbind, M_bind. intros H.
  destruct (upload_parts s3 b k u _ _ [] w) as [[parts|e] w1] eqn:Eu;
    apply upload_parts_spec in Eu; destruct Eu as (ups & St & Fa & Hp).
  - destruct (Hp parts eq_refl) as (news & -> & F2 & Hacc). clear Hp.
    unfold print, emit, s3_complete_multipart_upload in H.
    apply call_inv in H. destruct H as (res & St2 & ->).
    exists ups, [Print "Finished uploading.";
                 CompleteMultipartUpload b k u news res].
    split.
    { eapply steady_trans; [exact St|].
      destruct St2 as (F & D & T & Tr). cbn [files dirs tmp_names trace] in *.
      unfold steady. rewrite Tr, <- app_assoc. auto. }
    split; [exact Fa|]. right. exists news, res. auto.
  - injection H as <- <-. exists ups, []. rewrite app_nil_r.
    split; [exact St|]. split; [exact Fa|]. left. eauto.
Qed.

(** The [finally] block does nothing after a completion that carries an
    [ETag]; otherwise it requests the abort, and fails when the abort
    does. *)
Lemma upload_file_pieces_finally_spec b k u assigned w rf wf :
  upload_file_pieces_finally s3 b k u assigned w = (rf, wf) ->
  match assigned ≫= ETag with
  | Some _ => wf = w /\ rf = Return tt
  | None =>
      exists res,
        steady w wf
          ([Print ("Exiting program and the upload is incomplete. "
                     +:+ "Aborting multipart upload...");
            AbortMultipartUpload b k u res]
             ++ match res with
                | Ok _ => [Print "Upload aborted."]
                | Err _ => []
                end)
        /\ rf = match res with
                | Ok _ => Return tt
                | Err code =>
                    Raise (ClientError "AbortMultipartUpload" code)
                end
  end.
Proof.
  unfold upload_file_pieces_finally.
  assert (ETag (default {| ETag := None |} assigned) = assigned ≫= ETag)
    as -> by (destruct assigned; reflexivity).
  destruct (assigned ≫= ETag) as [etag|].
  - intros [= <- <-]. auto.
  - unfold mbind at 1 2, M_bind, print, emit. 
    match goal with
    | |- context [s3_abort_multipart_upload s3 b k u ?w0] =>
        destruct (s3_abort_multipart_upload s3 b k u w0) as [ra w1] eqn:Ea
    end.
    unfold s3_abort_multipart_upload in Ea. apply call_inv in Ea.
    destruct Ea as (res & (F & D & T & Tr) & ->).
    cbn [files dirs tmp_names trace] in *.
    destruct res as [[]|code]; intros [= <- <-].
    + exists (Ok tt). split; [|reflexivity].
      unfold steady; cbn [files dirs tmp_names trace].
      rewrite Tr, <- !app_assoc. auto.
    + exists (Err code). split; [|reflexivity].
      unfold steady; cbn [files dirs tmp_names trace].
      rewrite Tr, <- !app_assoc. auto.
Qed.

Lemma check_assertions_spec assertions w r w' :
  check_assertions s3 assertions w = (r, w') ->
  exists passed,
    steady w w' passed /\ Forall is_print passed.
Proof.
  revert w. induction assertions as [|a later IH]; intros w H.
  - injection H as <- <-. exists []. split; [apply steady_refl|constructor].
  - cbn [check_assertions] in H. destruct (decide (expected a = found a)).
    + unfold mbind, M_bind, print, emit in H. apply IH in H.
      destruct H as (passed & (F & D & T & Tr) & Fa).
      cbn [files dirs tmp_names trace] in *.
      eexists (_ :: passed). split.
      * unfold steady. rewrite Tr, <- app_assoc. auto.
      * constructor; [exact I|exact Fa].
    + injection H as <- <-. exists [].
      split; [apply steady_refl|constructor].
Qed.

(** The checks ask the store once and then go through the two
    comparisons in order, stopping at the first that fails. *)
Lemma upload_file_pieces_checks_spec b k h sz w r w' :
  upload_file_pieces_checks s3 b k h sz w = (r, w') ->
  exists reply told,
    steady w w' (HeadObject b k reply :: told) /\ Forall is_print told
    /\ match reply with
       | Err code => r = Raise (ClientError "HeadObject" code) /\ told = []
       | Ok head =>
           match Metadata head ≫= (.!! "md5"), ContentLength head with
           | Some found_hash, Some found_size =>
               if decide (h = found_hash) then
                 if decide (sz = found_size) then
                   r = Return tt
                   /\ told = [passed_hashes; passed_sizes;
                              Print "Upload successful!"]
                 else r = Raise failed_sizes /\ told = [passed_hashes]
               else r = Raise failed_hashes /\ told = []
           | _, _ => (exists key, r = Raise (KeyError key)) /\ told = []
           end
       end.
Proof.
  unfold upload_file_pieces_checks, mbind at 1, M_bind.
  destruct (s3_head_object s3 b k w) as [rh w1] eqn:Eh.
  unfold s3_head_object in Eh. apply call_inv in Eh.
  destruct Eh as (reply & St & ->). intros H.
  exists reply.
  destruct reply as [head|code].
  2:{ injection H as <- <-. exists []. auto. }
  destruct head as [meta size]. cbn [Metadata ContentLength].
  destruct meta as [meta|]; cbn [getitem mbind option_bind] in *.
  2:{ injection H as <- <-. exists []. simpl. eauto 6. }
  unfold mbind at 1, M_bind in H. cbn [Metadata getitem] in H.
  change ((mret meta : M s3 _) w1) with (Return meta, w1) in H.
  cbv beta iota in H.
  unfold mbind at 1, M_bind in H.
  destruct (meta !! "md5") as [found_hash|] eqn:Em; cbn [getitem] in H.
  2:{ injection H as <- <-. exists []. simpl. rewrite ?Em. eauto 6. }
  change ((mret found_hash : M s3 _) w1) with (Return found_hash, w1) in H.
  cbv beta iota in H.
  unfold mbind at 1, M_bind in H. cbn [ContentLength getitem] in H.
  simpl option_bind. 
  destruct size as [found_size|]; cbn [getitem] in H.
  2:{ injection H as <- <-. exists []. simpl. rewrite ?Em. eauto 6. }
  change ((mret found_size : M s3 _) w1) with (Return found_size, w1) in H.
  cbv beta iota in H.
  cbn [check_assertions expected found description] in H.
  assert (Hm : (Some meta ≫= (.!! "md5")) = Some found_hash) by exact Em.
  rewrite ?Hm. clear Hm.
  destruct St as (F & D & T & Tr).
  destruct (decide (Str h = Str found_hash)) as [E1|N1].
  - injection E1 as <-. destruct (decide (h = h)) as [_|]; [|congruence].
    destruct (decide (Int sz = Int found_size)) as [E2|N2].
    + injection E2 as <-.
      destruct (decide (sz = sz)) as [_|]; [|congruence].
      injection H as <- <-. eexists. split; [|split; [|split; reflexivity]].
      * unfold steady. cbn [files dirs tmp_names trace].
        rewrite Tr, <- !app_assoc. auto.
      * repeat constructor.
    + destruct (decide (sz = found_size)) as [|_]; [congruence|].
      injection H as <- <-. eexists. split; [|split; [|split; reflexivity]].
      * unfold steady. cbn [files dirs tmp_names trace].
        rewrite Tr, <- !app_assoc. auto.
      * repeat constructor.
  - destruct (decide (h = found_hash)) as [|_]; [congruence|].
    injection H as <- <-. exists []. unfold steady. auto.
Qed.

(** How the three parts of [upload_file_pieces] chain. *)
Lemma upload_file_pieces_inv b k h sz names w r w' :
  upload_file_pieces s3 b k h sz names w = (r, w') ->
  exists reply w1,
    steady w w1 [CreateMultipartUpload b k {[ "md5" := h ]} reply]
    /\ match reply with
       | Err code =>
           r = Raise (ClientError "CreateMultipartUpload" code) /\ w' = w1
       | Ok response =>
           match UploadId response with
           | None => r = Raise (KeyError "UploadId") /\ w' = w1
           | Some u =>
               exists rb wb rf wf,
                 upload_file_pieces_try s3 b k u names w1 = (rb, wb)
                 /\ upload_file_pieces_finally s3 b k u
                      (match rb with
                       | Return a => Some a
                       | Raise _ => None
                       end) wb = (rf, wf)
                 /\ match rf, rb with
                    | Raise e, _ => r = Raise e /\ w' = wf
                    | Return _, Raise e => r = Raise e /\ w' = wf
                    | Return _, Return _ =>
                        upload_file_pieces_checks s3 b k h sz wf = (r, w')
                    end
           end
       end.
Proof.
  unfold upload_file_pieces, mbind at 1, M_bind.
  destruct (s3_create_multipart_upload s3 b k _ w) as [rc w1] eqn:Ec.
  unfold s3_create_multipart_upload in Ec. apply call_inv in Ec.
  destruct Ec as (reply & St & ->). intros H.
  exists reply, w1. split; [exact St|].
  destruct reply as [response|code].
  2:{ injection H as <- <-. auto. }
  unfold mbind at 1, M_bind in H.
  destruct (UploadId response) as [u|]; cbn [getitem] in H.
  2:{ injection H as <- <-. auto. }
  change ((mret u : M s3 _) w1) with (Return u, w1) in H.
  cbv beta iota in H.
  unfold mbind at 1, M_bind, try_finally in H.
  destruct (upload_file_pieces_try s3 b k u names w1) as [rb wb] eqn:Et.
  destruct (upload_file_pieces_finally s3 b k u _ wb) as [rf wf] eqn:Ef.
  exists rb, wb, rf, wf. split; [reflexivity|]. split; [exact Ef|].
  destruct rf as [[]|e].
  - destruct rb as [a|e]; [exact H|]. injection H as <- <-. auto.
  - injection H as <- <-. auto.
Qed.

End Segments.

(** ** Anatomy of a call of [upload_file_pieces] *)

Section Anatomy.
Context {s3 : S3Client}.
Implicit Types w : world s3.

Lemma upload_file_pieces_anatomy b k h sz names w r w' :
  upload_file_pieces s3 b k h sz names w = (r, w') ->
  exists reply rest,
    steady w w' (CreateMultipartUpload b k {[ "md5" := h ]} reply :: rest)
    /\ match reply with
       | Err code =>
           rest = [] /\ r = Raise (ClientError "CreateMultipartUpload" code)
       | Ok response =>
           match UploadId response with
           | None => rest = [] /\ r = Raise (KeyError "UploadId")
           | Some u =>
               exists ups tail fin chk assigned pending,
                 rest = ups ++ tail ++ fin ++ chk
                 /\ Forall print_or_upload ups
                 /\ attempted b k u (files w) names ups tail assigned
                              pending
                 /\ concluded b k u h sz assigned pending fin chk r
           end
       end.
Proof.
  intros H. apply upload_file_pieces_inv in H.
  destruct H as (reply & w1 & St1 & H). exists reply.
  destruct reply as [response|code].
  2:{ destruct H as [-> ->]. exists []. auto. }
  destruct (UploadId response) as [u|] eqn:Eu.
  2:{ destruct H as [-> ->]. exists []. rewrite ?Eu. auto. }
  destruct H as (rb & wb & rf & wf & Ht & Hf & H).
  apply upload_file_pieces_try_spec in Ht.
  destruct Ht as (ups & tail & St2 & Fa & Ht).
  apply upload_file_pieces_finally_spec in Hf.
  assert (Hfs : files w1 = files w) by (destruct St1; auto).
  rewrite Hfs in Ht.
  set (assigned := match rb with Return a => Some a | Raise _ => None end)
    in *.
  set (pending := match rb with Return _ => None | Raise e => Some e end).
  assert (Hatt : attempted b k u (files w) names ups tail assigned pending).
  { destruct Ht as [(-> & e & ->)|(parts & res & -> & F2 & Hacc & ->)].
    - left. subst assigned pending. simpl. eauto.
    - right. exists parts, res. split; [reflexivity|]. split; [exact F2|].
      split; [exact Hacc|].
      subst assigned pending. destruct res; auto. }
  assert (Hgoal : exists fin chk,
             steady wb w' (fin ++ chk)
             /\ concluded b k u h sz assigned pending fin chk r).
  { unfold concluded. destruct (assigned ≫= ETag) as [etag|] eqn:Ea.
    - destruct Hf as [-> ->].
      destruct rb as [a|e]; [|discriminate Ea].
      apply upload_file_pieces_checks_spec in H.
      destruct H as (reply & told & St & Fp & H).
      exists [], (HeadObject b k reply :: told). split; [exact St|].
      split; [reflexivity|]. exists reply, told. auto.
    - destruct Hf as (res & St3 & ->).
      destruct res as [[]|code].
      + destruct rb as [a|e].
        * apply upload_file_pieces_checks_spec in H.
          destruct H as (reply & told & St & Fp & H).
          eexists _, (HeadObject b k reply :: told).
          split; [eapply steady_trans; eauto|].
          exists (Ok tt). split; [reflexivity|].
          subst pending. cbn. exists reply, told. auto.
        * destruct H as [-> ->]. eexists _, [].
          split; [rewrite app_nil_r; exact St3|].
          exists (Ok tt). split; [reflexivity|]. subst pending. cbn. auto.
      + destruct H as [-> ->]. eexists _, [].
        split; [rewrite app_nil_r; exact St3|].
        exists (Err code). split; [reflexivity|]. auto. }
  destruct Hgoal as (fin & chk & St4 & Hc).
  exists (ups ++ tail ++ fin ++ chk). split.
  - pose proof (steady_trans _ _ _ _ _ St1
                  (steady_trans _ _ _ _ _ St2 St4)) as St.
    rewrite <- !app_assoc in St. exact St.
  - rewrite ?Eu. exists ups, tail, fin, chk, assigned, pending. auto.
Qed.

End Anatomy.

(** ** The multipart session *)

Lemma terminals_app (l1 l2 : list event) :
  terminals (l1 ++ l2) = terminals l1 ++ terminals l2.
Proof. apply omap_app. Qed.

Lemma terminals_print_or_upload (evs : list event) :
  Forall print_or_upload evs -> terminals evs = [].
Proof.
  induction 1 as [|e evs He _ IH]; [reflexivity|].
  unfold terminals in *. cbn. destruct e; try contradiction; cbn; exact IH.
Qed.

Lemma terminals_print (evs : list event) :
  Forall is_print evs -> terminals evs = [].
Proof.
  induction 1 as [|e evs He _ IH]; [reflexivity|].
  unfold terminals in *. cbn. destruct e; try contradiction; cbn; exact IH.
Qed.

Lemma terminals_checked b k h sz r chk :
  checked b k h sz r chk -> terminals chk = [].
Proof.
  intros (reply & told & -> & Fp & _).
  change (terminals (HeadObject b k reply :: told)) with (terminals told).
  apply terminals_print. exact Fp.
Qed.

Section SessionTheorems.
Context (s3 : S3Client).
Implicit Types w : world s3.

(** C1.  Once [create_multipart_upload] has handed out an upload id,
    the call does not give control back before the session has ended in
    exactly one of the two ways: a completion the store acknowledged
    with an [ETag], or an abort request.  In particular a refused part
    and a refused completion both lead to the abort request. *)
Theorem session_ends_exactly_once b k h sz names w r w' :
  upload_file_pieces s3 b k h sz names w = (r, w') ->
  exists reply rest,
    trace w' = trace w
                 ++ CreateMultipartUpload b k {[ "md5" := h ]} reply :: rest
    /\ forall response u,
         reply = Ok response -> UploadId response = Some u ->
         (terminals rest = [Completed] \/ terminals rest = [Aborted])
         /\ (forall n body md5 code,
               UploadPart b k u n body md5 (Err code) ∈ rest ->
               terminals rest = [Aborted])
         /\ (forall parts code,
               CompleteMultipartUpload b k u parts (Err code) ∈ rest ->
               terminals rest = [Aborted]).
Proof.
  intros H. apply upload_file_pieces_anatomy in H.
  destruct H as (reply & rest & (_ & _ & _ & Tr) & H).
  exists reply, rest. split; [exact Tr|].
  intros response u -> Hu. rewrite Hu in H.
  destruct H as (ups & tail & fin & chk & assigned & pending
                 & -> & Fu & Hatt & Hcon).
  rewrite !terminals_app, (terminals_print_or_upload ups Fu).
  cbn [app].
  (* the end of the call, by what the [try] block left behind *)
  assert (Hend : forall t,
             terminals tail = t ->
             (assigned ≫= ETag = None -> t = []) ->
             (is_Some (assigned ≫= ETag) -> t = [Completed]) ->
             (terminals tail ++ terminals fin ++ terminals chk
              = [Completed] /\ is_Some (assigned ≫= ETag))
             \/ (terminals tail ++ terminals fin ++ terminals chk
                 = [Aborted] /\ assigned ≫= ETag = None)).
  { intros t Ht Hnone Hsome. unfold concluded in Hcon.
    destruct (assigned ≫= ETag) as [etag|] eqn:Ea.
    - left. destruct Hcon as [-> Hchk].
      rewrite (terminals_checked _ _ _ _ _ _ Hchk), Ht, Hsome by eauto.
      split; [reflexivity|eauto].
    - right. destruct Hcon as (res & -> & Hres).
      rewrite Ht, Hnone by reflexivity.
      assert (terminals chk = []) as ->.
      { destruct res as [[]|code]; [destruct pending|];
          try (destruct Hres as [_ ->]; reflexivity).
        eapply terminals_checked; eauto. }
      destruct res; split; reflexivity. }
  assert (Htail : (assigned ≫= ETag = None -> terminals tail = [])
                  /\ (is_Some (assigned ≫= ETag) ->
                      terminals tail = [Completed])).
  { destruct Hatt as [(-> & -> & _)|(parts & res & -> & _ & _ & Hres)].
    - split; [reflexivity|]. intros [? [=]].
    - destruct res as [response'|code].
      + destruct Hres as [-> _]. cbn.
        destruct (ETag response') as [etag|].
        * split; [discriminate|reflexivity].
        * split; [reflexivity|]. intros [? [=]].
      + destruct Hres as [-> _]. cbn. split; [reflexivity|].
        intros [? [=]]. }
  destruct Htail as [Hnone Hsome].
  split; [|split].
  - destruct (Hend _ eq_refl Hnone Hsome) as [[-> _]|[-> _]]; auto.
  - intros n body md5 code Hin.
    destruct (Hend _ eq_refl Hnone Hsome) as [[_ Hetag]|[-> _]];
      [exfalso|reflexivity].
    destruct Hatt as [(_ & -> & _)|(parts & res & -> & _ & Hacc & Hres)].
    { destruct Hetag as [? [=]]. }
    unfold concluded in Hcon. destruct Hetag as [etag Hetag].
    rewrite Hetag in Hcon. destruct Hcon as [-> (rp & told & -> & Fp & _)].
    rewrite !elem_of_app in Hin. destruct Hin as [Hin|[Hin|[Hin|Hin]]].
    + rewrite Forall_forall in Hacc. exact (Hacc _ Hin).
    + apply list_elem_of_In in Hin.
      destruct Hin as [[=]|[[=]|[]]].
    + inversion Hin.
    + apply elem_of_cons in Hin. destruct Hin as [[=]|Hin].
      rewrite Forall_forall in Fp. exact (Fp _ Hin).
  - intros parts code Hin.
    destruct (Hend _ eq_refl Hnone Hsome) as [[_ Hetag]|[-> _]];
      [exfalso|reflexivity].
    destruct Hatt as [(_ & -> & _)|(parts' & res & -> & _ & Hacc & Hres)].
    { destruct Hetag as [? [=]]. }
    unfold concluded in Hcon. destruct Hetag as [etag Hetag].
    rewrite Hetag in Hcon. destruct Hcon as [-> (rp & told & -> & Fp & _)].
    rewrite !elem_of_app in Hin. destruct Hin as [Hin|[Hin|[Hin|Hin]]].
    + rewrite Forall_forall in Fu. exact (Fu _ Hin).
    + apply list_elem_of_In in Hin.
      destruct Hin as [[=]|[Hin|[]]].
      injection Hin as ? ?; subst. destruct Hres as [-> _]. discriminate.
    + inversion Hin.
    + apply elem_of_cons in Hin. destruct Hin as [[=]|Hin].
      rewrite Forall_forall in Fp. exact (Fp _ Hin).
Qed.

End SessionTheorems.

Lemma session_ends_exactly_once_witness :
  let run := upload_file_pieces (scripted refusing) "bucket" "small_testfile"
               (md5_base64 SMALL_TESTFILE_CONTENT) 50 [SMALL_TESTFILE_PATH]
               (test_world refusing) in
  exists reply rest,
    trace run.2
    = CreateMultipartUpload "bucket" "small_testfile"
        {[ "md5" := md5_base64 SMALL_TESTFILE_CONTENT ]} reply :: rest
    /\ reply = Ok {| UploadId := Some "upload-1" |}
    /\ terminals rest = [Aborted].
Proof.
  intros run.
  destruct (session_ends_exactly_once (scripted refusing) "bucket"
              "small_testfile" (md5_base64 SMALL_TESTFILE_CONTENT) 50
              [SMALL_TESTFILE_PATH] (test_world refusing) run.1 run.2)
    as (reply & rest & Tr & H).
  { subst run. apply surjective_pairing. }
  exists reply, rest. split; [exact Tr|].
  assert (Hreply : reply = Ok {| UploadId := Some "upload-1" |}).
  { vm_compute in Tr. injection Tr as <- _. reflexivity. }
  split; [exact Hreply|].
  destruct (H _ "upload-1" Hreply eq_refl) as (_ & Hpart & _).
  eapply (Hpart 1 SMALL_TESTFILE_CONTENT
                (md5_base64 SMALL_TESTFILE_CONTENT) "BadDigest").
  vm_compute in Tr. injection Tr as _ <-.
  apply list_elem_of_In. right. left. vm_compute. reflexivity.
Defined.

(** ** Part numbers *)

Lemma enumerate_length {A} (l : list A) : length (enumerate l) = length l.
Proof.
  unfold enumerate, range. rewrite length_zip_with, length_map, length_seq.
  rewrite Nat2Z.id. lia.
Qed.

Lemma enumerate_indices {A} (l : list A) :
  (enumerate l).*1 = map Z.of_nat (seq 0 (length l)).
Proof.
  unfold enumerate, range. rewrite Nat2Z.id. apply fst_zip.
  rewrite length_map, length_seq. lia.
Qed.

Lemma acknowledged_numbers b k u fs evs (todo : list (Z * string)) parts :
  Forall2 (acknowledges b k u fs evs) todo parts ->
  map PartNumber parts = map (fun entry => entry.1 + 1) todo.
Proof.
  induction 1 as [|entry p todo parts [Hn _] _ IH]; [reflexivity|].
  cbn. rewrite Hn, IH. reflexivity.
Qed.

Lemma successors_seq (start n : nat) :
  map (fun i => i + 1) (map Z.of_nat (seq start n))
  = map Z.of_nat (seq (S start) n).
Proof.
  revert start. induction n as [|n IH]; intros start; [reflexivity|].
  cbn. rewrite IH. f_equal. lia.
Qed.

Lemma acknowledged_all b k u fs evs (names : list string) parts :
  Forall2 (acknowledges b k u fs evs) (enumerate names) parts ->
  length parts = length names
  /\ map PartNumber parts = map Z.of_nat (seq 1 (length names)).
Proof.
  intros H. split.
  - apply Forall2_length in H. rewrite enumerate_length in H. lia.
  - rewrite (acknowledged_numbers _ _ _ _ _ _ _ H).
    rewrite <- successors_seq, <- enumerate_indices.
    rewrite <- list_fmap_compose. reflexivity.
Qed.

Section PartsTheorems.
Context (s3 : S3Client).
Implicit Types w : world s3.

(** C6.  Whenever the completion is requested, every event before it
    being the uploads, the list of parts it carries has one entry per
    piece, in the order of the pieces, numbered 1, 2, ..., N; each entry
    holds the [ETag] the store returned for the bytes of its piece. *)
Theorem parts_match_pieces b k h sz names w r w' :
  upload_file_pieces s3 b k h sz names w = (r, w') ->
  exists reply rest,
    trace w' = trace w
                 ++ CreateMultipartUpload b k {[ "md5" := h ]} reply :: rest
    /\ forall u parts res,
         CompleteMultipartUpload b k u parts res ∈ rest ->
         exists before after,
           rest = before ++ CompleteMultipartUpload b k u parts res :: after
           /\ length parts = length names
           /\ map PartNumber parts = map Z.of_nat (seq 1 (length names))
           /\ Forall2 (acknowledges b k u (files w) before)
                      (enumerate names) parts.
Proof.
  intros H. apply upload_file_pieces_anatomy in H.
  destruct H as (reply & rest & (_ & _ & _ & Tr) & H).
  exists reply, rest. split; [exact Tr|].
  intros u parts res Hin.
  destruct reply as [response|code]; [|destruct H as [-> _]; inversion Hin].
  destruct (UploadId response) as [u0|];
    [|destruct H as [-> _]; inversion Hin].
  destruct H as (ups & tail & fin & chk & assigned & pending
                 & -> & Fu & Hatt & Hcon).
  assert (Hfin : CompleteMultipartUpload b k u parts res ∉ fin ++ chk).
  { intros Hin'. unfold concluded in Hcon.
    assert (Hchk : forall r0, checked b k h sz r0 chk ->
              CompleteMultipartUpload b k u parts res ∉ chk).
    { intros r0 (rp & told & -> & Fp & _) Hc.
      apply elem_of_cons in Hc. destruct Hc as [[=]|Hc].
      rewrite Forall_forall in Fp. exact (Fp _ Hc). }
    destruct (assigned ≫= ETag).
    - destruct Hcon as [-> Hc]. exact (Hchk _ Hc Hin').
    - destruct Hcon as (ares & -> & Hres).
      apply elem_of_app in Hin'. destruct Hin' as [Hin'|Hin'].
      + apply list_elem_of_In in Hin'.
        destruct ares; cbn in Hin'; intuition discriminate.
      + destruct ares as [[]|code]; [destruct pending|].
        * destruct Hres as [_ ->]. inversion Hin'.
        * exact (Hchk _ Hres Hin').
        * destruct Hres as [_ ->]. inversion Hin'. }
  rewrite !elem_of_app in Hin. destruct Hin as [Hin|[Hin|Hin]].
  - exfalso. rewrite Forall_forall in Fu. exact (Fu _ Hin).
  - destruct Hatt as [(-> & _)|(parts' & res' & -> & F2 & _ & _)];
      [inversion Hin|].
    apply list_elem_of_In in Hin. destruct Hin as [[=]|[Hin|[]]].
    injection Hin as ? ? ?; subst.
    exists (ups ++ [Print "Finished uploading."]), (fin ++ chk).
    split; [rewrite <- !app_assoc; reflexivity|].
    destruct (acknowledged_all _ _ _ _ _ _ _ F2) as [Hlen Hnum].
    split; [exact Hlen|]. split; [exact Hnum|].
    eapply Forall2_impl; [exact F2|].
    intros entry p (Hn & body & Hb & Hup). split; [exact Hn|].
    exists body. split; [exact Hb|]. apply elem_of_app. left. exact Hup.
  - exfalso. apply Hfin. apply elem_of_app. exact Hin.
Qed.

(** C5, as the code has it.  When the abort request itself fails, its
    error is the one the call ends with: it takes the place of whatever
    error had led to the abort. *)
Theorem abort_failure_replaces_the_error b k h sz names w r w' :
  upload_file_pieces s3 b k h sz names w = (r, w') ->
  exists reply rest,
    trace w' = trace w
                 ++ CreateMultipartUpload b k {[ "md5" := h ]} reply :: rest
    /\ forall u code,
         AbortMultipartUpload b k u (Err code) ∈ rest ->
         r = Raise (ClientError "AbortMultipartUpload" code).
Proof.
  intros H. apply upload_file_pieces_anatomy in H.
  destruct H as (reply & rest & (_ & _ & _ & Tr) & H).
  exists reply, rest. split; [exact Tr|].
  intros u code Hin.
  destruct reply as [response|c]; [|destruct H as [-> _]; inversion Hin].
  destruct (UploadId response) as [u0|];
    [|destruct H as [-> _]; inversion Hin].
  destruct H as (ups & tail & fin & chk & assigned & pending
                 & -> & Fu & Hatt & Hcon).
  assert (Hchk : forall r0, checked b k h sz r0 chk ->
            AbortMultipartUpload b k u (Err code) ∉ chk).
  { intros r0 (rp & told & -> & Fp & _) Hc.
    apply elem_of_cons in Hc. destruct Hc as [[=]|Hc].
    rewrite Forall_forall in Fp. exact (Fp _ Hc). }
  rewrite !elem_of_app in Hin. destruct Hin as [Hin|[Hin|[Hin|Hin]]].
  - exfalso. rewrite Forall_forall in Fu. exact (Fu _ Hin).
  - exfalso. destruct Hatt as [(-> & _)|(parts' & res' & -> & _)];
      [inversion Hin|].
    apply list_elem_of_In in Hin. cbn in Hin. intuition discriminate.
  - unfold concluded in Hcon. destruct (assigned ≫= ETag).
    + destruct Hcon as [-> _]. inversion Hin.
    + destruct Hcon as (ares & -> & Hres).
      apply list_elem_of_In in Hin.
      destruct ares as [[]|c]; cbn in Hin.
      * intuition discriminate.
      * destruct Hin as [[=]|[Hin|[]]]. injection Hin as ? ?; subst.
        destruct Hres as [-> _]. reflexivity.
  - exfalso. unfold concluded in Hcon. destruct (assigned ≫= ETag).
    + destruct Hcon as [_ Hc]. exact (Hchk _ Hc Hin).
    + destruct Hcon as (ares & _ & Hres).
      destruct ares as [[]|c]; [destruct pending|].
      * destruct Hres as [_ ->]. inversion Hin.
      * exact (Hchk _ Hres Hin).
      * destruct Hres as [_ ->]. inversion Hin.
Qed.

(** C4, as the code has it.  Once the store has answered the
    [HeadObject] request with a digest and a length, the digest is
    compared first and the length only if the digests agree: the first
    mismatch ends the call with an assertion error naming that check, and
    nothing is said about the other check. *)
Theorem checks_stop_at_first_failure b k h sz names w r w' :
  upload_file_pieces s3 b k h sz names w = (r, w') ->
  exists reply rest,
    trace w' = trace w
                 ++ CreateMultipartUpload b k {[ "md5" := h ]} reply :: rest
    /\ forall head found_hash found_size,
         HeadObject b k (Ok head) ∈ rest ->
         Metadata head ≫= (.!! "md5") = Some found_hash ->
         ContentLength head = Some found_size ->
         exists before told,
           rest = before ++ HeadObject b k (Ok head) :: told
           /\ (h <> found_hash -> r = Raise failed_hashes /\ told = [])
           /\ (h = found_hash -> sz <> found_size ->
               r = Raise failed_sizes /\ told = [passed_hashes])
           /\ (h = found_hash -> sz = found_size ->
               r = Return tt
               /\ told = [passed_hashes; passed_sizes;
                          Print "Upload successful!"]).
Proof.
  intros H. apply upload_file_pieces_anatomy in H.
  destruct H as (reply & rest & (_ & _ & _ & Tr) & H).
  exists reply, rest. split; [exact Tr|].
  intros head found_hash found_size Hin Hh Hs.
  destruct reply as [response|c]; [|destruct H as [-> _]; inversion Hin].
  destruct (UploadId response) as [u0|];
    [|destruct H as [-> _]; inversion Hin].
  destruct H as (ups & tail & fin & chk & assigned & pending
                 & -> & Fu & Hatt & Hcon).
  assert (Hchk : checked b k h sz r chk /\ HeadObject b k (Ok head) ∈ chk).
  { rewrite !elem_of_app in Hin. destruct Hin as [Hin|[Hin|Hin]].
    - exfalso. rewrite Forall_forall in Fu. exact (Fu _ Hin).
    - exfalso. destruct Hatt as [(-> & _)|(parts' & res' & -> & _)];
        [inversion Hin|].
      apply list_elem_of_In in Hin. cbn in Hin. intuition discriminate.
    - unfold concluded in Hcon. destruct (assigned ≫= ETag).
      + destruct Hcon as [-> Hc]. destruct Hin as [Hin|Hin];
          [inversion Hin|auto].
      + destruct Hcon as (ares & -> & Hres).
        destruct Hin as [Hin|Hin].
        { exfalso. apply list_elem_of_In in Hin.
          destruct ares; cbn in Hin; intuition discriminate. }
        destruct ares as [[]|c]; [destruct pending|].
        * destruct Hres as [_ ->]. inversion Hin.
        * auto.
        * destruct Hres as [_ ->]. inversion Hin. }
  destruct Hchk as [(rp & told & -> & Fp & Hv) Hin'].
  apply elem_of_cons in Hin'. destruct Hin' as [Heq|Hin'].
  2:{ exfalso. rewrite Forall_forall in Fp. exact (Fp _ Hin'). }
  injection Heq as <-. rewrite Hh, Hs in Hv.
  exists (ups ++ tail ++ fin), told.
  split; [rewrite <- !app_assoc; reflexivity|].
  destruct (decide (h = found_hash)) as [E1|N1].
  - destruct (decide (sz = found_size)) as [E2|N2].
    + split; [congruence|]. split; [congruence|]. auto.
    + split; [congruence|]. split; [auto|congruence].
  - split; [auto|]. split; congruence.
Qed.

End PartsTheorems.

(** ** Runs against scripted stores *)

Lemma get_file_hash_known_vectors_witness :
  get_file_hash (scripted healthy) SMALL_TESTFILE_PATH default_algorithm
                (test_world healthy)
  = (Return "CoM0C8BkxBNJJJyzEO+PYw==", test_world healthy).
Proof.
  apply (get_file_hash_known_vectors (scripted healthy) (test_world healthy)
           SMALL_TESTFILE_PATH).
  reflexivity.
Defined.

Lemma parts_match_pieces_witness :
  let run := upload_file_pieces (scripted healthy) "bucket" "small_testfile"
               (md5_base64 SMALL_TESTFILE_CONTENT) 50 [SMALL_TESTFILE_PATH]
               (test_world healthy) in
  exists reply rest parts,
    trace run.2
    = CreateMultipartUpload "bucket" "small_testfile"
        {[ "md5" := md5_base64 SMALL_TESTFILE_CONTENT ]} reply :: rest
    /\ CompleteMultipartUpload "bucket" "small_testfile" "upload-1" parts
         (Ok {| ETag := Some "etag-object" |}) ∈ rest
    /\ map PartNumber parts = [1].
Proof.
  intros run.
  destruct (parts_match_pieces (scripted healthy) "bucket" "small_testfile"
              (md5_base64 SMALL_TESTFILE_CONTENT) 50 [SMALL_TESTFILE_PATH]
              (test_world healthy) run.1 run.2)
    as (reply & rest & Tr & H).
  { subst run. apply surjective_pairing. }
  exists reply, rest, [Part "etag-1" 1]. split; [exact Tr|].
  assert (Hin : CompleteMultipartUpload "bucket" "small_testfile" "upload-1"
                  [Part "etag-1" 1] (Ok {| ETag := Some "etag-object" |})
                ∈ rest).
  { vm_compute in Tr. injection Tr as _ <-.
    apply list_elem_of_In. right. right. right. left. reflexivity. }
  split; [exact Hin|].
  destruct (H _ _ _ Hin) as (before & after & _ & _ & Hnum & _).
  exact Hnum.
Defined.

(** C5, counterexample.  The store refuses the only part (the error that
    sets off the abort) and then fails to abort: the call ends with the
    error of the abort, and the refusal of the part is neither raised nor
    printed. *)
Lemma abort_failure_masks_the_error :
  let run := upload_file_pieces (scripted refusing) "bucket" "small_testfile"
               (md5_base64 SMALL_TESTFILE_CONTENT) 50 [SMALL_TESTFILE_PATH]
               (test_world refusing) in
  trace run.2
  = [ CreateMultipartUpload "bucket" "small_testfile"
        {[ "md5" := "CoM0C8BkxBNJJJyzEO+PYw==" ]}
        (Ok {| UploadId := Some "upload-1" |});
      Print ("Uploading ./tests/small_testfile (part 1 of 1), "
               +:+ "hash: CoM0C8BkxBNJJJyzEO+PYw== ");
      UploadPart "bucket" "small_testfile" "upload-1" 1
        SMALL_TESTFILE_CONTENT "CoM0C8BkxBNJJJyzEO+PYw==" (Err "BadDigest");
      Print ("Exiting program and the upload is incomplete. "
               +:+ "Aborting multipart upload...");
      AbortMultipartUpload "bucket" "small_testfile" "upload-1"
        (Err "InternalError") ]
  /\ run.1 = Raise (ClientError "AbortMultipartUpload" "InternalError")
  /\ run.1 <> Raise (ClientError "UploadPart" "BadDigest").
Proof.
  vm_compute. split; [reflexivity|]. split; [reflexivity|discriminate].
Qed.

Lemma abort_failure_replaces_the_error_witness :
  let run := upload_file_pieces (scripted refusing) "bucket" "small_testfile"
               (md5_base64 SMALL_TESTFILE_CONTENT) 50 [SMALL_TESTFILE_PATH]
               (test_world refusing) in
  run.1 = Raise (ClientError "AbortMultipartUpload" "InternalError").
Proof.
  intros run.
  destruct (abort_failure_replaces_the_error (scripted refusing) "bucket"
              "small_testfile" (md5_base64 SMALL_TESTFILE_CONTENT) 50
              [SMALL_TESTFILE_PATH] (test_world refusing) run.1 run.2)
    as (reply & rest & Tr & H).
  { subst run. apply surjective_pairing. }
  apply (H "upload-1" "InternalError").
  vm_compute in Tr. injection Tr as _ <-.
  apply list_elem_of_In. do 3 right. left. reflexivity.
Defined.

(** C4, counterexample.  The completion succeeds, and the stored object
    has neither the expected digest nor the expected length: the call ends
    at the digest check and the length check is never reported. *)
Lemma size_check_not_reported :
  let run := upload_file_pieces (scripted corrupting) "bucket"
               "small_testfile" (md5_base64 SMALL_TESTFILE_CONTENT) 50
               [SMALL_TESTFILE_PATH] (test_world corrupting) in
  trace run.2
  = [ CreateMultipartUpload "bucket" "small_testfile"
        {[ "md5" := "CoM0C8BkxBNJJJyzEO+PYw==" ]}
        (Ok {| UploadId := Some "upload-1" |});
      Print ("Uploading ./tests/small_testfile (part 1 of 1), "
               +:+ "hash: CoM0C8BkxBNJJJyzEO+PYw== ");
      UploadPart "bucket" "small_testfile" "upload-1" 1
        SMALL_TESTFILE_CONTENT "CoM0C8BkxBNJJJyzEO+PYw=="
        (Ok {| part_ETag := Some "etag-1" |});
      Print "Finished uploading.";
      CompleteMultipartUpload "bucket" "small_testfile" "upload-1"
        [Part "etag-1" 1] (Ok {| ETag := Some "etag-object" |});
      HeadObject "bucket" "small_testfile"
        (Ok {| Metadata := Some {[ "md5" := "1B2M2Y8AsgTpgAmY7PhCfg==" ]};
               ContentLength := Some 0 |}) ]
  /\ run.1 = Raise failed_hashes
  /\ ~ reported "file sizes of combined files are equal" run.1
         (trace run.2).
Proof.
  intros run.
  assert (Htrace : trace run.2
    = [ CreateMultipartUpload "bucket" "small_testfile"
          {[ "md5" := "CoM0C8BkxBNJJJyzEO+PYw==" ]}
          (Ok {| UploadId := Some "upload-1" |});
        Print ("Uploading ./tests/small_testfile (part 1 of 1), "
                 +:+ "hash: CoM0C8BkxBNJJJyzEO+PYw== ");
        UploadPart "bucket" "small_testfile" "upload-1" 1
          SMALL_TESTFILE_CONTENT "CoM0C8BkxBNJJJyzEO+PYw=="
          (Ok {| part_ETag := Some "etag-1" |});
        Print "Finished uploading.";
        CompleteMultipartUpload "bucket" "small_testfile" "upload-1"
          [Part "etag-1" 1] (Ok {| ETag := Some "etag-object" |});
        HeadObject "bucket" "small_testfile"
          (Ok {| Metadata := Some {[ "md5" := "1B2M2Y8AsgTpgAmY7PhCfg==" ]};
                 ContentLength := Some 0 |}) ])
    by (vm_compute; reflexivity).
  assert (Hrun : run.1 = Raise failed_hashes) by (vm_compute; reflexivity).
  split; [exact Htrace|]. split; [exact Hrun|].
  intros [Hin|Hr].
  - rewrite Htrace in Hin. apply list_elem_of_In in Hin.
    vm_compute in Hin. intuition discriminate.
  - rewrite Hrun in Hr. vm_compute in Hr. discriminate.
Qed.

Lemma checks_stop_at_first_failure_witness :
  let run := upload_file_pieces (scripted corrupting) "bucket"
               "small_testfile" (md5_base64 SMALL_TESTFILE_CONTENT) 50
               [SMALL_TESTFILE_PATH] (test_world corrupting) in
  run.1 = Raise failed_hashes.
Proof.
  intros run.
  destruct (checks_stop_at_first_failure (scripted corrupting) "bucket"
              "small_testfile" (md5_base64 SMALL_TESTFILE_CONTENT) 50
              [SMALL_TESTFILE_PATH] (test_world corrupting) run.1 run.2)
    as (reply & rest & Tr & H).
  { subst run. apply surjective_pairing. }
  destruct (H {| Metadata := Some {[ "md5" := "1B2M2Y8AsgTpgAmY7PhCfg==" ]};
                 ContentLength := Some 0 |}
              "1B2M2Y8AsgTpgAmY7PhCfg==" 0)
    as (before & told & _ & Hne & _).
  - vm_compute in Tr. injection Tr as _ <-.
    apply list_elem_of_In. do 4 right. left. reflexivity.
  - reflexivity.
  - reflexivity.
  - apply Hne. vm_compute. discriminate.
Defined.

(** ** Names of the pieces *)

Lemma append_cons (c : ascii) (s t : string) :
  String c s +:+ t = String c (s +:+ t).
Proof. reflexivity. Qed.

Lemma append_nil (t : string) : "" +:+ t = t.
Proof. reflexivity. Qed.

Lemma append_empty_r (s : string) : s +:+ "" = s.
Proof.
  induction s as [|c s IH]; [reflexivity|]. rewrite append_cons, IH.
  reflexivity.
Qed.

Lemma has_sep_app (s t : string) :
  has_sep (s +:+ t) = (has_sep s || has_sep t)%bool.
Proof.
  induction s as [|c s IH]; [reflexivity|].
  rewrite append_cons. cbn [has_sep]. rewrite IH. apply orb_assoc.
Qed.

Lemma has_sep_basename (p : string) : has_sep (basename p) = false.
Proof.
  induction p as [|c p IH]; [reflexivity|]. cbn [basename].
  destruct (is_sep c || has_sep p)%bool eqn:E; [exact IH|exact E].
Qed.

Lemma basename_no_sep (n : string) : has_sep n = false -> basename n = n.
Proof.
  destruct n as [|c n]; [reflexivity|]. cbn. intros ->. reflexivity.
Qed.

Lemma has_sep_ends_with_sep (p : string) :
  ends_with_sep p = true -> has_sep p = true.
Proof.
  induction p as [|c p IH]; [discriminate|]. cbn.
  destruct p as [|c' p'].
  - intros ->. reflexivity.
  - intros H. rewrite (IH H). apply orb_true_r.
Qed.

(** After a prefix that is empty or ends with a slash, the base name is the
    name that follows, provided it has no slash of its own. *)
Lemma basename_after_prefix (p n : string) :
  has_sep n = false -> p = "" \/ ends_with_sep p = true ->
  basename (p +:+ n) = n.
Proof.
  intros Hn. induction p as [|c p IH]; intros Hp.
  - apply basename_no_sep. exact Hn.
  - destruct Hp as [Hp|Hp]; [discriminate|].
    rewrite append_cons. cbn [basename]. rewrite has_sep_app, Hn, orb_false_r.
    destruct p as [|c' p'].
    + cbn in Hp. rewrite Hp. cbn. apply basename_no_sep. exact Hn.
    + rewrite (has_sep_ends_with_sep (String c' p')) by exact Hp.
      rewrite orb_true_r. apply IH. right. exact Hp.
Qed.

Lemma ends_with_sep_app_sep (a : string) : ends_with_sep (a +:+ "/") = true.
Proof.
  induction a as [|c a IH]; [reflexivity|].
  rewrite append_cons. cbn [ends_with_sep].
  destruct (a +:+ "/") eqn:E; [destruct a; discriminate|exact IH].
Qed.

Lemma dir_prefix_shape (a : string) :
  dir_prefix a = "" \/ ends_with_sep (dir_prefix a) = true.
Proof.
  unfold dir_prefix. destruct a as [|c a]; [left; reflexivity|].
  right. destruct (ends_with_sep (String c a)) eqn:E; [exact E|].
  apply ends_with_sep_app_sep.
Qed.

Lemma basename_join (a n : string) :
  has_sep n = false -> basename (join a n) = n.
Proof.
  intros Hn. unfold join. destruct n as [|c n].
  - destruct (dir_prefix_shape a) as [E|H]; [rewrite E; reflexivity|].
    pose proof (basename_after_prefix (dir_prefix a) "" eq_refl
                  (or_intror H)) as B.
    rewrite append_empty_r in B. exact B.
  - cbn in Hn. apply orb_false_elim in Hn as [Hc Hn]. rewrite Hc.
    apply basename_after_prefix; [|apply dir_prefix_shape].
    cbn. rewrite Hc, Hn. reflexivity.
Qed.

(** *** Decimal numerals *)

Lemma pretty_N_go_digits x s :
  digits_only s -> digits_only (pretty_N_go x s).
Proof.
  revert s. induction (N.lt_wf_0 x) as [x _ IH]; intros s Hs.
  destruct (decide (x = 0)%N) as [->|Hx].
  - rewrite pretty_N_go_0. exact Hs.
  - assert (0 < x)%N as Hpos by (apply N.neq_0_lt_0; exact Hx).
    rewrite pretty_N_go_step by exact Hpos. apply IH.
    + apply N.div_lt; [exact Hpos|reflexivity].
    + intros c [<-|Hc]; [|exact (Hs c Hc)].
      exists (x `mod` 10)%N. split; [|reflexivity].
      apply N.mod_lt. discriminate.
Qed.

(** A positive number is written without a leading zero. *)
Lemma pretty_N_go_head x s :
  (0 < x)%N ->
  exists d rest,
    pretty_N_go x s = String (pretty_N_char d) rest /\ (0 < d < 10)%N.
Proof.
  revert s. induction (N.lt_wf_0 x) as [x _ IH]; intros s Hx.
  rewrite pretty_N_go_step by exact Hx.
  destruct (decide (x `div` 10 = 0)%N) as [E|E].
  - rewrite E, pretty_N_go_0. exists (x `mod` 10)%N, s.
    split; [reflexivity|].
    pose proof (N.div_mod x 10 ltac:(discriminate)) as Hdm.
    pose proof (N.mod_lt x 10 ltac:(discriminate)) as Hlt.
    rewrite E in Hdm. clear E IH. split; [|exact Hlt].
    destruct (x `mod` 10)%N; [|reflexivity]. rewrite Hdm in Hx.
    discriminate Hx.
  - apply IH.
    + apply N.div_lt; [exact Hx|reflexivity].
    + apply N.neq_0_lt_0. exact E.
Qed.

Lemma str_positive (k : Z) :
  0 < k ->
  digits_only (str k)
  /\ exists d rest, str k = String (pretty_N_char d) rest /\ (0 < d < 10)%N.
Proof.
  intros Hk. destruct k as [|p|p]; try lia.
  unfold str, pretty, pretty_Z, pretty, pretty_positive, pretty, pretty_N.
  rewrite decide_False by discriminate. split.
  - apply pretty_N_go_digits. intros c [].
  - apply pretty_N_go_head. lia.
Qed.

Lemma is_digit_not_sep c : is_digit c -> is_sep c = false.
Proof.
  intros (d & Hd & ->).
  assert (d = 0 \/ d = 1 \/ d = 2 \/ d = 3 \/ d = 4 \/ d = 5 \/ d = 6
          \/ d = 7 \/ d = 8 \/ d = 9)%N as H by lia.
  repeat (destruct H as [->|H]; [reflexivity|]). subst d. reflexivity.
Qed.

Lemma digits_only_no_sep s : digits_only s -> has_sep s = false.
Proof.
  induction s as [|c s IH]; [reflexivity|]. intros H. cbn.
  rewrite (is_digit_not_sep c) by (apply H; left; reflexivity).
  apply IH. intros c' Hc'. apply H. right. exact Hc'.
Qed.

Lemma digits_only_zeros n : digits_only (zeros n).
Proof.
  induction n as [|n IH]; intros c; [intros []|].
  intros [<-|Hc]; [|exact (IH c Hc)]. exists 0%N. split; [lia|reflexivity].
Qed.

Lemma digits_only_app s t :
  digits_only s -> digits_only t -> digits_only (s +:+ t).
Proof.
  intros Hs Ht. induction s as [|c s IH]; [exact Ht|].
  intros c' [<-|Hc'].
  - apply Hs. left. reflexivity.
  - apply IH; [|exact Hc']. intros c0 H0. apply Hs. right. exact H0.
Qed.

(** For a positive number, [zfill] only puts zeros in front. *)
Lemma zfill_positive (k width : Z) :
  0 < k ->
  zfill (str k) width = zeros (Z.to_nat (width - len (str k))) +:+ str k.
Proof.
  intros Hk. destruct (str_positive k Hk) as (_ & d & rest & E & Hd).
  unfold zfill. rewrite E.
  assert (d = 1 \/ d = 2 \/ d = 3 \/ d = 4 \/ d = 5 \/ d = 6
          \/ d = 7 \/ d = 8 \/ d = 9)%N as H by lia.
  repeat (destruct H as [->|H]; [reflexivity|]). subst d. reflexivity.
Qed.

Lemma zeros_app_inj a b s t :
  (forall rest, s <> String "0" rest) -> (forall rest, t <> String "0" rest) ->
  s <> "" -> t <> "" ->
  zeros a +:+ s = zeros b +:+ t -> s = t.
Proof.
  intros Hs Ht Hse Hte. revert b. induction a as [|a IH]; intros [|b] H.
  - exact H.
  - exfalso. cbn in H. exact (Hs _ H).
  - exfalso. cbn in H. symmetry in H. exact (Ht _ H).
  - cbn in H. injection H as H. exact (IH _ H).
Qed.

Lemma zfill_str_inj (i j width : Z) :
  0 < i -> 0 < j ->
  zfill (str i) width = zfill (str j) width -> i = j.
Proof.
  intros Hi Hj H. rewrite !zfill_positive in H by assumption.
  destruct (str_positive i Hi) as (_ & d & rest & E & Hd).
  destruct (str_positive j Hj) as (_ & d' & rest' & E' & Hd').
  apply zeros_app_inj in H.
  - apply (inj pretty) in H. exact H.
  - intros r Hr. rewrite E in Hr. injection Hr as Hr _.
    change "0"%char with (pretty_N_char 0) in Hr.
    apply pretty_N_char_inj in Hr; lia.
  - intros r Hr. rewrite E' in Hr. injection Hr as Hr _.
    change "0"%char with (pretty_N_char 0) in Hr.
    apply pretty_N_char_inj in Hr; lia.
  - rewrite E. discriminate.
  - rewrite E'. discriminate.
Qed.

Lemma piece_suffix_no_sep (input : string) (k width : Z) :
  0 < k ->
  has_sep (dot_join (basename input) (zfill (str k) width)) = false.
Proof.
  intros Hk. unfold dot_join. rewrite !has_sep_app, has_sep_basename.
  cbn [has_sep is_sep orb]. rewrite zfill_positive by exact Hk.
  change (Ascii.eqb "." "/") with false. cbn [orb].
  apply digits_only_no_sep. apply digits_only_app.
  - apply digits_only_zeros.
  - apply (str_positive k Hk).
Qed.

(** The pieces of one file have pairwise different names... *)
Lemma file_piece_name_inj input temp n i j :
  0 <= i -> 0 <= j ->
  file_piece_name input temp n i = file_piece_name input temp n j -> i = j.
Proof.
  intros Hi Hj H. unfold file_piece_name in H.
  apply (f_equal basename) in H.
  rewrite !basename_join in H by (apply piece_suffix_no_sep; lia).
  unfold dot_join in H. apply (inj (String.append _)) in H.
  apply (inj (String.append _)) in H.
  apply zfill_str_inj in H; lia.
Qed.

Lemma length_string_app (s t : string) :
  String.length (s +:+ t) = (String.length s + String.length t)%nat.
Proof.
  induction s as [|c s IH]; [reflexivity|].
  rewrite append_cons. cbn [String.length]. rewrite IH. reflexivity.
Qed.

(** ... and none of them is the file itself. *)
Lemma file_piece_name_fresh input temp n i :
  0 <= i -> file_piece_name input temp n i <> input.
Proof.
  intros Hi H. unfold file_piece_name in H.
  apply (f_equal basename) in H.
  rewrite basename_join in H by (apply piece_suffix_no_sep; lia).
  apply (f_equal String.length) in H. unfold dot_join in H.
  rewrite !length_string_app in H. cbn in H. lia.
Qed.

(** ** Double precision on file sizes *)

Module FloatFacts.
Import Float.

Lemma digits2_pos_bounds (p : positive) :
  2 ^ (Z.pos (digits2_pos p) - 1) <= Z.pos p < 2 ^ Z.pos (digits2_pos p).
Proof.
  induction p as [p IH|p IH|]; cbn [digits2_pos].
  - rewrite Pos2Z.inj_succ.
    replace (Z.succ (Z.pos (digits2_pos p)) - 1)
      with (Z.succ (Z.pos (digits2_pos p) - 1)) by lia.
    rewrite !Z.pow_succ_r by lia. lia.
  - rewrite Pos2Z.inj_succ.
    replace (Z.succ (Z.pos (digits2_pos p)) - 1)
      with (Z.succ (Z.pos (digits2_pos p) - 1)) by lia.
    rewrite !Z.pow_succ_r by lia. lia.
  - cbn. lia.
Qed.

Lemma digits2_pos_unique (p : positive) (d : Z) :
  2 ^ (d - 1) <= Z.pos p < 2 ^ d -> Z.pos (digits2_pos p) = d.
Proof.
  intros [Hlo Hhi]. pose proof (digits2_pos_bounds p) as [Blo Bhi].
  assert (0 < d).
  { destruct (Z_lt_le_dec 0 d) as [|Hd]; [assumption|].
    assert (2 ^ d <= 2 ^ 0) by (apply Z.pow_le_mono_r; lia).
    change (2 ^ 0) with 1 in *. lia. }
  set (e := Z.pos (digits2_pos p)) in *.
  destruct (Z.lt_trichotomy e d) as [Hlt|[Heq|Hgt]]; [|exact Heq|].
  - assert (2 ^ e <= 2 ^ (d - 1)) by (apply Z.pow_le_mono_r; lia). lia.
  - assert (2 ^ d <= 2 ^ (e - 1)) by (apply Z.pow_le_mono_r; lia). lia.
Qed.

Lemma pos_iter_xO (p : positive) (k : positive) :
  Z.pos (Pos.iter xO p k) = Z.pos p * 2 ^ Z.pos k.
Proof.
  revert p. induction k as [|k IH] using Pos.peano_ind; intros p.
  - cbn [Pos.iter]. rewrite Pos2Z.inj_xO. change (2 ^ 1) with 2. ring.
  - rewrite Pos.iter_succ, Pos2Z.inj_xO, IH, Pos2Z.inj_succ,
      Z.pow_succ_r by lia. ring.
Qed.

Lemma fexp_small (e : Z) : -1021 <= e -> fexp prec emax e = e - 53.
Proof. intros H. unfold fexp, emin, prec, emax. lia. Qed.

(** A mantissa of 53 digits is left alone. *)
Lemma shr_fexp_53 (m : positive) (e : Z) l :
  Z.pos (digits2_pos m) = 53 -> -1074 <= e ->
  shr_fexp prec emax (Z.pos m) e l = (shr_record_of_loc (Z.pos m) l, e).
Proof.
  intros Hd He. unfold shr_fexp. cbn [Zdigits2]. rewrite Hd.
  rewrite fexp_small by lia.
  replace (53 + e - 53 - e) with 0 by lia. reflexivity.
Qed.

(** A mantissa of 54 digits loses its last bit. *)
Lemma shr_fexp_54 (m : positive) (e : Z) l :
  Z.pos (digits2_pos m) = 54 -> -1075 <= e ->
  shr_fexp prec emax (Z.pos m) e l
  = (shr_1 (shr_record_of_loc (Z.pos m) l), e + 1).
Proof.
  intros Hd He. unfold shr_fexp. cbn [Zdigits2]. rewrite Hd.
  rewrite fexp_small by lia.
  replace (54 + e - 53 - e) with 1 by lia. reflexivity.
Qed.

Lemma binary_round_aux_53 (s : bool) (m : positive) (e : Z) :
  Z.pos (digits2_pos m) = 53 -> -1074 <= e <= 971 ->
  binary_round_aux prec emax s (Z.pos m) e loc_Exact = S754_finite s m e.
Proof.
  intros Hd He. unfold binary_round_aux.
  rewrite shr_fexp_53 by (auto; lia). cbn [shr_record_of_loc shr_m
    loc_of_shr_record round_nearest_even].
  rewrite shr_fexp_53 by (auto; lia). cbn [shr_record_of_loc shr_m].
  unfold emax, prec. destruct (Z.leb_spec e (1024 - 53)); [reflexivity|lia].
Qed.

(** [float(n)] is exact below 2^53: the mantissa is [n] shifted up to 53
    digits. *)
Lemma of_int_exact (n : Z) :
  0 < n < 2 ^ 53 ->
  exists (m : positive) (e : Z),
    of_int n = S754_finite false m e
    /\ Z.pos (digits2_pos m) = 53 /\ -52 <= e <= 0
    /\ Z.pos m = n * 2 ^ (- e).
Proof.
  intros [Hlo Hhi]. destruct n as [|p|p]; try lia.
  unfold of_int, binary_normalize, binary_round.
  pose proof (digits2_pos_bounds p) as [Blo Bhi].
  set (d := Z.pos (digits2_pos p)) in *.
  assert (Hd : 1 <= d <= 53).
  { split; [subst d; lia|].
    destruct (Z_le_gt_dec d 53) as [|Hgt]; [assumption|].
    assert (2 ^ 53 <= 2 ^ (d - 1)) by (apply Z.pow_le_mono_r; lia). lia. }
  rewrite fexp_small by lia. unfold shl_align.
  replace (d + 0 - 53 - 0) with (d - 53) by lia.
  destruct (d - 53) as [|k|k] eqn:Ek; try lia.
  - exists p, 0. rewrite binary_round_aux_53 by (fold d; lia).
    split; [reflexivity|]. split; [fold d; lia|]. split; [lia|].
    change (2 ^ (- 0)) with 1. lia.
  - exists (Pos.iter xO p k), (d + 0 - 53).
    assert (Hm : Z.pos (Pos.iter xO p k) = Z.pos p * 2 ^ (53 - d)).
    { rewrite pos_iter_xO. f_equal. f_equal. lia. }
    assert (Hdm : Z.pos (digits2_pos (Pos.iter xO p k)) = 53).
    { apply digits2_pos_unique. rewrite Hm.
      replace (2 ^ 53) with (2 ^ d * 2 ^ (53 - d))
        by (rewrite <- Z.pow_add_r by lia; f_equal; lia).
      replace (2 ^ (53 - 1)) with (2 ^ (d - 1) * 2 ^ (53 - d))
        by (rewrite <- Z.pow_add_r by lia; f_equal; lia).
      assert (0 < 2 ^ (53 - d)) by (apply Z.pow_pos_nonneg; lia).
      nia. }
    rewrite binary_round_aux_53 by (auto; lia).
    split; [reflexivity|]. split; [exact Hdm|]. split; [lia|].
    rewrite Hm. f_equal. f_equal. lia.
Qed.

End FloatFacts.

Module FloatDivision.
Import Float FloatFacts.

(** [SpecFloat] is written with the core definitions of the integer
    operations; this puts them in the form the arithmetic tactics know. *)
Ltac std_Z :=
  change IntDef.Z.add with Z.add in *;
  change IntDef.Z.sub with Z.sub in *;
  change IntDef.Z.mul with Z.mul in *;
  change IntDef.Z.opp with Z.opp in *;
  change IntDef.Z.compare with Z.compare in *;
  change IntDef.Z.eqb with Z.eqb in *;
  change IntDef.Z.leb with Z.leb in *;
  change IntDef.Z.ltb with Z.ltb in *;
  change IntDef.Z.max with Z.max in *;
  change IntDef.Z.min with Z.min in *;
  change IntDef.Z.even with Z.even in *;
  change IntDef.Z.shiftl with Z.shiftl in *;
  change IntDef.Z.div_eucl with Z.div_eucl in *.

(** Ceiling of a quotient of integers, as [Z.div] gives it. *)
Lemma ceil_unique (x u c : Z) :
  0 < u -> (c - 1) * u < x <= c * u -> (x + u - 1) / u = c.
Proof.
  intros Hu [Hlo Hhi]. symmetry.
  apply (Z.div_unique (x + u - 1) u c (x + u - 1 - c * u)); lia.
Qed.

Lemma ceil_bounds (x u : Z) :
  0 < u ->
  ((x + u - 1) / u - 1) * u < x <= (x + u - 1) / u * u.
Proof.
  intros Hu. pose proof (Z.div_mod (x + u - 1) u ltac:(lia)) as Hdm.
  pose proof (Z.mod_pos_bound (x + u - 1) u Hu) as Hm. nia.
Qed.

Lemma opp_div_opp (x u : Z) :
  0 < u -> - ((- x) / u) = (x + u - 1) / u.
Proof.
  intros Hu. pose proof (ceil_bounds x u Hu) as [Hlo Hhi].
  set (c := (x + u - 1) / u) in *.
  assert ((- x) / u = - c) as ->; [|lia].
  symmetry. apply (Z.div_unique (- x) u (- c) (c * u - x)); lia.
Qed.

(** What [int(math.ceil(x))] is for the double with mantissa [m] and a
    non-positive exponent. *)
Lemma ceil_int_finite (m : positive) (e : Z) :
  e <= 0 ->
  ceil_int (S754_finite false m e)
  = Some ((Z.pos m + 2 ^ (- e) - 1) / 2 ^ (- e)).
Proof.
  intros He. unfold ceil_int. cbn [cond_Zopp]. f_equal.
  destruct (Z.leb_spec 0 e) as [H0|H0].
  - assert (e = 0) as -> by lia. change (2 ^ (- 0)) with 1.
    change (2 ^ 0) with 1. rewrite Z.div_1_r. lia.
  - apply opp_div_opp. apply Z.pow_pos_nonneg; lia.
Qed.

(** The location of a remainder [r] of a division by [m]. *)
Lemma new_location_spec (m r : Z) :
  0 < m -> 0 <= r < m ->
  (r = 0 -> new_location m r = loc_Exact)
  /\ (r <> 0 -> exists c, new_location m r = loc_Inexact c
                         /\ (m < 2 * r -> c = Gt)).
Proof.
  intros Hm Hr. unfold new_location. std_Z. split.
  - intros ->. destruct (Z.even m); reflexivity.
  - intros Hne. destruct (Z.even m);
      unfold new_location_even, new_location_odd; std_Z;
      destruct (Z.eqb_spec r 0) as [|_]; try contradiction.
    + eexists. split; [reflexivity|]. intros H.
      apply Z.compare_gt_iff. exact H.
    + destruct (Z.compare_spec (2 * r + 1) m) as [E|E|E];
        eexists; (split; [reflexivity|]); intros H; try reflexivity;
        exfalso; clear - E H; lia.
Qed.

Lemma loc_of_record_of (m : Z) (l : location) :
  loc_of_shr_record (shr_record_of_loc m l) = l
  /\ shr_m (shr_record_of_loc m l) = m.
Proof. destruct l as [|[]]; split; reflexivity. Qed.

(** Rounding to nearest moves up by at most one, stays on an exact value
    and moves up past the half. *)
Lemma round_nearest_even_spec (m : Z) (l : location) :
  m <= round_nearest_even m l <= m + 1
  /\ (l = loc_Exact -> round_nearest_even m l = m)
  /\ (l = loc_Inexact Gt -> round_nearest_even m l = m + 1).
Proof.
  destruct l as [|[]]; cbn; try destruct (Z.even m); repeat split;
    try lia; try discriminate.
Qed.

(** The last step of [binary_round_aux]: a rounded mantissa [Q] is kept,
    or renormalised when rounding carried it to 2^53. *)
Lemma finish_round (Q e : Z) :
  2 ^ 52 <= Q <= 2 ^ 53 -> -1074 <= e <= 900 ->
  (let '(mrs, e') := shr_fexp prec emax Q e loc_Exact in
   match shr_m mrs with
   | 0 => S754_zero false
   | Z.pos m =>
       if e' <=? emax - prec then S754_finite false m e'
       else S754_infinity false
   | Z.neg _ => S754_nan
   end)
  = if Q =? 2 ^ 53 then S754_finite false (Z.to_pos (2 ^ 52)) (e + 1)
    else S754_finite false (Z.to_pos Q) e.
Proof.
  intros HQ He. destruct (Z.eqb_spec Q (2 ^ 53)) as [->|Hne].
  - change (2 ^ 53) with (Z.pos (Z.to_pos (2 ^ 53))).
    rewrite shr_fexp_54 by (try reflexivity; lia).
    cbn [shr_record_of_loc]. cbn -[Z.add Z.leb emax prec].
    unfold emax, prec. destruct (Z.leb_spec (e + 1) (1024 - 53));
      [reflexivity|lia].
  - destruct Q as [|q|q]; try lia.
    assert (Hd : Z.pos (digits2_pos q) = 53)
      by (apply digits2_pos_unique; lia).
    rewrite shr_fexp_53 by (auto; lia). cbn [shr_record_of_loc shr_m].
    unfold emax, prec. destruct (Z.leb_spec e (1024 - 53));
      [rewrite Pos2Z.id; reflexivity|lia].
Qed.

(** [binary_round_aux] on a quotient [q] of 53 or 54 digits with the
    location [l] of its remainder: the result has the value [Q * 2^E0],
    where [Q] is [q] cut to 53 digits and rounded. *)
Lemma binary_round_aux_quotient (q : positive) (e : Z) (l : location) :
  let dq := Z.pos (digits2_pos q) in
  let g := 2 ^ (dq - 53) in
  53 <= dq <= 54 -> -1074 <= e <= 800 ->
  exists Q,
    binary_round_aux prec emax false (Z.pos q) e l
    = (if Q =? 2 ^ 53
       then S754_finite false (Z.to_pos (2 ^ 52)) (e + (dq - 53) + 1)
       else S754_finite false (Z.to_pos Q) (e + (dq - 53)))
    /\ 2 ^ 52 <= Q <= 2 ^ 53
    /\ Z.pos q / g <= Q <= Z.pos q / g + 1
    /\ (l = loc_Exact -> Z.pos q mod g = 0 -> Q = Z.pos q / g)
    /\ (l = loc_Inexact Gt -> g = 1 -> Q = Z.pos q / g + 1)
    /\ (l <> loc_Exact -> Z.pos q mod g = 1 -> Q = Z.pos q / g + 1).
Proof.
  intros dq g Hdq He. pose proof (digits2_pos_bounds q) as [Blo Bhi].
  fold dq in Blo, Bhi. unfold binary_round_aux.
  assert (dq = 53 \/ dq = 54) as [E|E] by lia.
  - (* 53 digits: nothing to cut *)
    rewrite shr_fexp_53 by (auto; lia).
    destruct (loc_of_record_of (Z.pos q) l) as [-> ->].
    pose proof (round_nearest_even_spec (Z.pos q) l) as (Hr & Hex & Hgt).
    set (Q := round_nearest_even (Z.pos q) l) in *.
    assert (Hg : g = 1) by (subst g; rewrite E; reflexivity).
    rewrite E in Blo, Bhi. change (53 - 1) with 52 in Blo.
    exists Q. rewrite finish_round by lia.
    rewrite Hg, Z.div_1_r, Z.mod_1_r, E.
    replace (e + (53 - 53)) with e by lia.
    repeat split; try lia; auto.
  - (* 54 digits: the last bit goes into the location *)
    rewrite shr_fexp_54 by (auto; lia).
    assert (Hg : g = 2) by (subst g; rewrite E; reflexivity).
    rewrite E in Blo, Bhi. change (54 - 1) with 53 in Blo.
    rewrite Hg, E. replace (e + (54 - 53)) with (e + 1) by lia.
    destruct q as [p|p|]; [| |cbn in Blo; lia].
    + (* odd quotient *)
      assert (Hdiv : Z.pos p~1 / 2 = Z.pos p /\ Z.pos p~1 mod 2 = 1).
      { rewrite Pos2Z.inj_xI. split.
        - symmetry. apply (Z.div_unique _ 2 _ 1); lia.
        - symmetry. apply (Z.mod_unique _ 2 (Z.pos p) 1); lia. }
      destruct Hdiv as [-> ->]. rewrite Pos2Z.inj_xI in Blo, Bhi.
      destruct l as [|[]]; cbn [shr_record_of_loc shr_1 orb shr_m
                                loc_of_shr_record];
        match goal with
        | |- context [round_nearest_even ?m ?l'] =>
            pose proof (round_nearest_even_spec m l') as (Hr & Hex & Hgt);
            set (Q := round_nearest_even m l') in *
        end;
        exists Q; rewrite finish_round by lia;
        (split; [reflexivity|]);
        repeat split; try lia; try discriminate; try congruence;
        intros; try (apply Hgt; reflexivity); try lia.
    + (* even quotient *)
      assert (Hdiv : Z.pos p~0 / 2 = Z.pos p /\ Z.pos p~0 mod 2 = 0).
      { rewrite Pos2Z.inj_xO. split.
        - symmetry. apply (Z.div_unique _ 2 _ 0); lia.
        - symmetry. apply (Z.mod_unique _ 2 (Z.pos p) 0); lia. }
      destruct Hdiv as [-> ->]. rewrite Pos2Z.inj_xO in Blo, Bhi.
      destruct l as [|[]]; cbn [shr_record_of_loc shr_1 orb shr_m
                                loc_of_shr_record];
        match goal with
        | |- context [round_nearest_even ?m ?l'] =>
            pose proof (round_nearest_even_spec m l') as (Hr & Hex & Hgt);
            set (Q := round_nearest_even m l') in *
        end;
        exists Q; rewrite finish_round by lia;
        (split; [reflexivity|]);
        repeat split; try lia; try discriminate; try congruence;
        intros; try (apply Hex; reflexivity); try lia.
Qed.

End FloatDivision.

Module FloatCeiling.
Import Float FloatFacts FloatDivision.

(** The arithmetic behind the ceiling of a rounded quotient.  [X / Dn]
    is the quotient scaled to a mantissa of 53 digits, [Q] the mantissa
    after rounding, [u] the weight of a whole unit at that scale. *)
Lemma ceil_core (a b X Dn Q u : Z) :
  0 < a < 2 ^ 53 -> 0 < b -> 0 < u -> 0 < Dn ->
  a * u * Dn = X * b -> 2 ^ 52 * Dn <= X ->
  X / Dn <= Q <= X / Dn + 1 ->
  (X mod Dn = 0 -> Q = X / Dn) ->
  (Dn < 2 * (X mod Dn) -> Q = X / Dn + 1) ->
  (Q + u - 1) / u = (a + b - 1) / b.
Proof.
  intros Ha Hb Hu HDn Hrel Hbig HQ Hexact Hup.
  pose proof (ceil_bounds a b Hb) as [Hlo Hhi].
  set (c := (a + b - 1) / b) in *.
  pose proof (Z.div_mod X Dn ltac:(lia)) as Hdm.
  pose proof (Z.mod_pos_bound X Dn HDn) as Hrem.
  set (F := X / Dn) in *. set (rem := X mod Dn) in *.
  assert (H2u : b < 2 * u).
  { assert (2 ^ 52 * b * Dn <= a * u * Dn) by nia.
    assert (2 ^ 52 * b <= a * u) by nia.
    change (2 ^ 53) with (2 * 2 ^ 52) in Ha. nia. }
  apply ceil_unique; [exact Hu|]. split.
  - (* more than [c - 1] units *)
    assert (Hx : (c - 1) * u * Dn * b + u * Dn <= X * b) by nia.
    assert (HXlo : (c - 1) * u * Dn < X).
    { assert (0 < u * Dn) by nia.
      assert ((c - 1) * u * Dn * b < X * b) by lia. nia. }
    assert (HF : (c - 1) * u <= F).
    { assert ((c - 1) * u * Dn < Dn * (F + 1)) by lia. nia. }
    destruct (Z_lt_le_dec ((c - 1) * u) F) as [|HFle]; [lia|].
    assert (F = (c - 1) * u) by lia.
    assert (Hr : u * Dn <= rem * b) by nia.
    assert (Dn < 2 * rem) by nia.
    rewrite (Hup ltac:(assumption)). lia.
  - (* at most [c] units *)
    assert (Hx : X * b <= c * u * Dn * b) by nia.
    assert (HX : X <= c * u * Dn) by nia.
    destruct (Z.eq_dec rem 0) as [E|E].
    + rewrite (Hexact E). nia.
    + assert (F < c * u) by nia. lia.
Qed.

(** Below 2^53 the double quotient of two sizes has the ceiling of the
    exact quotient. *)
Lemma ceil_int_div (a b : Z) :
  0 < a < 2 ^ 53 -> 0 < b < 2 ^ 53 ->
  ceil_int (div (of_int a) (of_int b)) = Some ((a + b - 1) / b).
Proof.
  intros Ha Hb.
  destruct (of_int_exact a Ha) as (m1 & e1 & -> & Hd1 & He1 & Hm1).
  destruct (of_int_exact b Hb) as (m2 & e2 & -> & Hd2 & He2 & Hm2).
  pose proof (digits2_pos_bounds m1) as [B1lo B1hi].
  pose proof (digits2_pos_bounds m2) as [B2lo B2hi].
  rewrite Hd1 in B1lo, B1hi. rewrite Hd2 in B2lo, B2hi.
  change (53 - 1) with 52 in *.
  unfold div, SFdiv, SFdiv_core_binary. cbn [Zdigits2 xorb].
  rewrite Hd1, Hd2. std_Z. rewrite fexp_small by lia.
  replace (Z.min (53 + e1 - (53 + e2) - 53) (e1 - e2))
    with (e1 - e2 - 53) by lia.
  replace (e1 - e2 - (e1 - e2 - 53)) with 53 by lia.
  cbv iota. rewrite Z.shiftl_mul_pow2 by lia.
  pose proof (Z_div_mod (Z.pos m1 * 2 ^ 53) (Z.pos m2) ltac:(lia)) as Hdiv.
  destruct (Z.div_eucl (Z.pos m1 * 2 ^ 53) (Z.pos m2)) as [q r].
  destruct Hdiv as [HX Hr].
  assert (Hq : 2 ^ 52 <= q < 2 ^ 54).
  { change (2 ^ 54) with (2 * 2 ^ 53). split; nia. }
  destruct q as [|q|q]; try lia.
  pose proof (digits2_pos_bounds q) as [Bqlo Bqhi].
  set (dq := Z.pos (digits2_pos q)) in *.
  assert (Hdq : 53 <= dq <= 54).
  { split.
    - destruct (Z_le_gt_dec 53 dq) as [|Hlt]; [assumption|].
      assert (2 ^ dq <= 2 ^ 52) by (apply Z.pow_le_mono_r; lia). lia.
    - destruct (Z_le_gt_dec dq 54) as [|Hgt]; [assumption|].
      assert (2 ^ 54 <= 2 ^ (dq - 1)) by (apply Z.pow_le_mono_r; lia).
      lia. }
  destruct (binary_round_aux_quotient q (e1 - e2 - 53)
              (new_location (Z.pos m2) r)) as
    (Q & -> & HQ & HQq & Hex & Hgt1 & Hgt2); [fold dq; lia|lia|].
  fold dq in HQq, Hex, Hgt1, Hgt2.
  destruct (new_location_spec (Z.pos m2) r ltac:(lia) Hr) as [Hl0 Hl1].
  set (E0 := e1 - e2 - 53 + (dq - 53)) in *.
  set (u := 2 ^ (- E0)).
  assert (Hu : 0 < u) by (apply Z.pow_pos_nonneg; subst E0; lia).
  assert (HE0 : E0 <= 0) by (subst E0; lia).
  (* the scale of the quotient *)
  assert (Hscale : 2 ^ (dq - 53) * u * 2 ^ (- e2) = 2 ^ 53 * 2 ^ (- e1)).
  { subst u E0. rewrite <- !Z.pow_add_r by lia. f_equal. lia. }
  assert (Hcore : (Q + u - 1) / u = (a + b - 1) / b).
  { assert (dq = 53 \/ dq = 54) as [E|E] by lia.
    - (* one unit of the quotient is one unit of the mantissa *)
      rewrite E in *. change (2 ^ (53 - 53)) with 1 in *.
      rewrite Z.div_1_r in *. rewrite Z.mod_1_r in *.
      assert (HXq : Z.pos m1 * 2 ^ 53 / Z.pos m2 = Z.pos q
                    /\ (Z.pos m1 * 2 ^ 53) mod Z.pos m2 = r).
      { split.
        - symmetry. apply (Z.div_unique _ _ _ r); lia.
        - symmetry. apply (Z.mod_unique _ _ (Z.pos q)); lia. }
      destruct HXq as [HXd HXm].
      apply (ceil_core a b (Z.pos m1 * 2 ^ 53) (Z.pos m2) Q u);
        [exact Ha|lia|exact Hu|lia| | | | | ].
      + rewrite Hm1, Hm2.
        replace (a * u * (b * 2 ^ (- e2)))
          with (a * b * (1 * u * 2 ^ (- e2))) by ring.
        rewrite Hscale. ring.
      + clear - B1lo B2hi. lia.
      + rewrite HXd. lia.
      + rewrite HXd, HXm. intros Hr0. apply Hex; [auto|reflexivity].
      + rewrite HXd, HXm. intros Hhalf.
        destruct (Hl1 ltac:(lia)) as (c & Hc & Hcgt).
        apply Hgt1; [|reflexivity]. rewrite Hc, (Hcgt Hhalf). reflexivity.
    - (* two units of the quotient are one unit of the mantissa *)
      rewrite E in *. change (2 ^ (54 - 53)) with 2 in *.
      change (54 - 1) with 53 in *.
      pose proof (Z.div_mod (Z.pos q) 2 ltac:(lia)) as Hq2.
      pose proof (Z.mod_pos_bound (Z.pos q) 2 ltac:(lia)) as Hq2m.
      set (h := Z.pos q / 2) in *. set (o := Z.pos q mod 2) in *.
      assert (Ho : o = 0 \/ o = 1) by lia.
      clearbody h o.
      assert (HX' : Z.pos m1 * 2 ^ 53
                    = 2 * Z.pos m2 * h + (Z.pos m2 * o + r)).
      { rewrite HX, Hq2. ring. }
      assert (Hrem : 0 <= Z.pos m2 * o + r < 2 * Z.pos m2).
      { destruct Ho as [-> | ->]; lia. }
      assert (HXq : Z.pos m1 * 2 ^ 53 / (2 * Z.pos m2) = h
                    /\ (Z.pos m1 * 2 ^ 53) mod (2 * Z.pos m2)
                       = Z.pos m2 * o + r).
      { split.
        - symmetry. apply (Z.div_unique _ _ _ (Z.pos m2 * o + r));
            [left; exact Hrem|exact HX'].
        - symmetry. apply (Z.mod_unique _ _ h);
            [left; exact Hrem|exact HX']. }
      destruct HXq as [HXd HXm].
      apply (ceil_core a b (Z.pos m1 * 2 ^ 53) (2 * Z.pos m2) Q u);
        [exact Ha|lia|exact Hu|lia| | | | | ].
      + rewrite Hm1, Hm2.
        replace (a * u * (2 * (b * 2 ^ (- e2))))
          with (a * b * (2 * u * 2 ^ (- e2))) by ring.
        rewrite Hscale. ring.
      + assert (2 ^ 53 * Z.pos m2 <= Z.pos q * Z.pos m2)
          by (apply Z.mul_le_mono_nonneg_r; lia).
        change (2 ^ 53) with (2 * 2 ^ 52) in *. lia.
      + rewrite HXd. lia.
      + rewrite HXd, HXm. intros Hr0.
        assert (o = 0 /\ r = 0) as [Ho0 Hr0'].
        { destruct Ho as [-> | ->]; lia. }
        apply Hex; auto.
      + rewrite HXd, HXm. intros Hhalf.
        assert (o = 1 /\ r <> 0) as [Ho1 Hr0'].
        { destruct Ho as [-> | ->]; lia. }
        apply Hgt2; [|exact Ho1].
        destruct (Hl1 Hr0') as (c & Hc & _). rewrite Hc. discriminate. }
  rewrite <- Hcore.
  destruct (Z.eqb_spec Q (2 ^ 53)) as [EQ|NQ].
  - (* rounding carried to 2^53 *)
    assert (E0 <> 0).
    { intros E00. subst u. rewrite E00 in Hcore.
      change (2 ^ (- 0)) with 1 in Hcore. rewrite Z.div_1_r in Hcore.
      pose proof (ceil_bounds a b ltac:(lia)) as [Hc _].
      rewrite <- Hcore, EQ in Hc. clear - Hc Ha Hb. lia. }
    set (u' := 2 ^ (- (E0 + 1))).
    assert (Hu' : u = 2 * u').
    { subst u u'. replace (- E0) with (Z.succ (- (E0 + 1))) by lia.
      rewrite Z.pow_succ_r by lia. reflexivity. }
    assert (0 < u') by lia.
    assert (Hc2 : (2 ^ 52 + u' - 1) / u' = (Q + u - 1) / u).
    { pose proof (ceil_bounds (2 ^ 52) u' ltac:(lia)) as [Hlo Hhi].
      set (c := (2 ^ 52 + u' - 1) / u') in *.
      symmetry. apply (ceil_unique Q u c); [lia|].
      rewrite Hu', EQ. clearbody c. clear - Hlo Hhi.
      change (2 ^ 53) with (2 * 2 ^ 52). split.
      - replace ((c - 1) * (2 * u')) with (2 * ((c - 1) * u')) by ring.
        lia.
      - replace (c * (2 * u')) with (2 * (c * u')) by ring. lia. }
    rewrite ceil_int_finite by (fold E0; lia). f_equal.
    rewrite Z2Pos.id by reflexivity. exact Hc2.
  - rewrite ceil_int_finite by (fold E0; lia). f_equal.
    rewrite Z2Pos.id by lia. reflexivity.
Qed.

End FloatCeiling.

(** ** Cutting a list into groups *)

Lemma groups_length {A} (m k : nat) (l : list A) :
  length (Bytes.groups m k l) = k.
Proof.
  revert l. induction k as [|k IH]; intros l; [reflexivity|].
  cbn. rewrite IH. reflexivity.
Qed.

Lemma groups_lookup {A} (m k i : nat) (l : list A) :
  (i < k)%nat ->
  Bytes.groups m k l !! i = Some (take m (drop (i * m) l)).
Proof.
  revert i l. induction k as [|k IH]; intros i l Hi; [lia|].
  destruct i as [|i]; cbn [Bytes.groups lookup list_lookup].
  - reflexivity.
  - rewrite IH by lia. rewrite drop_drop. reflexivity.
Qed.

Lemma groups_concat {A} (m k : nat) (l : list A) :
  concat (Bytes.groups m k l) = take (k * m) l.
Proof.
  revert l. induction k as [|k IH]; intros l; [reflexivity|].
  cbn [Bytes.groups concat]. rewrite IH.
  rewrite take_take_drop. f_equal.
Qed.

(** ** [split_input_file] *)

(** The file system after writing the pieces [kvs] one after the other. *)
Lemma written_lookup (kvs : list (string * list byte))
    (fs : gmap string (list byte)) (i : nat) (k : string) (v : list byte) :
  NoDup kvs.*1 -> kvs !! i = Some (k, v) ->
  fold_left (fun fs e => <[e.1 := e.2]> fs) kvs fs !! k = Some v.
Proof.
  revert fs i. induction kvs as [|[k' v'] kvs IH]; intros fs i Hnd Hi.
  - discriminate.
  - cbn [fmap list_fmap fst] in Hnd. apply NoDup_cons in Hnd as [Hnotin Hnd].
    cbn [fold_left fst snd]. destruct i as [|i].
    + injection Hi as -> ->.
      assert (Hkeep : forall l (fs' : gmap string (list byte)),
                 k ∉ l.*1 ->
                 fold_left (fun fs e => <[e.1 := e.2]> fs) l fs' !! k
                 = fs' !! k).
      { clear. induction l as [|[k2 v2] l IHl]; intros fs' Hk; [reflexivity|].
        cbn [fmap list_fmap fst] in Hk. apply not_elem_of_cons in Hk as [Hne Hk].
        cbn [fold_left fst snd]. rewrite IHl by exact Hk.
        apply lookup_insert_ne. congruence. }
      rewrite Hkeep by exact Hnotin. apply lookup_insert_eq.
    + eapply IH; eauto.
Qed.

Lemma written_other (kvs : list (string * list byte))
    (fs : gmap string (list byte)) (k : string) :
  k ∉ kvs.*1 ->
  fold_left (fun fs e => <[e.1 := e.2]> fs) kvs fs !! k = fs !! k.
Proof.
  revert fs. induction kvs as [|[k2 v2] l IHl]; intros fs' Hk; [reflexivity|].
  cbn [fmap list_fmap fst] in Hk. apply not_elem_of_cons in Hk as [Hne Hk].
  cbn [fold_left fst snd]. rewrite IHl by exact Hk.
  apply lookup_insert_ne. congruence.
Qed.

Section Splitter.
Context (s3 : S3Client).
Implicit Types w : world s3.

(** Below 2^53 the number of pieces is the ceiling of the quotient. *)
Lemma count_file_pieces_exact (size p : Z) w :
  0 <= size < 2 ^ 53 -> 0 < p < 2 ^ 53 ->
  count_file_pieces s3 size p w = (Return ((size + p - 1) / p), w).
Proof.
  intros Hs Hp. unfold count_file_pieces.
  destruct (FloatFacts.of_int_exact p Hp) as (m2 & e2 & E2 & _).
  assert (Hfs : Float.is_finite (Float.of_int size) = true).
  { destruct (Z.eq_dec size 0) as [->|Hne]; [reflexivity|].
    destruct (FloatFacts.of_int_exact size ltac:(lia))
      as (m1 & e1 & E1 & _).
    rewrite E1. reflexivity. }
  assert (Hc : Float.ceil_int (Float.div (Float.of_int size)
                                         (Float.of_int p))
               = Some ((size + p - 1) / p)).
  { destruct (Z.eq_dec size 0) as [->|Hne].
    - rewrite E2. cbn. rewrite Z.div_small by lia. reflexivity.
    - apply FloatCeiling.ceil_int_div; lia. }
  rewrite Hc, Hfs, E2. reflexivity.
Qed.

(** The loop writes what it reads, in order, under the names of the
    indices; for a positive piece size these are the groups of the
    source. *)
Lemma write_file_pieces_run input temp p n indices rest names w :
  let new := map (file_piece_name input temp n) indices in
  exists pcs w',
    write_file_pieces s3 input temp p n indices rest names w
    = (Return (names ++ new), w')
    /\ length pcs = length indices
    /\ (0 < p -> pcs = Bytes.groups (Z.to_nat p) (length indices) rest)
    /\ dirs w' = dirs w /\ tmp_names w' = tmp_names w
    /\ remote w' = remote w
    /\ trace w' = trace w ++ zip_with Write new pcs
    /\ files w'
       = fold_left (fun fs e => <[e.1 := e.2]> fs) (zip new pcs) (files w).
Proof.
  revert rest names w.
  induction indices as [|index later IH]; intros rest names w new.
  - exists [], w. subst new. cbn. rewrite !app_nil_r. auto 10.
  - cbn [write_file_pieces].
    destruct (read p rest) as [data rest'] eqn:Er.
    unfold mbind, M_bind, write_file.
    match goal with
    | |- context [write_file_pieces s3 input temp p n later rest' ?names'
                    ?w0] =>
        destruct (IH rest' names' w0)
          as (pcs & w' & Hrun & Hlen & Hgr & Hd & Ht & Hr & Htr & Hf)
    end.
    exists (data :: pcs), w'. rewrite Hrun.
    cbn [dirs tmp_names remote trace files] in *.
    subst new. cbn [map length zip_with fold_left fst snd].
    rewrite <- !app_assoc in *. cbn [app] in *.
    split; [reflexivity|]. split; [congruence|]. split; [|auto 10].
    intros Hp. rewrite (Hgr Hp). cbn [Bytes.groups].
    unfold read in Er. destruct (Z.ltb_spec p 0) as [|_]; [lia|].
    injection Er as <- <-. reflexivity.
Qed.

End Splitter.

Lemma range_length (n : Z) : length (range n) = Z.to_nat n.
Proof. unfold range. rewrite length_map, length_seq. reflexivity. Qed.

Lemma range_nonneg (n i : Z) : i ∈ range n -> 0 <= i.
Proof.
  unfold range. intros H. apply list_elem_of_fmap in H as (k & -> & _). lia.
Qed.

Lemma range_NoDup (n : Z) : NoDup (range n).
Proof.
  unfold range. apply (NoDup_fmap_2 Z.of_nat). apply NoDup_seq.
Qed.

Lemma file_piece_names_NoDup input temp n m :
  NoDup (map (file_piece_name input temp n) (range m)).
Proof.
  apply NoDup_fmap_2_strong; [|apply range_NoDup].
  intros i j Hi Hj. apply file_piece_name_inj; eapply range_nonneg; eauto.
Qed.

Lemma file_piece_names_fresh input temp n m :
  input ∉ map (file_piece_name input temp n) (range m).
Proof.
  intros H. apply list_elem_of_fmap in H as (i & Hi & Hin).
  symmetry in Hi. revert Hi. apply file_piece_name_fresh.
  eapply range_nonneg; eauto.
Qed.

Section SplitTheorems.
Context (s3 : S3Client).
Implicit Types w : world s3.

(** What [split_input_file] does, for any piece size: it raises before
    writing anything, or it writes pieces under fresh names and leaves
    every other file alone. *)
Lemma split_input_file_spec input temp p w r w' :
  split_input_file s3 input temp p w = (r, w') ->
  (exists e, r = Raise e /\ w' = w)
  \/ exists content n pcs,
       let names := map (file_piece_name input temp n) (range n) in
       files w !! input = Some content
       /\ count_file_pieces s3 (Z.of_nat (length content)) p w
          = (Return n, w)
       /\ r = Return names
       /\ length pcs = length names
       /\ (0 < p ->
           pcs = Bytes.groups (Z.to_nat p) (Z.to_nat n) content)
       /\ dirs w' = dirs w /\ tmp_names w' = tmp_names w
       /\ remote w' = remote w
       /\ trace w' = trace w ++ zip_with Write names pcs
       /\ files w'
          = fold_left (fun fs e => <[e.1 := e.2]> fs) (zip names pcs)
                      (files w).
Proof.
  unfold split_input_file, mbind, M_bind, getsize, open_rb.
  destruct (files w !! input) as [content|] eqn:Ef.
  2:{ intros [= <- <-]. left. eauto. }
  destruct (count_file_pieces s3 _ p w) as [[n|e] w1] eqn:Ec.
  2:{ assert (w1 = w) as ->.
      { unfold count_file_pieces in Ec.
        repeat match type of Ec with
               | context [if ?b then _ else _] => destruct b
               | context [match ?o with Some _ => _ | None => _ end] =>
                   destruct o
               end; injection Ec as _ <-; reflexivity. }
      intros [= <- <-]. left. eauto. }
  assert (w1 = w) as ->.
  { unfold count_file_pieces in Ec.
    repeat match type of Ec with
           | context [if ?b then _ else _] => destruct b
           | context [match ?o with Some _ => _ | None => _ end] =>
               destruct o
           end; injection Ec as _ <-; reflexivity. }
  rewrite Ef.
  destruct (write_file_pieces_run s3 input temp p n (range n) content [] w)
    as (pcs & w2 & Hrun & Hlen & Hgr & Hd & Ht & Hr & Htr & Hf).
  rewrite Hrun. intros [= <- <-]. right.
  exists content, n, pcs. cbn zeta. rewrite length_map.
  rewrite range_length in Hgr. auto 12.
Qed.

(** C3, as the code has it.  For a source file of fewer than 2^53 bytes
    and a piece size between 1 and 2^53 (the sizes a double holds
    exactly), [split_input_file] returns ceil(size / piece size) names,
    in ascending order of index; the file under the i-th name holds the
    i-th group of bytes of the source; the pieces put end to end are the
    source, so their sizes add up to its size; no piece is empty or
    longer than the piece size, and all but the last have exactly that
    size. *)
Theorem split_input_file_pieces input temp p content w :
  files w !! input = Some content ->
  Z.of_nat (length content) < 2 ^ 53 -> 0 < p < 2 ^ 53 ->
  exists names pieces w',
    split_input_file s3 input temp p w = (Return names, w')
    /\ Z.of_nat (length names) = (Z.of_nat (length content) + p - 1) / p
    /\ names = map (file_piece_name input temp (Z.of_nat (length names)))
                   (range (Z.of_nat (length names)))
    /\ length pieces = length names
    /\ trace w' = trace w ++ zip_with Write names pieces
    /\ (forall i name piece,
          names !! i = Some name -> pieces !! i = Some piece ->
          files w' !! name = Some piece)
    /\ concat pieces = content
    /\ list_sum (map length pieces) = length content
    /\ forall i piece,
         pieces !! i = Some piece ->
         0 < Z.of_nat (length piece) <= p
         /\ ((S i < length pieces)%nat -> Z.of_nat (length piece) = p).
Proof.
  intros Hfile Hsize Hp.
  destruct (split_input_file s3 input temp p w) as [r w'] eqn:Erun.
  pose proof (split_input_file_spec _ _ _ _ _ _ Erun) as Hspec.
  set (len := Z.of_nat (length content)) in *.
  set (n := (len + p - 1) / p).
  assert (Hcount : count_file_pieces s3 len p w = (Return n, w))
    by (apply count_file_pieces_exact; lia).
  destruct Hspec as [(e & -> & ->)|
    (content' & n' & pcs & Hf' & Hc' & -> & Hlen & Hgr & _ & _ & _ & Htr
     & Hfs)].
  { exfalso. revert Erun.
    unfold split_input_file, mbind, M_bind, getsize, open_rb.
    rewrite Hfile. fold len. rewrite Hcount, Hfile.
    destruct (write_file_pieces_run s3 input temp p n (range n) content
                [] w) as (? & ? & -> & _). discriminate. }
  rewrite Hfile in Hf'. injection Hf' as <-. fold len in Hc'.
  rewrite Hcount in Hc'. injection Hc' as <-.
  pose proof (FloatDivision.ceil_bounds len p ltac:(lia)) as [Hlo Hhi].
  fold n in Hlo, Hhi.
  assert (Hn : 0 <= n) by (apply Z.div_pos; lia).
  set (names := map (file_piece_name input temp n) (range n)) in *.
  assert (Hnames : Z.of_nat (length names) = n).
  { subst names. rewrite length_map, range_length. lia. }
  specialize (Hgr ltac:(lia)).
  set (m := Z.to_nat p) in *. set (k := Z.to_nat n) in *.
  assert (Hcover : (length content <= k * m)%nat) by (subst k m; nia).
  exists names, pcs, w'. rewrite Hnames.
  split; [reflexivity|]. split; [reflexivity|]. split; [reflexivity|].
  split; [exact Hlen|]. split; [exact Htr|].
  assert (Hcat : concat pcs = content).
  { rewrite Hgr, groups_concat. apply take_ge. exact Hcover. }
  split; [|split; [exact Hcat|split]].
  - intros i name piece Hi Hpi. rewrite Hfs.
    apply (written_lookup _ _ i).
    + rewrite fst_zip by lia. apply file_piece_names_NoDup.
    + apply lookup_zip_with_Some. eauto.
  - rewrite <- length_concat, Hcat. reflexivity.
  - intros i piece Hi.
    assert (Hik : (i < k)%nat).
    { apply lookup_lt_Some in Hi. rewrite Hgr, groups_length in Hi.
      exact Hi. }
    rewrite Hgr, groups_lookup in Hi by exact Hik.
    injection Hi as <-. rewrite length_take, length_drop.
    rewrite Hgr, groups_length.
    assert (Hlast : (Z.of_nat k - 1) * p < len) by (subst k; lia).
    assert (Hm : Z.of_nat m = p) by (subst m; lia).
    assert (Him : Z.of_nat (i * m) = Z.of_nat i * p)
      by (rewrite Nat2Z.inj_mul, Hm; reflexivity).
    assert (Z.of_nat i * p <= (Z.of_nat k - 1) * p)
      by (apply Z.mul_le_mono_nonneg_r; lia).
    split; [lia|]. intros Hnext.
    assert ((Z.of_nat i + 1) * p <= (Z.of_nat k - 1) * p)
      by (apply Z.mul_le_mono_nonneg_r; lia).
    lia.
Qed.

End SplitTheorems.

Lemma split_input_file_pieces_witness :
  exists names pieces w',
    split_input_file (scripted healthy) SMALL_TESTFILE_PATH "/tmp/tmpA" 20
                     (test_world healthy)
    = (Return names, w')
    /\ names = ["/tmp/tmpA/small_testfile.1"; "/tmp/tmpA/small_testfile.2";
                "/tmp/tmpA/small_testfile.3"]
    /\ concat pieces = SMALL_TESTFILE_CONTENT
    /\ map length pieces = [20; 20; 10]%nat.
Proof.
  destruct (split_input_file_pieces (scripted healthy) SMALL_TESTFILE_PATH
              "/tmp/tmpA" 20 SMALL_TESTFILE_CONTENT (test_world healthy))
    as (names & pieces & w' & Hrun & _ & _ & Hlen & Htr & _ & Hcat & _).
  - reflexivity.
  - vm_compute. reflexivity.
  - lia.
  - exists names, pieces, w'. split; [exact Hrun|].
    vm_compute in Hrun. injection Hrun as <- <-.
    split; [reflexivity|]. split; [exact Hcat|].
    destruct pieces as [|p1 [|p2 [|p3 [|p4 pieces]]]]; try discriminate.
    cbn in Htr. injection Htr as <- <- <-. reflexivity.
Defined.

Section BeyondDouble.
Context (s3 : S3Client).
Implicit Types w : world s3.

Lemma count_file_pieces_rounded w :
  count_file_pieces s3 (2 ^ 53 + 1) (2 ^ 53) w = (Return 1, w).
Proof.
  unfold count_file_pieces.
  assert (Float.of_int (2 ^ 53) = S754_finite false (Z.to_pos (2 ^ 52)) 1)
    as -> by (vm_compute; reflexivity).
  assert (Float.of_int (2 ^ 53 + 1)
          = S754_finite false (Z.to_pos (2 ^ 52)) 1)
    as -> by (vm_compute; reflexivity).
  reflexivity.
Qed.

(** A source of 2^53 + 1 bytes cut with a piece size of 2^53: the size
    is rounded to 2^53 when it becomes a double, and one piece of 2^53
    bytes is all that is written. *)
Lemma split_input_file_rounded input temp content w :
  files w !! input = Some content ->
  Z.of_nat (length content) = 2 ^ 53 + 1 ->
  exists pieces w',
    split_input_file s3 input temp (2 ^ 53) w
    = (Return [file_piece_name input temp 1 0], w')
    /\ trace w' = trace w
                   ++ zip_with Write [file_piece_name input temp 1 0] pieces
    /\ Z.of_nat (list_sum (map length pieces)) = 2 ^ 53.
Proof.
  intros Hfile Hlen.
  destruct (split_input_file s3 input temp (2 ^ 53) w) as [r w'] eqn:Erun.
  destruct (split_input_file_spec _ _ _ _ _ _ _ Erun)
    as [(e & -> & ->)|
        (content' & n & pcs & Hf' & Hc' & -> & Hl & Hgr & _ & _ & _ & Htr
         & _)].
  - exfalso. revert Erun.
    unfold split_input_file, mbind, M_bind, getsize, open_rb.
    rewrite Hfile, Hlen, count_file_pieces_rounded, Hfile.
    destruct (write_file_pieces_run s3 input temp (2 ^ 53) 1 (range 1)
                content [] w) as (? & ? & -> & _).
    discriminate.
  - rewrite Hfile in Hf'. injection Hf' as <-.
    rewrite Hlen, count_file_pieces_rounded in Hc'. injection Hc' as <-.
    specialize (Hgr ltac:(lia)).
    exists pcs, w'. split; [reflexivity|]. split; [exact Htr|].
    rewrite Hgr. change (Z.to_nat 1) with 1%nat.
    cbn [Bytes.groups map]. rewrite length_take.
    unfold list_sum. cbn [fold_right]. lia.
Qed.

End BeyondDouble.

(** C3, counterexample.  A file of 2^53 + 1 bytes with pieces of 2^53
    bytes: [float] rounds the size to 2^53, the quotient is 1.0 and a
    single piece is written, where the ceiling of the quotient is 2; the
    last byte of the source is in no piece.  And a piece size too large for
    a double makes the call fail. *)
Lemma split_input_file_beyond_double :
  let content := replicate (Z.to_nat (2 ^ 53 + 1)) "000"%byte in
  let w := World (s3 := scripted healthy) {[ "big" := content ]} ∅ [] tt []
  in
  (exists (pieces : list (list byte)) w',
     split_input_file (scripted healthy) "big" "/tmp/tmpA" (2 ^ 53) w
     = (Return [file_piece_name "big" "/tmp/tmpA" 1 0], w')
     /\ file_piece_name "big" "/tmp/tmpA" 1 0 = "/tmp/tmpA/big.1"
     /\ trace w' = zip_with Write ["/tmp/tmpA/big.1"] pieces
     /\ Z.of_nat (list_sum (map length pieces)) = 2 ^ 53
     /\ Z.of_nat (length content) = 2 ^ 53 + 1
     /\ (2 ^ 53 + 1 + 2 ^ 53 - 1) / 2 ^ 53 = 2)
  /\ (split_input_file (scripted healthy) SMALL_TESTFILE_PATH "/tmp/tmpA"
        (2 ^ 1024) (test_world healthy)).1
     = Raise OverflowError.
Proof.
  intros content w.
  assert (Hlen : Z.of_nat (length content) = 2 ^ 53 + 1).
  { unfold content. rewrite length_replicate. apply Z2Nat.id. lia. }
  assert (Hfile : files w !! "big" = Some content)
    by apply lookup_singleton_eq.
  split.
  - destruct (split_input_file_rounded (scripted healthy) "big" "/tmp/tmpA"
                content w Hfile Hlen) as (pieces & w' & Hrun & Htr & Hsum).
    exists pieces, w'. split; [exact Hrun|].
    split; [vm_compute; reflexivity|]. split; [exact Htr|].
    split; [exact Hsum|].
    split; [exact Hlen|reflexivity].
  - vm_compute. reflexivity.
Qed.

(** ** [upload_file] *)

Lemma dropwhile_not_head {A} (keep : A -> bool) (l : list A) x rest :
  dropwhile_not keep l = x :: rest -> keep x = true.
Proof.
  induction l as [|y l IH]; [discriminate|]. cbn.
  destruct (keep y) eqn:E; [|exact IH]. intros [= <- _]. exact E.
Qed.

Section Orchestrator.
Context (s3 : S3Client).
Implicit Types w : world s3.

Lemma mkdtemp_spec w r w' :
  mkdtemp s3 w = (r, w') ->
  files w' = files w /\ remote w' = remote w
  /\ ((exists e, r = Raise e /\ dirs w' = dirs w /\ trace w' = trace w)
      \/ exists dir,
           r = Return dir /\ usable s3 w dir = true
           /\ dirs w' = {[dir]} ∪ dirs w
           /\ trace w' = trace w ++ [Mkdtemp dir]).
Proof.
  unfold mkdtemp.
  destruct (dropwhile_not (usable s3 w) (tmp_names w)) as [|dir later] eqn:E;
    intros [= <- <-]; cbn; (split; [reflexivity|]); (split; [reflexivity|]).
  - left. eauto.
  - right. exists dir. apply dropwhile_not_head in E. auto.
Qed.

Lemma count_file_pieces_pure size p w r w' :
  count_file_pieces s3 size p w = (r, w') -> w' = w.
Proof.
  unfold count_file_pieces. intros H.
  repeat match type of H with
         | context [if ?b then _ else _] => destruct b
         | context [match ?o with Some _ => _ | None => _ end] =>
             destruct o
         end; injection H as _ <-; reflexivity.
Qed.

(** The [try] block of [upload_file] never touches the directories. *)
Lemma upload_file_try_dirs bucket original temp p w r w' :
  upload_file_try s3 bucket original temp p w = (r, w') ->
  dirs w' = dirs w.
Proof.
  unfold upload_file_try, mbind, M_bind.
  destruct (split_input_file s3 original temp p w) as [rs ws] eqn:Es.
  assert (Hs : dirs ws = dirs w).
  { destruct (split_input_file_spec _ _ _ _ _ _ _ Es)
      as [(e & -> & ->)|(c & n & pcs & _ & _ & _ & _ & _ & Hd & _)];
      [reflexivity|exact Hd]. }
  destruct rs as [names|e]; [|intros [= <- <-]; exact Hs].
  destruct (get_file_hash s3 original default_algorithm ws) as [rh wh] eqn:Eh.
  apply get_file_hash_pure in Eh. subst wh.
  destruct rh as [h|e]; [|intros [= <- <-]; exact Hs].
  unfold getsize. destruct (files ws !! original) as [content|];
    [|intros [= <- <-]; exact Hs].
  intros H. apply upload_file_pieces_anatomy in H.
  destruct H as (reply & rest & (_ & Hd & _) & _). congruence.
Qed.

(** The [finally] block of [upload_file] on a directory that exists. *)
Lemma upload_file_finally_spec temp keep w r w' :
  upload_file_finally s3 temp keep w = (r, w') ->
  temp ∈ dirs w ->
  r = Return tt /\ remote w' = remote w
  /\ (if keep then
        dirs w' = dirs w /\ files w' = files w
        /\ trace w'
           = trace w ++ [Print ("Leaving file piece directory " +:+ temp
                                  +:+ " at user request.")]
      else
        (temp ∉ dirs w')
        /\ (forall path, under temp path = true -> files w' !! path = None)
        /\ (forall path, under temp path = false ->
              files w' !! path = files w !! path)
        /\ trace w'
           = trace w ++ [Print ("Deleting file piece directory " +:+ temp
                                  +:+ "...");
                         Rmtree temp;
                         Print ("Deleted " +:+ temp +:+ " successfully.")]).
Proof.
  unfold upload_file_finally. destruct keep; cbn [negb].
  - intros [= <- <-] _. cbn. auto.
  - unfold mbind, M_bind, print, emit, rmtree. cbn [dirs].
    intros H Hin. rewrite (bool_decide_eq_true_2 _ Hin) in H.
    injection H as Hr Hw. subst r w'. cbn [dirs files remote trace].
    split; [reflexivity|]. split; [reflexivity|]. split.
    { intros Hx. apply elem_of_difference in Hx as [_ Hx].
      apply Hx, elem_of_singleton. reflexivity. }
    split; [|split].
    + intros path Hu. apply map_lookup_filter_None. right.
      intros content _ Hc. change (under temp path = false) in Hc.
      congruence.
    + intros path Hu. destruct (files w !! path) as [content|] eqn:E.
      * apply map_lookup_filter_Some. split; [exact E|]. cbn. exact Hu.
      * apply map_lookup_filter_None. left. exact E.
    + rewrite <- !app_assoc. reflexivity.
Qed.

(** C8.  Once the temporary directory exists, whatever way the [try]
    block ends (normally, by a failed check, by a failed upload or by any
    other exception), the directory and every file under it are deleted,
    unless [keep_file_pieces] is set, in which case they stay.  The flag
    acts on nothing else: the outcome, the remote store and every event
    up to the end of the [try] block, the abort included, belong to a
    run of the [try] block that does not see the flag. *)
Theorem temp_dir_released bucket original p keep w r w' :
  upload_file s3 bucket original p keep w = (r, w') ->
  forall dir w1,
    mkdtemp s3 w = (Return dir, w1) ->
    exists wb,
      upload_file_try s3 bucket original dir p w1 = (r, wb)
      /\ remote w' = remote wb
      /\ (if keep then
            (dir ∈ dirs w') /\ files w' = files wb
            /\ trace w'
               = trace wb
                   ++ [Print ("Leaving file piece directory " +:+ dir
                                +:+ " at user request.")]
          else
            (dir ∉ dirs w')
            /\ (forall path, under dir path = true ->
                  files w' !! path = None)
            /\ trace w'
               = trace wb
                   ++ [Print ("Deleting file piece directory " +:+ dir
                                +:+ "...");
                       Rmtree dir;
                       Print ("Deleted " +:+ dir +:+ " successfully.")]).
Proof.
  intros H dir w1 Hmk. unfold upload_file, mbind, M_bind in H.
  rewrite Hmk in H. unfold try_finally in H.
  destruct (upload_file_try s3 bucket original dir p w1) as [rb wb] eqn:Et.
  destruct (upload_file_finally s3 dir keep wb) as [rf wf] eqn:Ef.
  assert (Hin : dir ∈ dirs wb).
  { rewrite (upload_file_try_dirs _ _ _ _ _ _ _ Et).
    destruct (mkdtemp_spec _ _ _ Hmk) as (_ & _ & [(e & [=] & _)|
      (dir' & [= <-] & _ & -> & _)]). set_solver. }
  destruct (upload_file_finally_spec _ _ _ _ _ Ef Hin) as (-> & Hr & Hk).
  injection H as <- <-. exists wb. split; [reflexivity|].
  split; [exact Hr|]. destruct keep.
  - destruct Hk as (Hd & Hf & Htr). rewrite Hd. auto.
  - destruct Hk as (Hd & Hf & _ & Htr). auto.
Qed.

End Orchestrator.

Lemma temp_dir_released_witness :
  let run := upload_file (scripted healthy) "bucket" SMALL_TESTFILE_PATH 20
               false (test_world healthy) in
  run.1 = Return tt
  /\ ("/tmp/tmpA" ∉ dirs run.2)
  /\ files run.2 !! "/tmp/tmpA/small_testfile.1" = None.
Proof.
  intros run.
  destruct (mkdtemp (scripted healthy) (test_world healthy)) as [rm w1] eqn:Em.
  assert (Hrm : rm = Return "/tmp/tmpA")
    by (apply (f_equal fst) in Em; vm_compute in Em; congruence).
  subst rm.
  destruct (temp_dir_released (scripted healthy) "bucket" SMALL_TESTFILE_PATH
              20 false (test_world healthy) run.1 run.2
              (surjective_pairing _) "/tmp/tmpA" w1 Em)
    as (wb & _ & _ & Hd & Hf & _).
  split; [vm_compute; reflexivity|]. split; [exact Hd|].
  apply Hf. vm_compute. reflexivity.
Defined.

(** ** Verification of the stored object *)

Lemma not_head_print_or_upload (evs : list event) :
  Forall print_or_upload evs -> Forall (fun e => ~ is_head e) evs.
Proof.
  intros F. eapply Forall_impl; [exact F|]. intros [] H; cbn in *; tauto.
Qed.

Lemma not_head_print (evs : list event) :
  Forall is_print evs -> Forall (fun e => ~ is_head e) evs.
Proof.
  intros F. eapply Forall_impl; [exact F|]. intros [] H; cbn in *; tauto.
Qed.

Lemma not_head_writes (names : list string) (pcs : list (list byte)) :
  Forall (fun e => ~ is_head e) (zip_with Write names pcs).
Proof.
  revert pcs. induction names as [|n names IH]; intros [|p pcs]; cbn;
    try constructor; auto.
Qed.

Section Verifier.
Context (s3 : S3Client).
Implicit Types w : world s3.

(** A call of [upload_file_pieces] that returns has completed the upload
    and then found the expected digest and length on the one
    [HeadObject] answer. *)
Lemma upload_file_pieces_normal b k h sz names w w' :
  upload_file_pieces s3 b k h sz names w = (Return tt, w') ->
  exists before head u parts response,
    steady w w'
      (before ++ HeadObject b k (Ok head)
              :: [passed_hashes; passed_sizes; Print "Upload successful!"])
    /\ CompleteMultipartUpload b k u parts (Ok response) ∈ before
    /\ Forall (fun e => ~ is_head e) before
    /\ Metadata head ≫= (.!! "md5") = Some h
    /\ ContentLength head = Some sz.
Proof.
  intros H. apply upload_file_pieces_anatomy in H.
  destruct H as (reply & rest & St & H).
  destruct reply as [response|code]; [|destruct H as [_ [=]]].
  destruct (UploadId response) as [u|]; [|destruct H as [_ [=]]].
  destruct H as (ups & tail & fin & chk & assigned & pending
                 & -> & Fu & Hatt & Hcon).
  (* the checks ran and passed *)
  assert (Hchk : checked b k h sz (Return tt) chk
                 /\ pending = None
                 /\ Forall (fun e => ~ is_head e) fin).
  { unfold concluded in Hcon. destruct (assigned ≫= ETag) as [etag|] eqn:Ea.
    - destruct Hcon as [-> Hc]. split; [exact Hc|]. split; [|constructor].
      destruct Hatt as [(_ & -> & _)|(? & res & _ & _ & _ & Hres)];
        [discriminate|].
      destruct res; destruct Hres as [-> Hp]; [exact Hp|discriminate].
    - destruct Hcon as (res & -> & Hres).
      destruct res as [[]|code]; [|destruct Hres as [[=] _]].
      destruct pending as [e|]; [destruct Hres as [[=] _]|].
      split; [exact Hres|]. split; [reflexivity|].
      repeat constructor; cbn; tauto. }
  destruct Hchk as ((hreply & told & -> & Fp & Hv) & -> & Ffin).
  destruct Hatt as [(_ & _ & [? [=]])|(parts & res & -> & _ & _ & Hres)].
  destruct res as [cresponse|code]; [|destruct Hres as [_ [=]]].
  destruct hreply as [head|code]; [|destruct Hv as [[=] _]].
  destruct (Metadata head ≫= (.!! "md5")) as [found_hash|] eqn:Em;
    [|destruct Hv as [[? [=]] _]].
  destruct (ContentLength head) as [found_size|] eqn:Es;
    [|destruct Hv as [[? [=]] _]].
  destruct (decide (h = found_hash)) as [<-|]; [|destruct Hv as [[=] _]].
  destruct (decide (sz = found_size)) as [<-|]; [|destruct Hv as [[=] _]].
  destruct Hv as [_ ->].
  exists (CreateMultipartUpload b k {[ "md5" := h ]} (Ok response)
            :: ups ++ [Print "Finished uploading.";
                       CompleteMultipartUpload b k u parts (Ok cresponse)]
            ++ fin),
    head, u, parts, cresponse.
  split; [|split; [|split; [|split; [exact Em|exact Es]]]].
  - cbn [app] in *. rewrite <- ?app_assoc. cbn [app]. exact St.
  - apply elem_of_cons. right. apply elem_of_app. right.
    apply elem_of_app. left. apply list_elem_of_In. right. left.
    reflexivity.
  - constructor; [cbn; tauto|]. apply Forall_app. split.
    + apply not_head_print_or_upload. exact Fu.
    + apply Forall_app. split; [|exact Ffin].
      repeat constructor; cbn; tauto.
Qed.

(** What the [try] block of [upload_file] has done when it returns. *)
Lemma upload_file_try_normal bucket original temp p w w' :
  upload_file_try s3 bucket original temp p w = (Return tt, w') ->
  exists content names pcs ws,
    files w !! original = Some content
    /\ trace ws = trace w ++ zip_with Write names pcs
    /\ upload_file_pieces s3 bucket (basename original)
         (md5_base64 content) (Z.of_nat (length content)) names ws
       = (Return tt, w').
Proof.
  unfold upload_file_try, mbind, M_bind.
  destruct (split_input_file s3 original temp p w) as [rs ws] eqn:Es.
  destruct (split_input_file_spec _ _ _ _ _ _ _ Es)
    as [(e & -> & ->)|
        (content & n & pcs & Hf & _ & -> & Hlen & _ & _ & _ & _ & Htr & Hfs)];
    [discriminate|].
  destruct (get_file_hash s3 original default_algorithm ws) as [rh wh] eqn:Eh.
  destruct (get_file_hash_md5_inv _ _ _ _ Eh) as [-> Hh].
  destruct rh as [h|e]; [|discriminate].
  destruct (Hh h eq_refl) as (body & Hbody & ->). clear Hh Eh.
  assert (body = content) as ->.
  { rewrite Hfs, written_other, Hf in Hbody; [congruence|].
    rewrite fst_zip by (rewrite Hlen; reflexivity).
    apply file_piece_names_fresh. }
  unfold getsize. rewrite Hbody. intros H.
  eexists content, _, pcs, ws. split; [exact Hf|]. split; [exact Htr|].
  exact H.
Qed.

(** C2.  [upload_file] returns normally only when, after the completion
    request was accepted, the one [HeadObject] answer carries the digest
    of the source file as its [md5] metadata and the size of the source
    file as its content length.  (A mismatch on either therefore ends the
    run with an exception.) *)
Theorem normal_return_means_verified bucket original p keep w w' :
  upload_file s3 bucket original p keep w = (Return tt, w') ->
  exists content head before after,
    files w !! original = Some content
    /\ trace w'
       = trace w
           ++ before
           ++ HeadObject bucket (basename original) (Ok head) :: after
    /\ (exists u parts response,
          CompleteMultipartUpload bucket (basename original) u parts
            (Ok response) ∈ before)
    /\ Forall (fun e => ~ is_head e) before
    /\ Forall (fun e => ~ is_head e) after
    /\ Metadata head ≫= (.!! "md5") = Some (md5_base64 content)
    /\ ContentLength head = Some (Z.of_nat (length content)).
Proof.
  intros H. unfold upload_file, mbind, M_bind in H.
  destruct (mkdtemp s3 w) as [[dir|e] w1] eqn:Em; [|discriminate].
  destruct (mkdtemp_spec _ _ _ _ Em)
    as (Hf1 & _ & [(e & [=] & _)|(dir' & [= <-] & _ & Hd1 & Htr1)]).
  unfold try_finally in H.
  destruct (upload_file_try s3 bucket original dir p w1) as [rb wb] eqn:Et.
  destruct (upload_file_finally s3 dir keep wb) as [rf wf] eqn:Ef.
  assert (Hin : dir ∈ dirs wb).
  { rewrite (upload_file_try_dirs _ _ _ _ _ _ _ _ Et), Hd1.
    apply elem_of_union. left. apply elem_of_singleton. reflexivity. }
  destruct (upload_file_finally_spec _ _ _ _ _ _ Ef Hin) as (-> & _ & Hk).
  injection H as -> <-.
  destruct (upload_file_try_normal _ _ _ _ _ _ Et)
    as (content & names & pcs & ws & Hfile & Htrs & Hup).
  destruct (upload_file_pieces_normal _ _ _ _ _ _ _ Hup)
    as (before & head & u & parts & response & (_ & _ & _ & Htru) & Hc
        & Fb & Hm & Hs).
  set (last := match keep with
               | true =>
                   [Print ("Leaving file piece directory " +:+ dir
                             +:+ " at user request.")]
               | false =>
                   [Print ("Deleting file piece directory " +:+ dir
                             +:+ "...");
                    Rmtree dir;
                    Print ("Deleted " +:+ dir +:+ " successfully.")]
               end).
  assert (Htrf : trace wf = trace wb ++ last).
  { subst last. destruct keep; [destruct Hk as (_ & _ & ->)|
                                destruct Hk as (_ & _ & _ & ->)];
      reflexivity. }
  exists content, head,
    (Mkdtemp dir :: zip_with Write names pcs ++ before),
    ([passed_hashes; passed_sizes; Print "Upload successful!"] ++ last).
  split; [rewrite <- Hf1; exact Hfile|].
  split.
  { rewrite Htrf, Htru, Htrs, Htr1. rewrite <- !app_assoc. cbn [app].
    rewrite <- !app_assoc. reflexivity. }
  split.
  { exists u, parts, response. apply elem_of_cons. right.
    apply elem_of_app. right. exact Hc. }
  split.
  { constructor; [cbn; tauto|]. apply Forall_app.
    split; [apply not_head_writes|exact Fb]. }
  split; [|split; [exact Hm|exact Hs]].
  apply Forall_app. split; [repeat constructor; cbn; tauto|].
  subst last. destruct keep; repeat constructor; cbn; tauto.
Qed.

End Verifier.

Lemma normal_return_means_verified_witness :
  exists w' head before after,
    upload_file (scripted healthy) "bucket" SMALL_TESTFILE_PATH 20 false
                (test_world healthy)
    = (Return tt, w')
    /\ trace w'
       = before ++ HeadObject "bucket" "small_testfile" (Ok head) :: after
    /\ Metadata head ≫= (.!! "md5") = Some "CoM0C8BkxBNJJJyzEO+PYw=="
    /\ ContentLength head = Some 50.
Proof.
  destruct (upload_file (scripted healthy) "bucket" SMALL_TESTFILE_PATH 20
              false (test_world healthy)) as [r w'] eqn:Erun.
  assert (Hr : r = Return tt)
    by (apply (f_equal fst) in Erun; vm_compute in Erun; congruence).
  subst r.
  destruct (normal_return_means_verified (scripted healthy) "bucket"
              SMALL_TESTFILE_PATH 20 false (test_world healthy) w' Erun)
    as (content & head & before & after & Hfile & Htr & _ & _ & _ & Hm & Hs).
  assert (content = SMALL_TESTFILE_CONTENT) as ->.
  { vm_compute in Hfile. injection Hfile as <-. reflexivity. }
  exists w', head, before, after. split; [reflexivity|].
  split; [exact Htr|]. split.
  - rewrite Hm. vm_compute. reflexivity.
  - rewrite Hs. reflexivity.
Defined.

(** ** The empty source file *)

Section EmptySource.
Context (s3 : S3Client).
Implicit Types w : world s3.

Lemma split_input_file_empty original temp p w :
  files w !! original = Some [] -> 0 < p < 2 ^ 53 ->
  split_input_file s3 original temp p w = (Return [], w).
Proof.
  intros Hf Hp.
  unfold split_input_file, mbind, M_bind, getsize, open_rb.
  rewrite Hf. change (Z.of_nat (length (@nil byte))) with 0.
  rewrite (count_file_pieces_exact s3 0 p w) by lia.
  replace ((0 + p - 1) / p) with 0
    by (symmetry; apply Z.div_small; lia).
  rewrite Hf. reflexivity.
Qed.

(** With no piece to send, the session opened by [upload_file_pieces]
    goes straight to the completion request, with no part. *)
Lemma upload_file_pieces_no_pieces b k h sz w r w' :
  upload_file_pieces s3 b k h sz [] w = (r, w') ->
  exists reply rest,
    trace w' = trace w ++ CreateMultipartUpload b k {[ "md5" := h ]} reply
                       :: rest
    /\ forall response u,
         reply = Ok response -> UploadId response = Some u ->
         exists creply rest',
           rest = Print "Finished uploading."
                  :: CompleteMultipartUpload b k u [] creply :: rest'.
Proof.
  intros H. apply upload_file_pieces_inv in H.
  destruct H as (reply & w1 & (_ & _ & _ & Tr1) & H). exists reply.
  destruct reply as [response|code].
  2:{ destruct H as [_ ->]. exists []. split; [exact Tr1|]. discriminate. }
  destruct (UploadId response) as [u|] eqn:Eu.
  2:{ destruct H as [_ ->]. exists []. split; [exact Tr1|].
      intros ? ? [= <-]. congruence. }
  destruct H as (rb & wb & rf & wf & Hb & Hfin & Hr).
  unfold upload_file_pieces_try, mbind, M_bind in Hb.
  cbn [length Z.of_nat enumerate upload_parts] in Hb.
  change (upload_parts s3 b k u 0 (enumerate []) [] w1)
    with (@Return (list part) [], w1) in Hb.
  cbv beta iota in Hb.
  unfold print, emit, s3_complete_multipart_upload in Hb.
  apply call_inv in Hb. destruct Hb as (creply & (_ & _ & _ & Trb) & ->).
  cbn [trace] in Trb.
  assert (Hf : exists fin, trace wf = trace wb ++ fin).
  { apply upload_file_pieces_finally_spec in Hfin.
    destruct (_ ≫= ETag).
    - destruct Hfin as [-> _]. exists []. rewrite app_nil_r. reflexivity.
    - destruct Hfin as (res & (_ & _ & _ & Tr) & _). eauto. }
  destruct Hf as (fin & Trf).
  assert (Hc : exists chk, trace w' = trace wf ++ chk).
  { destruct rf as [[]|e].
    - destruct creply as [cresponse|code].
      + apply upload_file_pieces_checks_spec in Hr.
        destruct Hr as (hreply & told & (_ & _ & _ & Tr) & _). eauto.
      + destruct Hr as [_ ->]. exists []. rewrite app_nil_r. reflexivity.
    - destruct Hr as [_ ->]. exists []. rewrite app_nil_r. reflexivity. }
  destruct Hc as (chk & Trc).
  exists (Print "Finished uploading."
            :: CompleteMultipartUpload b k u [] creply :: fin ++ chk).
  split.
  - rewrite Trc, Trf, Trb, Tr1. rewrite <- !app_assoc. reflexivity.
  - intros response' u' [= <-] Hu. rewrite Eu in Hu.
    injection Hu as <-. eauto.
Qed.

(** C10.  For an empty source file (and a piece size that a double
    holds exactly), [split_input_file] returns the empty list and leaves
    the files, and the whole world, as they were; and [upload_file], once
    it has its temporary directory, writes no piece and sends no part:
    its first request opens the session, for the digest of the empty
    content, and when the store answers with an upload id the next request
    is the completion, with an empty list of parts. *)
Theorem empty_file_completes_without_parts bucket original p keep w :
  files w !! original = Some [] -> 0 < p < 2 ^ 53 ->
  (forall temp, split_input_file s3 original temp p w = (Return [], w))
  /\ forall r w' dir w1,
       upload_file s3 bucket original p keep w = (r, w') ->
       mkdtemp s3 w = (Return dir, w1) ->
       exists reply rest,
         trace w'
         = trace w
             ++ Mkdtemp dir
             :: CreateMultipartUpload bucket (basename original)
                  {[ "md5" := md5_base64 [] ]} reply
             :: rest
         /\ forall response u,
              reply = Ok response -> UploadId response = Some u ->
              exists creply rest',
                rest = Print "Finished uploading."
                       :: CompleteMultipartUpload bucket (basename original)
                            u [] creply
                       :: rest'.
Proof.
  intros Hf Hp. split.
  { intros temp. apply split_input_file_empty; assumption. }
  intros r w' dir w1 H Em. unfold upload_file, mbind, M_bind in H.
  rewrite Em in H.
  destruct (mkdtemp_spec _ _ _ _ Em)
    as (Hf1 & _ & [(e & [=] & _)|(dir' & [= <-] & _ & Hd1 & Htr1)]).
  unfold try_finally in H.
  destruct (upload_file_try s3 bucket original dir p w1) as [rb wb] eqn:Et.
  destruct (upload_file_finally s3 dir keep wb) as [rf wf] eqn:Ef.
  assert (Hin : dir ∈ dirs wb).
  { rewrite (upload_file_try_dirs _ _ _ _ _ _ _ _ Et), Hd1.
    apply elem_of_union. left. apply elem_of_singleton. reflexivity. }
  destruct (upload_file_finally_spec _ _ _ _ _ _ Ef Hin) as (-> & _ & Hk).
  assert (Hlast : exists last, trace wf = trace wb ++ last).
  { destruct keep; [destruct Hk as (_ & _ & ->)|
                    destruct Hk as (_ & _ & _ & ->)]; eauto. }
  destruct Hlast as (last & Trf).
  assert (w' = wf) as -> by (destruct rb; congruence). clear H.
  assert (Hf1' : files w1 !! original = Some []) by (rewrite Hf1; exact Hf).
  unfold upload_file_try, mbind, M_bind in Et.
  rewrite (split_input_file_empty original dir p w1 Hf1' Hp) in Et.
  rewrite (get_file_hash_content s3 original default_algorithm
             (HashAlgorithm MD5.block_size MD5.digest) [] w1) in Et;
    [|reflexivity|reflexivity|exact Hf1'].
  unfold getsize in Et. rewrite Hf1' in Et. cbn [length Z.of_nat] in Et.
  apply upload_file_pieces_no_pieces in Et.
  destruct Et as (reply & rest & Trb & Hrest).
  exists reply, (rest ++ last). split.
  - rewrite Trf, Trb, Htr1. rewrite <- !app_assoc. reflexivity.
  - intros response u Hr Hu.
    destruct (Hrest response u Hr Hu) as (creply & rest' & ->).
    exists creply, (rest' ++ last). reflexivity.
Qed.

End EmptySource.

Lemma empty_file_completes_without_parts_witness :
  let w := empty_world healthy in
  let run := upload_file (scripted healthy) "bucket" EMPTY_TESTFILE_PATH 20
               false w in
  split_input_file (scripted healthy) EMPTY_TESTFILE_PATH "/tmp/tmpA" 20 w
  = (Return [], w)
  /\ exists creply rest,
       trace run.2
       = [Mkdtemp "/tmp/tmpA";
          CreateMultipartUpload "bucket" "empty_testfile"
            {[ "md5" := "1B2M2Y8AsgTpgAmY7PhCfg==" ]}
            (Ok {| UploadId := Some "upload-1" |});
          Print "Finished uploading.";
          CompleteMultipartUpload "bucket" "empty_testfile" "upload-1" []
            creply]
         ++ rest.
Proof.
  intros w run.
  assert (Hf : files w !! EMPTY_TESTFILE_PATH = Some []) by reflexivity.
  assert (Hp : 0 < 20 < 2 ^ 53) by lia.
  destruct (mkdtemp (scripted healthy) w) as [rm w1] eqn:Em.
  assert (Hrm : rm = Return "/tmp/tmpA")
    by (apply (f_equal fst) in Em; vm_compute in Em; congruence).
  subst rm.
  destruct (empty_file_completes_without_parts (scripted healthy) "bucket"
              EMPTY_TESTFILE_PATH 20 false w Hf Hp) as [Hs Hu].
  split; [apply Hs|].
  destruct (Hu run.1 run.2 "/tmp/tmpA" w1 (surjective_pairing _) Em)
    as (reply & rest & Htr & Hrest).
  assert (Hreply : reply = Ok {| UploadId := Some "upload-1" |}).
  { assert (Hc : trace run.2 !! 1%nat
                 = Some (CreateMultipartUpload "bucket" "empty_testfile"
                           {[ "md5" := md5_base64 [] ]}
                           (Ok {| UploadId := Some "upload-1" |})))
      by (vm_compute; reflexivity).
    rewrite Htr in Hc. cbn in Hc. congruence. }
  destruct (Hrest _ "upload-1" Hreply eq_refl) as (creply & rest' & ->).
  exists creply, rest'. rewrite Htr, Hreply. cbn [app trace w empty_world].
  change (basename EMPTY_TESTFILE_PATH) with "empty_testfile".
  replace (md5_base64 []) with "1B2M2Y8AsgTpgAmY7PhCfg=="
    by (vm_compute; reflexivity).
  reflexivity.
Defined.

(** * Further properties of the four functions *)

(** ** [get_file_hash] *)

Lemma hashlib_block_size (algorithm : string) (a : hash_algorithm) :
  hashlib algorithm = Constructor a -> 0 < block_size a.
Proof.
  unfold hashlib.
  repeat match goal with
         | |- context [if ?b then _ else _] => destruct b
         end; intros [= <-] || discriminate; reflexivity.
Qed.

Section HasherOutcomes.
Context (s3 : S3Client).
Implicit Types w : world s3.

(** Whatever the length of the file and the size of the chunks it is read
    in, [get_file_hash] returns the base64 text of the digest of the whole
    content, for every constructor of [hashlib], and leaves the world as
    it was. *)
Theorem get_file_hash_whole_file filename algorithm a content w :
  hashlib algorithm = Constructor a ->
  files w !! filename = Some content ->
  get_file_hash s3 filename algorithm w
  = (Return (Base64.b64encode (run a content)), w).
Proof.
  intros Ha Hf. apply get_file_hash_content; [exact Ha| |exact Hf].
  eapply hashlib_block_size. exact Ha.
Qed.

(** [get_file_hash] returns a digest exactly when the name is that of a
    constructor of [hashlib] and the file exists; with such a name, a
    missing file gives [IOError] and the world is left as it was. *)
Theorem get_file_hash_succeeds_iff filename algorithm w :
  ((exists h, get_file_hash s3 filename algorithm w = (Return h, w))
   <-> (exists a, hashlib algorithm = Constructor a)
       /\ is_Some (files w !! filename))
  /\ ((exists a, hashlib algorithm = Constructor a) ->
      files w !! filename = None ->
      get_file_hash s3 filename algorithm w = (Raise (IOError filename), w)).
Proof.
  split.
  - split.
    + intros [h H].
      destruct (hashlib algorithm) as [a| |] eqn:Ha;
        [|unfold get_file_hash, new_hash, mbind, M_bind in H;
          rewrite Ha in H; discriminate..].
      split; [eauto|].
      destruct (files w !! filename) as [content|] eqn:Hf; [eauto|].
      rewrite (get_file_hash_missing_file s3 _ _ _ _ Ha Hf) in H.
      discriminate.
    + intros [[a Ha] [content Hf]]. eexists.
      apply get_file_hash_content; [exact Ha| |exact Hf].
      eapply hashlib_block_size. exact Ha.
  - intros [a Ha] Hf. eapply get_file_hash_missing_file; eauto.
Qed.

End HasherOutcomes.

Lemma get_file_hash_whole_file_witness :
  get_file_hash (scripted healthy) SMALL_TESTFILE_PATH "sha1"
                (test_world healthy)
  = (Return "eQnEEPGogle65F7kAA0JAMj30WE=", test_world healthy).
Proof.
  rewrite (get_file_hash_whole_file (scripted healthy) SMALL_TESTFILE_PATH
             "sha1" (HashAlgorithm SHA1.block_size SHA1.digest)
             SMALL_TESTFILE_CONTENT (test_world healthy));
    [|reflexivity|reflexivity].
  vm_compute. reflexivity.
Defined.

(** ** [split_input_file]: degenerate piece sizes *)

Module FloatSign.
Import Float.

Lemma binary_round_aux_opp (m e : Z) (l : location) :
  binary_round_aux prec emax true m e l
  = SFopp (binary_round_aux prec emax false m e l).
Proof.
  unfold binary_round_aux.
  destruct (shr_fexp prec emax m e l) as [mrs e1].
  destruct (shr_fexp prec emax _ e1 loc_Exact) as [mrs2 e2].
  destruct (shr_m mrs2); [reflexivity| |reflexivity].
  destruct (e2 <=? emax - prec); reflexivity.
Qed.

Lemma binary_round_aux_positive (m e : Z) (l : location) (s : bool) m' e' :
  binary_round_aux prec emax false m e l = S754_finite s m' e' -> s = false.
Proof.
  unfold binary_round_aux.
  destruct (shr_fexp prec emax m e l) as [mrs e1].
  destruct (shr_fexp prec emax _ e1 loc_Exact) as [mrs2 e2].
  destruct (shr_m mrs2); [discriminate| |discriminate].
  destruct (e2 <=? emax - prec); [|discriminate]. intros [= <- _ _].
  reflexivity.
Qed.

Lemma of_int_opp (n : Z) : 0 < n -> of_int (- n) = SFopp (of_int n).
Proof.
  intros Hn. destruct n as [|p|p]; try lia.
  change (- Z.pos p) with (Z.neg p).
  unfold of_int, binary_normalize, binary_round.
  destruct (shl_align p 0 _) as [mz ez].
  apply binary_round_aux_opp.
Qed.

(** Dividing a size by the double of a negative integer gives a double
    whose ceiling is not positive. *)
Lemma ceil_int_div_negative (a b : Z) :
  0 <= a < 2 ^ 53 -> 0 < b < 2 ^ 53 ->
  is_finite (of_int (- b)) = true /\ is_zero (of_int (- b)) = false
  /\ exists n, ceil_int (div (of_int a) (of_int (- b))) = Some n /\ n <= 0.
Proof.
  intros Ha Hb. rewrite of_int_opp by lia.
  destruct (FloatFacts.of_int_exact b Hb) as (m2 & e2 & E2 & _).
  rewrite E2. cbn [SFopp negb]. split; [reflexivity|]. split; [reflexivity|].
  destruct (Z.eq_dec a 0) as [->|Hne].
  { exists 0. split; [reflexivity|lia]. }
  pose proof (FloatCeiling.ceil_int_div a b ltac:(lia) Hb) as Hc.
  rewrite E2 in Hc.
  destruct (FloatFacts.of_int_exact a ltac:(lia)) as (m1 & e1 & E1 & _).
  rewrite E1 in *. unfold div, SFdiv in *.
  destruct (SFdiv_core_binary prec emax (Z.pos m1) e1 (Z.pos m2) e2)
    as [[mz ez] lz].
  cbn [xorb] in *. rewrite binary_round_aux_opp.
  destruct (binary_round_aux prec emax false mz ez lz) as [s|s| |s m e] eqn:Er;
    try discriminate.
  - exists 0. split; [reflexivity|lia].
  - apply binary_round_aux_positive in Er as ->.
    cbn [SFopp ceil_int negb cond_Zopp]. eexists. split; [reflexivity|].
    destruct (0 <=? e) eqn:Ee.
    + apply Z.leb_le in Ee.
      assert (0 < 2 ^ e) by (apply Z.pow_pos_nonneg; lia). nia.
    + apply Z.leb_gt in Ee.
      assert (0 < 2 ^ (- e)) by (apply Z.pow_pos_nonneg; lia).
      rewrite Z.opp_involutive.
      assert (0 <= Z.pos m / 2 ^ (- e)) by (apply Z.div_pos; lia). lia.
Qed.

End FloatSign.

Section SplitEdges.
Context (s3 : S3Client).
Implicit Types w : world s3.

Lemma of_int_size_finite (size : Z) :
  0 <= size < 2 ^ 53 -> Float.is_finite (Float.of_int size) = true.
Proof.
  intros Hs. destruct (Z.eq_dec size 0) as [->|Hne]; [reflexivity|].
  destruct (FloatFacts.of_int_exact size ltac:(lia)) as (m1 & e1 & E1 & _).
  rewrite E1. reflexivity.
Qed.

Lemma count_file_pieces_zero (size : Z) w :
  0 <= size < 2 ^ 53 ->
  count_file_pieces s3 size 0 w = (Raise ZeroDivisionError, w).
Proof.
  intros Hs. unfold count_file_pieces.
  rewrite (of_int_size_finite size Hs). reflexivity.
Qed.

Lemma count_file_pieces_negative (size b : Z) w :
  0 <= size < 2 ^ 53 -> 0 < b < 2 ^ 53 ->
  exists n, count_file_pieces s3 size (- b) w = (Return n, w) /\ n <= 0.
Proof.
  intros Hs Hb. unfold count_file_pieces.
  destruct (FloatSign.ceil_int_div_negative size b Hs Hb)
    as (Hf & Hz & n & Hc & Hn).
  rewrite Hf, Hz, (of_int_size_finite size Hs), Hc. cbn [negb].
  exists n. split; [reflexivity|exact Hn].
Qed.

(** [split_input_file] fails before it writes anything when the source is
    missing ([OSError], from [os.path.getsize]) and when the piece size is
    zero ([ZeroDivisionError], from the float division). *)
Theorem split_input_file_rejects input temp w :
  (forall p,
     files w !! input = None ->
     split_input_file s3 input temp p w = (Raise (OSError input), w))
  /\ (forall content,
        files w !! input = Some content ->
        Z.of_nat (length content) < 2 ^ 53 ->
        split_input_file s3 input temp 0 w = (Raise ZeroDivisionError, w)).
Proof.
  split.
  - intros p Hf. unfold split_input_file, mbind, M_bind, getsize.
    rewrite Hf. reflexivity.
  - intros content Hf Hs. unfold split_input_file, mbind, M_bind, getsize.
    rewrite Hf, count_file_pieces_zero by lia. reflexivity.
Qed.

(** A negative piece size is not refused: the quotient is negative, its
    ceiling gives an empty [range], and [split_input_file] returns no name
    and writes no file, whatever the source holds. *)
Theorem split_input_file_negative_piece_size input temp p content w :
  files w !! input = Some content ->
  Z.of_nat (length content) < 2 ^ 53 ->
  - 2 ^ 53 < p < 0 ->
  split_input_file s3 input temp p w = (Return [], w).
Proof.
  intros Hf Hs Hp. unfold split_input_file, mbind, M_bind, getsize, open_rb.
  rewrite Hf.
  destruct (count_file_pieces_negative (Z.of_nat (length content)) (- p) w)
    as (n & Hc & Hn); [lia|lia|].
  rewrite Z.opp_involutive in Hc. rewrite Hc, Hf.
  unfold range. replace (Z.to_nat n) with 0%nat by lia. reflexivity.
Qed.

(** [split_input_file] only adds files: the source and every file that is
    not one of the returned names keep their content, the directories and
    the remote store are as before, and the only events are the writes of
    the pieces. *)
Theorem split_input_file_preserves input temp p w r w' :
  split_input_file s3 input temp p w = (r, w') ->
  dirs w' = dirs w /\ tmp_names w' = tmp_names w /\ remote w' = remote w
  /\ files w' !! input = files w !! input
  /\ (forall path,
        (forall names, r = Return names -> path ∉ names) ->
        files w' !! path = files w !! path)
  /\ exists evs,
       trace w' = trace w ++ evs
       /\ Forall (fun e => exists name data,
                    e = Write name data
                    /\ forall names, r = Return names -> name ∈ names) evs.
Proof.
  intros H.
  destruct (split_input_file_spec _ _ _ _ _ _ _ H)
    as [(e & -> & ->)|
        (content & n & pcs & Hf & _ & -> & Hlen & _ & Hd & Ht & Hr & Htr
         & Hfs)].
  - do 5 (split; [reflexivity|]). exists []. rewrite app_nil_r.
    split; [reflexivity|constructor].
  - set (names := map (file_piece_name input temp n) (range n)) in *.
    assert (Hfst : (zip names pcs).*1 = names)
      by (apply fst_zip; rewrite Hlen; reflexivity).
    split; [exact Hd|]. split; [exact Ht|]. split; [exact Hr|]. split.
    { rewrite Hfs. apply written_other. rewrite Hfst.
      apply file_piece_names_fresh. }
    split.
    { intros path Hp. rewrite Hfs. apply written_other. rewrite Hfst.
      apply Hp. reflexivity. }
    exists (zip_with Write names pcs). split; [exact Htr|].
    apply Forall_forall. intros e He.
    apply elem_of_lookup_zip_with in He as (i & name & data & -> & Hn & _).
    exists name, data. split; [reflexivity|].
    intros names' [= <-]. eapply list_elem_of_lookup_2. exact Hn.
Qed.

End SplitEdges.

Lemma split_input_file_negative_piece_size_witness :
  split_input_file (scripted healthy) SMALL_TESTFILE_PATH "/tmp/tmpA" (- 20)
                   (test_world healthy)
  = (Return [], test_world healthy).
Proof.
  apply (split_input_file_negative_piece_size (scripted healthy)
           SMALL_TESTFILE_PATH "/tmp/tmpA" (- 20) SMALL_TESTFILE_CONTENT).
  - reflexivity.
  - vm_compute. reflexivity.
  - lia.
Defined.

Lemma split_input_file_preserves_witness :
  let run := split_input_file (scripted healthy) SMALL_TESTFILE_PATH
               "/tmp/tmpA" 20 (test_world healthy) in
  files run.2 !! SMALL_TESTFILE_PATH = Some SMALL_TESTFILE_CONTENT
  /\ dirs run.2 = ∅.
Proof.
  intros run.
  destruct (split_input_file_preserves (scripted healthy) SMALL_TESTFILE_PATH
              "/tmp/tmpA" 20 (test_world healthy) run.1 run.2
              (surjective_pairing _)) as (Hd & _ & _ & Hf & _).
  split; [rewrite Hf; reflexivity|exact Hd].
Defined.

(** ** The names [split_input_file] gives the pieces *)

Lemma pretty_N_go_length_ge (x : N) (s : string) :
  (String.length s <= String.length (pretty_N_go x s))%nat.
Proof.
  revert s. induction (N.lt_wf_0 x) as [x _ IH]; intros s.
  destruct (decide (x = 0)%N) as [->|Hx].
  - rewrite pretty_N_go_0. reflexivity.
  - assert (0 < x)%N as Hpos by (apply N.neq_0_lt_0; exact Hx).
    rewrite pretty_N_go_step by exact Hpos.
    etransitivity; [|apply IH; apply N.div_lt; [exact Hpos|reflexivity]].
    cbn [String.length]. apply Nat.le_succ_diag_r.
Qed.

(** A larger number has at least as many digits. *)
Lemma pretty_N_go_length_mono (x y : N) (s t : string) :
  (x <= y)%N -> String.length s = String.length t ->
  (String.length (pretty_N_go x s) <= String.length (pretty_N_go y t))%nat.
Proof.
  revert x s t. induction (N.lt_wf_0 y) as [y _ IH]; intros x s t Hxy Hst.
  destruct (decide (x = 0)%N) as [->|Hx].
  - rewrite pretty_N_go_0, Hst. apply pretty_N_go_length_ge.
  - assert (0 < x)%N as Hxpos by (apply N.neq_0_lt_0; exact Hx).
    assert (0 < y)%N as Hypos
      by (eapply N.lt_le_trans; [exact Hxpos|exact Hxy]).
    rewrite (pretty_N_go_step x) by exact Hxpos.
    rewrite (pretty_N_go_step y) by exact Hypos.
    apply IH.
    + apply N.div_lt; [exact Hypos|reflexivity].
    + apply N.Div0.div_le_mono. exact Hxy.
    + cbn [String.length]. rewrite Hst. reflexivity.
Qed.

Lemma len_str_mono (k n : Z) : 0 < k <= n -> len (str k) <= len (str n).
Proof.
  intros [Hk Hkn]. destruct k as [|k|k]; try lia.
  destruct n as [|n|n]; try lia.
  unfold len, str, pretty, pretty_Z, pretty, pretty_positive, pretty, pretty_N.
  rewrite !decide_False by discriminate.
  apply Nat2Z.inj_le. apply pretty_N_go_length_mono; [lia|reflexivity].
Qed.

Lemma length_zeros (n : nat) : String.length (zeros n) = n.
Proof. induction n as [|n IH]; [reflexivity|]. cbn. rewrite IH. reflexivity. Qed.

(** The index of a piece is padded to the number of digits of the count. *)
Lemma len_zfill_index (k n : Z) :
  0 < k <= n -> len (zfill (str k) (len (str n))) = len (str n).
Proof.
  intros Hk. rewrite zfill_positive by lia.
  pose proof (len_str_mono k n Hk) as Hle. unfold len in *.
  rewrite length_string_app, length_zeros. lia.
Qed.

Lemma prefix_app (a b : string) : String.prefix a (a +:+ b) = true.
Proof.
  induction a as [|c a IH]; [destruct b; reflexivity|].
  rewrite append_cons. cbn [String.prefix].
  destruct (ascii_dec c c) as [_|Hne]; [exact IH|congruence].
Qed.

Lemma file_piece_name_shape input temp n i :
  0 <= i ->
  file_piece_name input temp n i
  = dir_prefix temp
      +:+ dot_join (basename input) (zfill (str (i + 1)) (len (str n))).
Proof.
  intros Hi. unfold file_piece_name, join.
  pose proof (piece_suffix_no_sep input (i + 1) (len (str n)) ltac:(lia))
    as Hsep.
  destruct (dot_join _ _) as [|c rest] eqn:E.
  - rewrite append_empty_r. reflexivity.
  - cbn [has_sep] in Hsep. apply orb_false_elim in Hsep as [-> _].
    reflexivity.
Qed.

Lemma file_piece_name_length input temp n i :
  0 <= i < n ->
  len (file_piece_name input temp n i)
  = len (dir_prefix temp) + len (basename input) + 1 + len (str n).
Proof.
  intros Hi. rewrite file_piece_name_shape by lia.
  pose proof (len_zfill_index (i + 1) n ltac:(lia)) as Hz.
  unfold len, dot_join in *. rewrite !length_string_app.
  cbn [String.length]. lia.
Qed.

Lemma range_bounds (n i : Z) : i ∈ range n -> 0 <= i < n.
Proof.
  unfold range. intros H. apply list_elem_of_fmap in H as (k & -> & Hk).
  apply elem_of_seq in Hk. lia.
Qed.

Section PieceNames.
Context (s3 : S3Client).
Implicit Types w : world s3.

(** The names [split_input_file] returns are pairwise different and none is
    the source; each is [temp_dir] joined with a name without a slash, so
    the piece lies directly in the temporary directory; and thanks to the
    zero padding of the index they all have the same length. *)
Theorem split_input_file_names input temp p w names w' :
  split_input_file s3 input temp p w = (Return names, w') ->
  NoDup names /\ (input ∉ names)
  /\ (forall name, name ∈ names ->
        under temp name = true
        /\ name = dir_prefix temp +:+ basename name
        /\ has_sep (basename name) = false)
  /\ (forall a b, a ∈ names -> b ∈ names ->
        String.length a = String.length b).
Proof.
  intros H.
  destruct (split_input_file_spec _ _ _ _ _ _ _ H)
    as [(e & [=] & _)|(content & n & pcs & _ & _ & [= ->] & _)].
  split; [apply file_piece_names_NoDup|].
  split; [apply file_piece_names_fresh|]. split.
  - intros name Hin. apply list_elem_of_fmap in Hin as (i & -> & Hi).
    apply range_bounds in Hi.
    pose proof (piece_suffix_no_sep input (i + 1) (len (str n)) ltac:(lia))
      as Hsep.
    assert (Hb : basename (file_piece_name input temp n i)
                 = dot_join (basename input)
                            (zfill (str (i + 1)) (len (str n))))
      by (apply basename_join; exact Hsep).
    rewrite Hb. split; [|split; [|exact Hsep]].
    + unfold under. rewrite file_piece_name_shape by lia. apply prefix_app.
    + apply file_piece_name_shape. lia.
  - intros a b Ha Hb.
    apply list_elem_of_fmap in Ha as (i & -> & Hi).
    apply list_elem_of_fmap in Hb as (j & -> & Hj).
    apply range_bounds in Hi, Hj.
    pose proof (file_piece_name_length input temp n i Hi) as Li.
    pose proof (file_piece_name_length input temp n j Hj) as Lj.
    unfold len in *. lia.
Qed.

End PieceNames.

Lemma split_input_file_names_witness :
  exists names w',
    split_input_file (scripted healthy) SMALL_TESTFILE_PATH "/tmp/tmpA" 4
                     (test_world healthy) = (Return names, w')
    /\ names !! 0%nat = Some "/tmp/tmpA/small_testfile.01"
    /\ names !! 12%nat = Some "/tmp/tmpA/small_testfile.13"
    /\ NoDup names.
Proof.
  destruct (split_input_file (scripted healthy) SMALL_TESTFILE_PATH
              "/tmp/tmpA" 4 (test_world healthy)) as [r w'] eqn:Erun.
  assert (Hr : exists names, r = Return names
                 /\ names !! 0%nat = Some "/tmp/tmpA/small_testfile.01"
                 /\ names !! 12%nat = Some "/tmp/tmpA/small_testfile.13").
  { apply (f_equal fst) in Erun. vm_compute in Erun. subst r.
    eexists. split; [reflexivity|]. split; reflexivity. }
  destruct Hr as (names & -> & H0 & H12).
  exists names, w'. split; [reflexivity|]. split; [exact H0|].
  split; [exact H12|].
  apply (split_input_file_names (scripted healthy) SMALL_TESTFILE_PATH
           "/tmp/tmpA" 4 (test_world healthy) names w' Erun).
Defined.

(** ** [upload_file_pieces]: the requests in full *)

Section Replay.
Context (s3 : S3Client).
Implicit Types w : world s3.

Lemma upload_parts_replay b k u total todo Parts w r w' :
  upload_parts s3 b k u total todo Parts w = (r, w') ->
  exists replies,
    steady w w' (part_requests b k u total (files w) todo replies)
    /\ parts_outcome (files w) todo replies Parts = Some r.
Proof.
  revert Parts w. induction todo as [|[index name] later IH];
    intros Parts w H.
  - injection H as <- <-. exists []. split; [apply steady_refl|reflexivity].
  - cbn [upload_parts] in H. unfold mbind, M_bind in H.
    destruct (get_file_hash s3 name default_algorithm w)
      as [[h|e] w1] eqn:Eh;
      destruct (get_file_hash_md5_inv _ _ _ _ Eh) as [-> Hh].
    2:{ injection H as <- <-. exists [].
        destruct (files w !! name) as [body|] eqn:Ef.
        - rewrite (get_file_hash_content s3 name default_algorithm
                     (HashAlgorithm MD5.block_size MD5.digest) body w) in Eh;
            [discriminate|reflexivity|reflexivity|exact Ef].
        - rewrite (get_file_hash_missing_file s3 name default_algorithm
                     (HashAlgorithm MD5.block_size MD5.digest) w) in Eh;
            [|reflexivity|exact Ef].
          injection Eh as <-. cbn. rewrite Ef.
          split; [apply steady_refl|reflexivity]. }
    destruct (Hh h eq_refl) as (body & Hbody & ->). clear Hh Eh.
    unfold print, emit, open_rb in H. cbn [files] in H.
    rewrite Hbody in H.
    match type of H with
    | context [s3_upload_part s3 b k u ?n ?bd ?h ?w0] =>
        destruct (s3_upload_part s3 b k u n bd h w0) as [ru w2] eqn:Eu
    end.
    unfold s3_upload_part in Eu. apply call_inv in Eu.
    destruct Eu as (res & (F2 & D2 & T2 & Tr2) & ->).
    cbn [files dirs tmp_names trace] in F2, D2, T2, Tr2.
    destruct res as [response|code].
    2:{ injection H as <- <-. exists [Err code].
        cbn [part_requests parts_outcome granted]. rewrite Hbody.
        split; [|reflexivity]. unfold steady.
        rewrite Tr2, <- app_assoc. auto. }
    destruct (part_ETag response) as [etag|] eqn:Ee; cbn [getitem] in H.
    2:{ injection H as <- <-. exists [Ok response].
        cbn [part_requests parts_outcome granted]. rewrite Hbody, Ee.
        split; [|reflexivity]. unfold steady.
        rewrite Tr2, <- app_assoc. auto. }
    change ((mret etag : M s3 _) w2) with (Return etag, w2) in H.
    cbv beta iota in H. apply IH in H.
    destruct H as (replies & (F3 & D3 & T3 & Tr3) & Ho).
    rewrite F2 in Tr3, Ho.
    exists (Ok response :: replies).
    cbn [part_requests parts_outcome granted]. rewrite Hbody, Ee.
    split; [|exact Ho]. unfold steady.
    rewrite Tr3, Tr2, <- !app_assoc. cbn [app].
    repeat split; congruence.
Qed.


Lemma upload_file_pieces_replay b k h sz names w r w' :
  upload_file_pieces s3 b k h sz names w = (r, w') ->
  exists reply rest,
    steady w w' (CreateMultipartUpload b k {[ "md5" := h ]} reply :: rest)
    /\ match reply with
       | Err code =>
           rest = [] /\ r = Raise (ClientError "CreateMultipartUpload" code)
       | Ok response =>
           match UploadId response with
           | None => rest = [] /\ r = Raise (KeyError "UploadId")
           | Some u =>
               exists replies tail fin chk assigned pending,
                 rest = part_requests b k u (Z.of_nat (length names))
                          (files w) (enumerate names) replies
                        ++ tail ++ fin ++ chk
                 /\ match parts_outcome (files w) (enumerate names)
                                        replies [] with
                    | Some (Return parts) =>
                        exists res,
                          tail = [Print "Finished uploading.";
                                  CompleteMultipartUpload b k u parts res]
                          /\ match res with
                             | Ok response =>
                                 assigned = Some response /\ pending = None
                             | Err code =>
                                 assigned = None
                                 /\ pending
                                    = Some (ClientError
                                              "CompleteMultipartUpload" code)
                             end
                    | Some (Raise e) =>
                        tail = [] /\ assigned = None /\ pending = Some e
                    | None => False
                    end
                 /\ concluded b k u h sz assigned pending fin chk r
           end
       end.
Proof.
  intros H. apply upload_file_pieces_inv in H.
  destruct H as (reply & w1 & St1 & H). exists reply.
  destruct reply as [response|code].
  2:{ destruct H as [-> ->]. exists []. auto. }
  destruct (UploadId response) as [u|] eqn:Eu.
  2:{ destruct H as [-> ->]. exists []. rewrite ?Eu. auto. }
  destruct H as (rb & wb & rf & wf & Ht & Hf & H).
  assert (Hfs : files w1 = files w) by (destruct St1; auto).
  (* the [try] block *)
  assert (Htry : exists replies tail,
             steady w1 wb
               (part_requests b k u (Z.of_nat (length names)) (files w)
                              (enumerate names) replies ++ tail)
             /\ match parts_outcome (files w) (enumerate names)
                                    replies [] with
                | Some (Return parts) =>
                    exists res,
                      tail = [Print "Finished uploading.";
                              CompleteMultipartUpload b k u parts res]
                      /\ rb = match res with
                              | Ok response => Return response
                              | Err code =>
                                  Raise (ClientError
                                           "CompleteMultipartUpload" code)
                              end
                | Some (Raise e) => tail = [] /\ rb = Raise e
                | None => False
                end).
  { unfold upload_file_pieces_try, mbind, M_bind in Ht.
    destruct (upload_parts s3 b k u _ _ [] w1) as [[parts|e] w2] eqn:Ep;
      apply upload_parts_replay in Ep;
      destruct Ep as (replies & St & Ho); rewrite Hfs in St, Ho;
      exists replies; rewrite Ho.
    - unfold print, emit, s3_complete_multipart_upload in Ht.
      apply call_inv in Ht. destruct Ht as (res & St2 & ->).
      exists [Print "Finished uploading.";
              CompleteMultipartUpload b k u parts res].
      split; [|eauto].
      eapply steady_trans; [exact St|].
      destruct St2 as (F & D & T & Tr). cbn [files dirs tmp_names trace] in *.
      unfold steady. rewrite Tr, <- app_assoc. auto.
    - injection Ht as <- <-. exists []. rewrite app_nil_r. auto. }
  destruct Htry as (replies & tail & St2 & Htry).
  apply upload_file_pieces_finally_spec in Hf.
  set (assigned := match rb with Return a => Some a | Raise _ => None end)
    in *.
  set (pending := match rb with Return _ => None | Raise e => Some e end).
  assert (Hgoal : exists fin chk,
             steady wb w' (fin ++ chk)
             /\ concluded b k u h sz assigned pending fin chk r).
  { unfold concluded. destruct (assigned ≫= ETag) as [etag|] eqn:Ea.
    - destruct Hf as [-> ->].
      destruct rb as [a|e]; [|discriminate Ea].
      apply upload_file_pieces_checks_spec in H.
      destruct H as (hreply & told & St & Fp & H).
      exists [], (HeadObject b k hreply :: told). split; [exact St|].
      split; [reflexivity|]. exists hreply, told. auto.
    - destruct Hf as (res & St3 & ->).
      destruct res as [[]|code].
      + destruct rb as [a|e].
        * apply upload_file_pieces_checks_spec in H.
          destruct H as (hreply & told & St & Fp & H).
          eexists _, (HeadObject b k hreply :: told).
          split; [eapply steady_trans; eauto|].
          exists (Ok tt). split; [reflexivity|].
          subst pending. cbn. exists hreply, told. auto.
        * destruct H as [-> ->]. eexists _, [].
          split; [rewrite app_nil_r; exact St3|].
          exists (Ok tt). split; [reflexivity|]. subst pending. cbn. auto.
      + destruct H as [-> ->]. eexists _, [].
        split; [rewrite app_nil_r; exact St3|].
        exists (Err code). split; [reflexivity|]. auto. }
  destruct Hgoal as (fin & chk & St4 & Hc).
  eexists. split.
  - pose proof (steady_trans _ _ _ _ _ St1
                  (steady_trans _ _ _ _ _ St2 St4)) as St.
    rewrite <- !app_assoc in St. exact St.
  - rewrite ?Eu. exists replies, tail, fin, chk, assigned, pending.
    split; [reflexivity|]. split; [|exact Hc].
    destruct (parts_outcome (files w) (enumerate names) replies [])
      as [[parts|e]|]; [| |contradiction].
    + destruct Htry as (res & -> & ->). exists res. split; [reflexivity|].
      subst assigned pending. destruct res; auto.
    + destruct Htry as (-> & ->). subst assigned pending. auto.
Qed.

End Replay.

(** ** What the replay says of the requests *)

Lemma enumerate_lookup {A} (l : list A) (i : nat) (x : A) :
  l !! i = Some x -> enumerate l !! i = Some (Z.of_nat i, x).
Proof.
  intros H. unfold enumerate, range. apply lookup_zip_with_Some.
  exists (Z.of_nat i), x. split; [reflexivity|]. split; [|exact H].
  rewrite list_lookup_fmap, lookup_seq_lt; [reflexivity|].
  apply lookup_lt_Some in H. lia.
Qed.

Lemma part_requests_sent b k u total fs todo replies :
  exists bodies,
    omap sent (part_requests b k u total fs todo replies)
    = zip_with (fun entry body => (entry.1 + 1, body, md5_base64 body))
               todo bodies
    /\ (length bodies <= length todo)%nat
    /\ forall i body,
         bodies !! i = Some body ->
         exists entry, todo !! i = Some entry /\ fs !! entry.2 = Some body.
Proof.
  revert replies. induction todo as [|[index name] later IH]; intros replies.
  - exists []. cbn. split; [reflexivity|]. split; [lia|]. intros i body [=].
  - destruct replies as [|reply replies].
    { exists []. cbn. split; [reflexivity|]. split; [lia|]. intros i body [=]. }
    cbn [part_requests]. destruct (fs !! name) as [body|] eqn:Ef.
    2:{ exists []. cbn. split; [reflexivity|]. split; [lia|].
        intros i body [=]. }
    destruct (granted reply).
    + destruct (IH replies) as (bodies & Hs & Hl & Hb).
      exists (body :: bodies).
      split; [cbn [zip_with]; rewrite <- Hs; reflexivity|].
      split; [cbn [length]; lia|].
      intros [|i] body' Hi.
      * injection Hi as <-. exists (index, name). auto.
      * apply Hb. exact Hi.
    + exists [body]. cbn. split; [destruct later; reflexivity|].
      split; [lia|]. intros [|i] body' Hi; [|destruct i; discriminate].
      injection Hi as <-. exists (index, name). auto.
Qed.

Lemma part_requests_refused b k u total fs todo replies Parts
    b' k' u' n body md5 answer :
  UploadPart b' k' u' n body md5 answer
    ∈ part_requests b k u total fs todo replies ->
  granted answer = None ->
  exists before,
    part_requests b k u total fs todo replies
    = before ++ [UploadPart b' k' u' n body md5 answer]
    /\ parts_outcome fs todo replies Parts = Some (Raise (refusal answer)).
Proof.
  revert replies Parts.
  induction todo as [|[index name] later IH]; intros replies Parts Hin Hg.
  { inversion Hin. }
  destruct replies as [|reply replies]; [inversion Hin|].
  cbn [part_requests parts_outcome] in *.
  destruct (fs !! name) as [body0|]; [|inversion Hin].
  apply elem_of_cons in Hin as [[=]|Hin].
  apply elem_of_cons in Hin as [Heq|Hin].
  - injection Heq as ? ? ? ? ? ? ?; subst. rewrite Hg.
    exists [Print (uploading_message name (index + 1) total
                                     (md5_base64 body0))].
    split; [reflexivity|].
    destruct reply as [response|code]; [|reflexivity].
    cbn [granted] in Hg. rewrite Hg. reflexivity.
  - destruct (granted reply) as [etag|] eqn:Eg; [|inversion Hin].
    destruct reply as [response|code]; [|discriminate Eg].
    cbn [granted] in Eg. rewrite Eg.
    destruct (IH replies (Parts ++ [Part etag (index + 1)]) Hin Hg)
      as (before & -> & Ho).
    eexists (_ :: _ :: before). split; [reflexivity|exact Ho].
Qed.

Lemma part_requests_addressed b k u total fs todo replies :
  Forall (addressed b k u) (part_requests b k u total fs todo replies).
Proof.
  revert replies. induction todo as [|[index name] later IH]; intros replies;
    [constructor|].
  destruct replies as [|reply replies]; [constructor|].
  cbn [part_requests]. destruct (fs !! name); [|constructor].
  constructor; [exact I|]. constructor; [cbn; auto|].
  destruct (granted reply); [apply IH|constructor].
Qed.

Lemma checked_addressed b k u h sz r chk :
  checked b k h sz r chk -> Forall (addressed b k u) chk.
Proof.
  intros (reply & told & -> & Fp & _). constructor; [cbn; auto|].
  eapply Forall_impl; [exact Fp|]. intros [] H; cbn in *; tauto.
Qed.

Lemma abort_events_addressed b k u res :
  Forall (addressed b k u) (abort_events b k u res).
Proof.
  unfold abort_events. destruct res; repeat constructor; cbn; auto.
Qed.

Lemma concluded_addressed b k u h sz assigned pending fin chk r :
  concluded b k u h sz assigned pending fin chk r ->
  Forall (addressed b k u) (fin ++ chk).
Proof.
  unfold concluded. destruct (assigned ≫= ETag).
  - intros [-> Hc]. eapply checked_addressed. exact Hc.
  - intros (res & -> & H). apply Forall_app. split.
    + apply abort_events_addressed.
    + destruct res as [[]|code]; [destruct pending|].
      * destruct H as [_ ->]. constructor.
      * eapply checked_addressed. exact H.
      * destruct H as [_ ->]. constructor.
Qed.

Lemma omap_sent_nil (evs : list event) :
  Forall (fun e => sent e = None) evs -> omap sent evs = [].
Proof.
  induction 1 as [|e evs He _ IH]; [reflexivity|]. cbn. rewrite He. exact IH.
Qed.

Lemma checked_not_sent b k h sz r chk :
  checked b k h sz r chk -> Forall (fun e => sent e = None) chk.
Proof.
  intros (reply & told & -> & Fp & _). constructor; [reflexivity|].
  eapply Forall_impl; [exact Fp|]. intros [] H; cbn in *; tauto.
Qed.

Lemma concluded_not_sent b k u h sz assigned pending fin chk r :
  concluded b k u h sz assigned pending fin chk r ->
  Forall (fun e => sent e = None) (fin ++ chk).
Proof.
  unfold concluded. destruct (assigned ≫= ETag).
  - intros [-> Hc]. eapply checked_not_sent. exact Hc.
  - intros (res & -> & H). apply Forall_app. split.
    + destruct res; repeat constructor.
    + destruct res as [[]|code]; [destruct pending|].
      * destruct H as [_ ->]. constructor.
      * eapply checked_not_sent. exact H.
      * destruct H as [_ ->]. constructor.
Qed.

Lemma zip_with_enumerate_imap {A B} (f : Z -> A -> B) (names : list string)
    (l : list A) :
  (length l <= length names)%nat ->
  zip_with (fun (entry : Z * string) x => f entry.1 x) (enumerate names) l
  = imap (fun i x => f (Z.of_nat i) x) l.
Proof.
  intros Hl. apply list_eq. intros i.
  rewrite lookup_zip_with, list_lookup_imap.
  destruct (l !! i) as [x|] eqn:El.
  - assert (is_Some (names !! i)) as [name Hn].
    { apply lookup_lt_is_Some. apply lookup_lt_Some in El. lia. }
    rewrite (enumerate_lookup _ _ _ Hn). reflexivity.
  - destruct (enumerate names !! i); reflexivity.
Qed.

Section PiecesTheorems.
Context (s3 : S3Client).
Implicit Types w : world s3.

(** A session that could not be opened ends the call at once: when
    [create_multipart_upload] is refused, or answers without an
    [UploadId], this request is the only event, the error is raised and
    nothing else is sent, not even an abort. *)
Theorem session_not_begun b k h sz names w r w' :
  upload_file_pieces s3 b k h sz names w = (r, w') ->
  exists reply rest,
    trace w' = trace w
                 ++ CreateMultipartUpload b k {[ "md5" := h ]} reply :: rest
    /\ ((forall response, reply = Ok response -> UploadId response = None) ->
        rest = []
        /\ r = Raise (match reply with
                      | Err code => ClientError "CreateMultipartUpload" code
                      | Ok _ => KeyError "UploadId"
                      end)).
Proof.
  intros H. apply upload_file_pieces_anatomy in H.
  destruct H as (reply & rest & (_ & _ & _ & Tr) & H).
  exists reply, rest. split; [exact Tr|]. intros Hno.
  destruct reply as [response|code]; [|exact H].
  rewrite (Hno response eq_refl) in H. exact H.
Qed.

(** [upload_file_pieces] reads the piece files and talks to the store: it
    never creates, changes or deletes a local file or directory, however
    it ends. *)
Theorem upload_file_pieces_local_state b k h sz names w r w' :
  upload_file_pieces s3 b k h sz names w = (r, w') ->
  files w' = files w /\ dirs w' = dirs w /\ tmp_names w' = tmp_names w.
Proof.
  intros H. apply upload_file_pieces_anatomy in H.
  destruct H as (reply & rest & (F & D & T & _) & _). auto.
Qed.

(** The parts are sent in the order of the list of names, numbered from
    1 without a gap: the [UploadPart] requests of a call are, in order,
    those of parts 1 to [n] for some [n] up to the number of names, the
    [i]-th with the content of the [i]-th piece file and the MD5 digest of
    that content. *)
Theorem parts_sent_in_order b k h sz names w r w' :
  upload_file_pieces s3 b k h sz names w = (r, w') ->
  exists reply rest bodies,
    trace w' = trace w
                 ++ CreateMultipartUpload b k {[ "md5" := h ]} reply :: rest
    /\ omap sent rest
       = imap (fun i body => (Z.of_nat i + 1, body, md5_base64 body)) bodies
    /\ (length bodies <= length names)%nat
    /\ forall i body,
         bodies !! i = Some body ->
         exists name, names !! i = Some name /\ files w !! name = Some body.
Proof.
  intros H. apply upload_file_pieces_replay in H.
  destruct H as (reply & rest & (_ & _ & _ & Tr) & H). exists reply, rest.
  assert (Hnone : rest = [] ->
            exists bodies : list (list byte),
              trace w' = trace w
                ++ CreateMultipartUpload b k {[ "md5" := h ]} reply :: rest
              /\ omap sent rest
                 = imap (fun i body =>
                           (Z.of_nat i + 1, body, md5_base64 body)) bodies
              /\ (length bodies <= length names)%nat
              /\ forall i body,
                   bodies !! i = Some body ->
                   exists name,
                     names !! i = Some name /\ files w !! name = Some body).
  { intros ->. exists []. split; [exact Tr|]. split; [reflexivity|].
    split; [cbn; lia|]. intros i body [=]. }
  destruct reply as [response|code]; [|apply Hnone, H].
  destruct (UploadId response) as [u|]; [|apply Hnone, H]. clear Hnone.
  destruct H as (replies & tail & fin & chk & assigned & pending
                 & -> & Hout & Hcon).
  destruct (part_requests_sent b k u (Z.of_nat (length names)) (files w)
              (enumerate names) replies) as (bodies & Hs & Hl & Hb).
  rewrite enumerate_length in Hl.
  exists bodies. split; [exact Tr|]. split; [|split; [exact Hl|]].
  - rewrite omap_app, Hs.
    rewrite (omap_sent_nil (tail ++ fin ++ chk)), app_nil_r.
    + apply (zip_with_enumerate_imap
               (fun i body => (i + 1, body, md5_base64 body))). exact Hl.
    + apply Forall_app. split.
      * destruct (parts_outcome _ _ _ _) as [[parts|e]|]; [| |contradiction].
        -- destruct Hout as (res & -> & _). repeat constructor.
        -- destruct Hout as (-> & _). constructor.
      * eapply concluded_not_sent. exact Hcon.
  - intros i body Hi. destruct (Hb i body Hi) as ([index name] & He & Hf).
    exists name. split; [|exact Hf].
    assert (is_Some (names !! i)) as [name' Hn].
    { apply lookup_lt_is_Some. apply lookup_lt_Some in Hi. lia. }
    rewrite (enumerate_lookup _ _ _ Hn) in He. injection He as _ <-.
    exact Hn.
Qed.

(** The loop stops at the first part the store does not acknowledge.  A
    refused [UploadPart] request, or one answered without an [ETag], is
    followed by the abort and by nothing else: no further part, no
    completion, no check of the stored object; and the call ends with the
    error of that part, unless the abort fails too. *)
Theorem refused_part_ends_the_uploads b k h sz names w r w' :
  upload_file_pieces s3 b k h sz names w = (r, w') ->
  exists reply rest,
    trace w' = trace w
                 ++ CreateMultipartUpload b k {[ "md5" := h ]} reply :: rest
    /\ forall u n body md5 answer,
         UploadPart b k u n body md5 answer ∈ rest ->
         granted answer = None ->
         exists before res,
           rest = before ++ UploadPart b k u n body md5 answer
                         :: abort_events b k u res
           /\ r = Raise (match res with
                         | Ok _ => refusal answer
                         | Err code =>
                             ClientError "AbortMultipartUpload" code
                         end).
Proof.
  intros H. apply upload_file_pieces_replay in H.
  destruct H as (reply & rest & (_ & _ & _ & Tr) & H). exists reply, rest.
  split; [exact Tr|]. intros u n body md5 answer Hin Hg.
  destruct reply as [response|code]; [|destruct H as [-> _]; inversion Hin].
  destruct (UploadId response) as [u0|];
    [|destruct H as [-> _]; inversion Hin].
  destruct H as (replies & tail & fin & chk & assigned & pending
                 & -> & Hout & Hcon).
  pose proof (concluded_not_sent _ _ _ _ _ _ _ _ _ _ Hcon) as Hns.
  assert (Hpr : UploadPart b k u n body md5 answer
                  ∈ part_requests b k u0 (Z.of_nat (length names)) (files w)
                      (enumerate names) replies).
  { apply elem_of_app in Hin as [Hin|Hin]; [exact Hin|]. exfalso.
    apply elem_of_app in Hin as [Hin|Hin].
    - destruct (parts_outcome _ _ _ _) as [[parts|e]|]; [| |contradiction].
      + destruct Hout as (res & -> & _).
        apply list_elem_of_In in Hin. destruct Hin as [[=]|[[=]|[]]].
      + destruct Hout as (-> & _). inversion Hin.
    - rewrite Forall_forall in Hns. specialize (Hns _ Hin). discriminate. }
  assert (u = u0) as ->.
  { pose proof (part_requests_addressed b k u0 (Z.of_nat (length names))
                  (files w) (enumerate names) replies) as Ha.
    rewrite Forall_forall in Ha. destruct (Ha _ Hpr) as (_ & _ & ->).
    reflexivity. }
  destruct (part_requests_refused _ _ _ _ _ _ _ [] _ _ _ _ _ _ _ Hpr Hg)
    as (before & Hbefore & Ho).
  rewrite Ho in Hout. destruct Hout as (-> & -> & ->).
  unfold concluded in Hcon. cbn [mbind option_bind] in Hcon.
  destruct Hcon as (res & -> & Hres).
  exists before, res. rewrite Hbefore, <- app_assoc. cbn [app].
  destruct res as [[]|code].
  - destruct Hres as [-> ->]. rewrite app_nil_r. auto.
  - destruct Hres as [-> ->]. rewrite app_nil_r. auto.
Qed.

(** The stored object is looked at only after the store has accepted a
    completion: every [HeadObject] request of a call comes after a
    [CompleteMultipartUpload] request that was answered positively. *)
Theorem verification_follows_completion b k h sz names w r w' :
  upload_file_pieces s3 b k h sz names w = (r, w') ->
  exists reply rest,
    trace w' = trace w
                 ++ CreateMultipartUpload b k {[ "md5" := h ]} reply :: rest
    /\ forall b' k' answer,
         HeadObject b' k' answer ∈ rest ->
         exists before after u parts response,
           rest = before ++ HeadObject b' k' answer :: after
           /\ CompleteMultipartUpload b k u parts (Ok response) ∈ before
           /\ Forall is_print after.
Proof.
  intros H. apply upload_file_pieces_anatomy in H.
  destruct H as (reply & rest & (_ & _ & _ & Tr) & H). exists reply, rest.
  split; [exact Tr|]. intros b' k' answer Hin.
  destruct reply as [response|code]; [|destruct H as [-> _]; inversion Hin].
  destruct (UploadId response) as [u|];
    [|destruct H as [-> _]; inversion Hin].
  destruct H as (ups & tail & fin & chk & assigned & pending
                 & -> & Fu & Hatt & Hcon).
  (* the checks ran, so the completion was accepted *)
  assert (Hchk : chk <> [] ->
                 exists parts response hreply told,
                   tail = [Print "Finished uploading.";
                           CompleteMultipartUpload b k u parts (Ok response)]
                   /\ chk = HeadObject b k hreply :: told
                   /\ Forall is_print told).
  { intros Hne.
    assert (Hck : checked b k h sz r chk /\ pending = None).
    { unfold concluded in Hcon. destruct (assigned ≫= ETag) eqn:Ea.
      - destruct Hcon as [_ Hc]. split; [exact Hc|].
        destruct Hatt as [(_ & -> & _)|(? & res & _ & _ & _ & Hres)];
          [discriminate|].
        destruct res; destruct Hres as [-> Hp]; [exact Hp|discriminate].
      - destruct Hcon as (res & _ & Hres).
        destruct res as [[]|code]; [destruct pending|].
        + destruct Hres as [_ ->]. contradiction.
        + auto.
        + destruct Hres as [_ ->]. contradiction. }
    destruct Hck as [(hreply & told & -> & Fp & _) ->].
    destruct Hatt as [(_ & _ & [? [=]])|(parts & res & -> & _ & _ & Hres)].
    destruct res as [response'|code]; [|destruct Hres as [_ [=]]].
    exists parts, response', hreply, told. auto. }
  assert (Hnot : forall evs, HeadObject b' k' answer ∈ evs ->
                   Forall (fun e => ~ is_head e) evs -> False).
  { intros evs He F. rewrite Forall_forall in F. apply (F _ He). exact I. }
  assert (Hfin : Forall (fun e => ~ is_head e) fin).
  { unfold concluded in Hcon. destruct (assigned ≫= ETag).
    - destruct Hcon as [-> _]. constructor.
    - destruct Hcon as (res & -> & _).
      destruct res; repeat constructor; cbn; tauto. }
  assert (Htail : Forall (fun e => ~ is_head e) tail).
  { destruct Hatt as [(-> & _)|(parts & res & -> & _)];
      repeat constructor; cbn; tauto. }
  apply elem_of_app in Hin as [Hin|Hin].
  { exfalso. apply (Hnot _ Hin). apply not_head_print_or_upload. exact Fu. }
  apply elem_of_app in Hin as [Hin|Hin]; [exfalso; eauto|].
  apply elem_of_app in Hin as [Hin|Hin]; [exfalso; eauto|].
  destruct (Hchk ltac:(intros ->; inversion Hin))
    as (parts & response' & hreply & told & -> & -> & Fp).
  apply elem_of_cons in Hin as [Heq|Hin].
  2:{ exfalso. apply (Hnot _ Hin). apply not_head_print. exact Fp. }
  injection Heq as -> -> ->.
  exists (ups ++ [Print "Finished uploading.";
                   CompleteMultipartUpload b k u parts (Ok response')]
              ++ fin), told, u, parts, response'.
  split; [rewrite <- !app_assoc; reflexivity|]. split; [|exact Fp].
  apply elem_of_app. right. apply elem_of_app. left.
  apply list_elem_of_In. right. left. reflexivity.
Qed.

(** One call, one upload: every request after the opening one is about
    the bucket and the key of the call and, for parts, completion and
    abort, about the upload id the store gave; no second session is opened
    and nothing but these requests and lines of output happens. *)
Theorem requests_address_one_upload b k h sz names w r w' :
  upload_file_pieces s3 b k h sz names w = (r, w') ->
  exists reply rest,
    trace w' = trace w
                 ++ CreateMultipartUpload b k {[ "md5" := h ]} reply :: rest
    /\ forall response u,
         reply = Ok response -> UploadId response = Some u ->
         Forall (addressed b k u) rest.
Proof.
  intros H. apply upload_file_pieces_replay in H.
  destruct H as (reply & rest & (_ & _ & _ & Tr) & H). exists reply, rest.
  split; [exact Tr|]. intros response u -> Hu. rewrite Hu in H.
  destruct H as (replies & tail & fin & chk & assigned & pending
                 & -> & Hout & Hcon).
  apply Forall_app. split; [apply part_requests_addressed|].
  apply Forall_app. split.
  - destruct (parts_outcome _ _ _ _) as [[parts|e]|]; [| |contradiction].
    + destruct Hout as (res & -> & _). repeat constructor.
    + destruct Hout as (-> & _). constructor.
  - eapply concluded_addressed. exact Hcon.
Qed.

End PiecesTheorems.

Lemma session_not_begun_witness :
  let run := upload_file_pieces (scripted closed) "bucket" "small_testfile"
               (md5_base64 SMALL_TESTFILE_CONTENT) 50 [SMALL_TESTFILE_PATH]
               (test_world closed) in
  run.1 = Raise (ClientError "CreateMultipartUpload" "AccessDenied")
  /\ length (trace run.2) = 1%nat.
Proof.
  intros run.
  destruct (session_not_begun (scripted closed) "bucket" "small_testfile"
              (md5_base64 SMALL_TESTFILE_CONTENT) 50 [SMALL_TESTFILE_PATH]
              (test_world closed) run.1 run.2 (surjective_pairing _))
    as (reply & rest & Tr & H).
  assert (Hreply : reply = Err "AccessDenied").
  { assert (Hc : head (trace run.2)
                 = Some (CreateMultipartUpload "bucket" "small_testfile"
                           {[ "md5" := md5_base64 SMALL_TESTFILE_CONTENT ]}
                           (Err "AccessDenied")))
      by (vm_compute; reflexivity).
    rewrite Tr in Hc. cbn [head trace test_world app] in Hc. congruence. }
  subst reply. destruct H as [-> ->]; [discriminate|].
  split; [reflexivity|]. rewrite Tr. reflexivity.
Defined.

Lemma upload_file_pieces_local_state_witness :
  let run := upload_file_pieces (scripted refusing) "bucket" "small_testfile"
               (md5_base64 SMALL_TESTFILE_CONTENT) 50 [SMALL_TESTFILE_PATH]
               (test_world refusing) in
  files run.2 = {[ SMALL_TESTFILE_PATH := SMALL_TESTFILE_CONTENT ]}
  /\ dirs run.2 = ∅.
Proof.
  intros run.
  destruct (upload_file_pieces_local_state (scripted refusing) "bucket"
              "small_testfile" (md5_base64 SMALL_TESTFILE_CONTENT) 50
              [SMALL_TESTFILE_PATH] (test_world refusing) run.1 run.2
              (surjective_pairing _)) as (F & D & _).
  split; [exact F|exact D].
Defined.

Lemma parts_sent_in_order_witness :
  let run := upload_file_pieces (scripted healthy) "bucket" "small_testfile"
               (md5_base64 SMALL_TESTFILE_CONTENT) 50
               [SMALL_TESTFILE_PATH; SMALL_TESTFILE_PATH]
               (test_world healthy) in
  exists bodies,
    omap sent (trace run.2)
    = imap (fun i body => (Z.of_nat i + 1, body, md5_base64 body)) bodies
    /\ (length bodies <= 2)%nat.
Proof.
  intros run.
  destruct (parts_sent_in_order (scripted healthy) "bucket" "small_testfile"
              (md5_base64 SMALL_TESTFILE_CONTENT) 50
              [SMALL_TESTFILE_PATH; SMALL_TESTFILE_PATH]
              (test_world healthy) run.1 run.2 (surjective_pairing _))
    as (reply & rest & bodies & Tr & Hs & Hl & _).
  exists bodies. split; [|exact Hl].
  rewrite Tr. exact Hs.
Defined.

Lemma refused_part_ends_the_uploads_witness :
  let run := upload_file_pieces (scripted refusing) "bucket" "small_testfile"
               (md5_base64 SMALL_TESTFILE_CONTENT) 50
               [SMALL_TESTFILE_PATH; SMALL_TESTFILE_PATH]
               (test_world refusing) in
  length (omap sent (trace run.2)) = 1%nat
  /\ exists res : result unit,
       run.1 = Raise (match res with
                      | Ok _ => ClientError "UploadPart" "BadDigest"
                      | Err code => ClientError "AbortMultipartUpload" code
                      end).
Proof.
  intros run. split; [vm_compute; reflexivity|].
  destruct (refused_part_ends_the_uploads (scripted refusing) "bucket"
              "small_testfile" (md5_base64 SMALL_TESTFILE_CONTENT) 50
              [SMALL_TESTFILE_PATH; SMALL_TESTFILE_PATH]
              (test_world refusing) run.1 run.2 (surjective_pairing _))
    as (reply & rest & Tr & H).
  destruct (H "upload-1" 1 SMALL_TESTFILE_CONTENT
              "CoM0C8BkxBNJJJyzEO+PYw=="
              (Err "BadDigest" : result upload_part_response))
    as (before & res & _ & Hr).
  - vm_compute in Tr. injection Tr as _ <-.
    apply list_elem_of_In. right. left. reflexivity.
  - reflexivity.
  - exists res. exact Hr.
Defined.

Lemma verification_follows_completion_witness :
  let run := upload_file_pieces (scripted healthy) "bucket" "small_testfile"
               (md5_base64 SMALL_TESTFILE_CONTENT) 50 [SMALL_TESTFILE_PATH]
               (test_world healthy) in
  exists before after u parts response answer,
    trace run.2 = before ++ HeadObject "bucket" "small_testfile" answer
                         :: after
    /\ CompleteMultipartUpload "bucket" "small_testfile" u parts
         (Ok response) ∈ before.
Proof.
  intros run.
  destruct (verification_follows_completion (scripted healthy) "bucket"
              "small_testfile" (md5_base64 SMALL_TESTFILE_CONTENT) 50
              [SMALL_TESTFILE_PATH] (test_world healthy) run.1 run.2
              (surjective_pairing _)) as (reply & rest & Tr & H).
  destruct (H "bucket" "small_testfile" (head_reply healthy))
    as (before & after & u & parts & response & Hrest & Hin & _).
  - vm_compute in Tr. injection Tr as _ <-.
    apply list_elem_of_In. do 4 right. left. reflexivity.
  - exists (CreateMultipartUpload "bucket" "small_testfile"
              {[ "md5" := md5_base64 SMALL_TESTFILE_CONTENT ]} reply
            :: before), after, u, parts, response, (head_reply healthy).
    split; [rewrite Tr, Hrest; reflexivity|].
    apply elem_of_cons. right. exact Hin.
Defined.

Lemma requests_address_one_upload_witness :
  let run := upload_file_pieces (scripted healthy) "bucket" "small_testfile"
               (md5_base64 SMALL_TESTFILE_CONTENT) 50 [SMALL_TESTFILE_PATH]
               (test_world healthy) in
  exists first rest,
    trace run.2 = first :: rest
    /\ Forall (addressed "bucket" "small_testfile" "upload-1") rest.
Proof.
  intros run.
  destruct (requests_address_one_upload (scripted healthy) "bucket"
              "small_testfile" (md5_base64 SMALL_TESTFILE_CONTENT) 50
              [SMALL_TESTFILE_PATH] (test_world healthy) run.1 run.2
              (surjective_pairing _)) as (reply & rest & Tr & H).
  exists (CreateMultipartUpload "bucket" "small_testfile"
            {[ "md5" := md5_base64 SMALL_TESTFILE_CONTENT ]} reply), rest.
  split; [exact Tr|].
  apply (H {| UploadId := Some "upload-1" |} "upload-1"); [|reflexivity].
  assert (Hc : head (trace run.2)
               = Some (CreateMultipartUpload "bucket" "small_testfile"
                         {[ "md5" := md5_base64 SMALL_TESTFILE_CONTENT ]}
                         (Ok {| UploadId := Some "upload-1" |})))
    by (vm_compute; reflexivity).
  rewrite Tr in Hc. cbn [head trace test_world app] in Hc. congruence.
Defined.

(** ** A store that takes the upload *)

Section Progress.
Context (s3 : S3Client).
Implicit Types w : world s3.

Lemma call_run {A} op (request : store s3 -> result A * store s3) log
    w r w' :
  call s3 op request log w = (r, w') ->
  exists res st',
    request (remote w) = (res, st')
    /\ w' = World (files w) (dirs w) (tmp_names w) st' (trace w ++ [log res])
    /\ r = match res with
           | Ok a => Return a
           | Err code => Raise (ClientError op code)
           end.
Proof.
  unfold call. destruct (request (remote w)) as [res st'].
  intros H. exists res, st'. destruct res; injection H as <- <-; auto.
Qed.

Lemma upload_parts_progress b k u total todo Parts w :
  (forall u n body md5 st, exists response st' etag,
     upload_part s3 b k u n body md5 st = (Ok response, st')
     /\ part_ETag response = Some etag) ->
  Forall (fun entry : Z * string => is_Some (files w !! entry.2)) todo ->
  exists parts w',
    upload_parts s3 b k u total todo Parts w = (Return parts, w')
    /\ files w' = files w.
Proof.
  intros Htakes. revert Parts w.
  induction todo as [|[index name] later IH]; intros Parts w Hfiles.
  - exists Parts, w. split; reflexivity.
  - apply Forall_cons in Hfiles as [[body Hbody] Hlater].
    cbn [fst snd] in Hbody.
    cbn [upload_parts]. unfold mbind, M_bind.
    rewrite (get_file_hash_content s3 name default_algorithm
               (HashAlgorithm MD5.block_size MD5.digest) body w);
      [|reflexivity|reflexivity|exact Hbody].
    unfold print, emit, open_rb. cbn [files]. rewrite Hbody.
    unfold s3_upload_part.
    destruct (call s3 _ _ _ _) as [ru w2] eqn:Eu.
    apply call_run in Eu as (res & st' & Hreq & -> & ->). cbn [remote] in Hreq.
    destruct (Htakes u (index + 1) body
                (Base64.b64encode
                   (run (HashAlgorithm MD5.block_size MD5.digest) body))
                (remote w)) as (response & st2 & etag & Hup & Hetag).
    rewrite Hup in Hreq. injection Hreq as <- <-.
    rewrite Hetag. cbn [getitem]. unfold mret, M_ret.
    cbn [files dirs tmp_names remote trace].
    match goal with
    | |- context [upload_parts s3 b k u total later ?P ?w0] =>
        destruct (IH P w0) as (parts & w' & Hrun & Hf)
    end.
    { cbn [files]. exact Hlater. }
    exists parts, w'. split; [exact Hrun|]. rewrite Hf. reflexivity.
Qed.

(** When the store takes whatever it is sent and then shows an object
    with the digest and the length announced, and every piece file is
    there, [upload_file_pieces] returns normally. *)
Lemma upload_file_pieces_progress b k h sz names w :
  obliging s3 b k h sz ->
  Forall (fun name => is_Some (files w !! name)) names ->
  exists w', upload_file_pieces s3 b k h sz names w = (Return tt, w').
Proof.
  intros (Hbegin & Htakes & Hcompletes & Hshows) Hfiles.
  unfold upload_file_pieces, mbind at 1, M_bind.
  unfold s3_create_multipart_upload.
  destruct (call s3 _ _ _ _) as [rc w1] eqn:Ec.
  apply call_run in Ec as (res & st1 & Hreq & Hw1 & ->).
  destruct (Hbegin (remote w)) as (response & st1' & u & Hc & Hu).
  rewrite Hc in Hreq. injection Hreq as <- <-.
  unfold mbind at 1, M_bind. rewrite Hu. cbn [getitem].
  change ((mret u : M s3 _) w1) with (Return u, w1). cbv beta iota.
  unfold mbind at 1, M_bind, try_finally.
  (* the [try] block *)
  unfold upload_file_pieces_try, mbind, M_bind.
  destruct (upload_parts_progress b k u (Z.of_nat (length names))
              (enumerate names) [] w1 Htakes) as (parts & w2 & Hrun & Hf2).
  { apply Forall_forall. intros [index name] Hin. cbn [snd].
    unfold enumerate in Hin. apply elem_of_zip_r in Hin.
    rewrite Forall_forall in Hfiles. rewrite Hw1. cbn [files].
    apply Hfiles. exact Hin. }
  rewrite Hrun. unfold print, emit, s3_complete_multipart_upload.
  destruct (call s3 _ _ _ _) as [rcomp w3] eqn:Ecomp.
  apply call_run in Ecomp as (cres & st3 & Hreq & Hw3 & ->).
  destruct (Hcompletes u parts (remote w2))
    as (cresponse & st3' & etag & Hcomp & Hetag).
  cbn [remote] in Hreq. rewrite Hcomp in Hreq. injection Hreq as <- <-.
  (* the [finally] block *)
  unfold upload_file_pieces_finally.
  change (default {| ETag := None |} (Some cresponse)) with cresponse.
  rewrite Hetag. unfold mret at 1, M_ret at 1.
  (* the checks *)
  unfold upload_file_pieces_checks, mbind, M_bind, s3_head_object.
  destruct (call s3 _ _ _ _) as [rh w4] eqn:Eh.
  apply call_run in Eh as (hres & st4 & Hreq & Hw4 & ->).
  destruct (Hshows (remote w3)) as (head & st4' & Hhead & Hm & Hs).
  rewrite Hhead in Hreq. injection Hreq as <- <-.
  destruct (Metadata head) as [metadata|]; [|discriminate Hm].
  cbn [mbind option_bind] in Hm. cbn [getitem].
  change ((mret metadata : M s3 _) ?w0) with (Return metadata, w0).
  cbv beta iota. rewrite Hm, Hs. cbn [getitem check_assertions].
  change ((mret h : M s3 _) ?w0) with (Return h, w0). cbv beta iota.
  change ((mret sz : M s3 _) ?w0) with (Return sz, w0). cbv beta iota.
  cbn [expected found]. rewrite !decide_True by reflexivity.
  unfold mbind, M_bind, print, emit. eexists. reflexivity.
Qed.

End Progress.

(** ** [upload_file]: the whole run *)

Section Runs.
Context (s3 : S3Client).
Implicit Types w : world s3.

(** What [split_input_file] has done when the sizes are ones a double
    holds exactly. *)
Lemma split_input_file_summary input temp p content w :
  files w !! input = Some content ->
  Z.of_nat (length content) < 2 ^ 53 -> 0 < p < 2 ^ 53 ->
  exists names pieces w',
    split_input_file s3 input temp p w = (Return names, w')
    /\ length pieces = length names
    /\ NoDup names
    /\ dirs w' = dirs w /\ tmp_names w' = tmp_names w
    /\ remote w' = remote w
    /\ trace w' = trace w ++ zip_with Write names pieces
    /\ files w'
       = fold_left (fun fs e => <[e.1 := e.2]> fs) (zip names pieces)
                   (files w)
    /\ Forall2 (fun name piece => files w' !! name = Some piece) names pieces
    /\ concat pieces = content.
Proof.
  intros Hfile Hsize Hp.
  destruct (split_input_file s3 input temp p w) as [r w'] eqn:Erun.
  set (len := Z.of_nat (length content)) in *.
  set (n := (len + p - 1) / p).
  assert (Hcount : count_file_pieces s3 len p w = (Return n, w))
    by (apply count_file_pieces_exact; lia).
  destruct (split_input_file_spec _ _ _ _ _ _ _ Erun)
    as [(e & -> & ->)|
        (content' & n' & pcs & Hf' & Hc' & -> & Hlen & Hgr & Hd & Ht & Hr
         & Htr & Hfs)].
  { exfalso. revert Erun.
    unfold split_input_file, mbind, M_bind, getsize, open_rb.
    rewrite Hfile. fold len. rewrite Hcount, Hfile.
    destruct (write_file_pieces_run s3 input temp p n (range n) content
                [] w) as (? & ? & -> & _). discriminate. }
  rewrite Hfile in Hf'. injection Hf' as <-. fold len in Hc'.
  rewrite Hcount in Hc'. injection Hc' as <-.
  pose proof (FloatDivision.ceil_bounds len p ltac:(lia)) as [Hlo Hhi].
  fold n in Hlo, Hhi.
  assert (Hn : 0 <= n) by (apply Z.div_pos; lia).
  set (names := map (file_piece_name input temp n) (range n)) in *.
  specialize (Hgr ltac:(lia)).
  assert (Hnd : NoDup names) by apply file_piece_names_NoDup.
  exists names, pcs, w'. split; [reflexivity|]. split; [exact Hlen|].
  split; [exact Hnd|]. split; [exact Hd|]. split; [exact Ht|].
  split; [exact Hr|]. split; [exact Htr|]. split; [exact Hfs|]. split.
  - apply Forall2_same_length_lookup. split; [symmetry; exact Hlen|].
    intros i name piece Hi Hpi. rewrite Hfs.
    apply (written_lookup _ _ i).
    + rewrite fst_zip by lia. exact Hnd.
    + apply lookup_zip_with_Some. eauto.
  - rewrite Hgr, groups_concat. apply take_ge.
    assert (length content <= Z.to_nat n * Z.to_nat p)%nat; [|lia].
    subst len. nia.
Qed.

(** The [finally] block of [upload_file] in full. *)
Lemma upload_file_finally_run temp keep w r w' :
  upload_file_finally s3 temp keep w = (r, w') ->
  temp ∈ dirs w ->
  r = Return tt /\ remote w' = remote w /\ tmp_names w' = tmp_names w
  /\ trace w' = trace w ++ cleanup_events temp keep
  /\ (if keep then dirs w' = dirs w /\ files w' = files w
      else dirs w' = dirs w ∖ {[temp]}
           /\ files w'
              = filter (fun entry => under temp entry.1 = false) (files w)).
Proof.
  unfold upload_file_finally. destruct keep; cbn [negb].
  - intros [= <- <-] _. cbn. repeat split; reflexivity.
  - unfold mbind, M_bind, print, emit, rmtree. cbn [dirs].
    intros H Hin. rewrite bool_decide_eq_true_2 in H by exact Hin.
    injection H as <- <-. cbn. rewrite <- !app_assoc.
    repeat split; reflexivity.
Qed.


Lemma upload_file_run bucket original p keep w r w' dir w1 :
  mkdtemp s3 w = (Return dir, w1) ->
  upload_file s3 bucket original p keep w = (r, w') ->
  exists wb,
    upload_file_try s3 bucket original dir p w1 = (r, wb)
    /\ upload_file_finally s3 dir keep wb = (Return tt, w')
    /\ (dir ∈ dirs wb) /\ dirs wb = {[dir]} ∪ dirs w /\ (dir ∉ dirs w)
    /\ files w1 = files w /\ remote w1 = remote w
    /\ trace w1 = trace w ++ [Mkdtemp dir].
Proof.
  intros Em H. unfold upload_file, mbind, M_bind in H. rewrite Em in H.
  destruct (mkdtemp_spec _ _ _ _ Em)
    as (Hf1 & Hr1 & [(e & [=] & _)|(dir' & [= <-] & Hus & Hd1 & Htr1)]).
  unfold try_finally in H.
  destruct (upload_file_try s3 bucket original dir p w1) as [rb wb] eqn:Et.
  destruct (upload_file_finally s3 dir keep wb) as [rf wf] eqn:Ef.
  assert (Hdb : dirs wb = {[dir]} ∪ dirs w)
    by (rewrite (upload_file_try_dirs _ _ _ _ _ _ _ _ Et); exact Hd1).
  assert (Hin : dir ∈ dirs wb).
  { rewrite Hdb. apply elem_of_union. left. apply elem_of_singleton.
    reflexivity. }
  destruct (upload_file_finally_spec _ _ _ _ _ _ Ef Hin) as (-> & _).
  injection H as <- <-. exists wb. split; [reflexivity|].
  split; [exact Ef|]. split; [exact Hin|]. split; [exact Hdb|].
  split; [|auto].
  unfold usable in Hus. apply andb_true_iff in Hus as [Hus _].
  apply negb_true_iff, bool_decide_eq_false in Hus. exact Hus.
Qed.

(** The [try] block of [upload_file]: either the split fails and nothing
    has happened, or the pieces are handed to [upload_file_pieces] with the
    digest and the size of the source. *)
Lemma upload_file_try_split bucket original temp p w r w' :
  upload_file_try s3 bucket original temp p w = (r, w') ->
  (exists e,
     split_input_file s3 original temp p w = (Raise e, w)
     /\ r = Raise e /\ w' = w)
  \/ exists content names ws,
       files w !! original = Some content
       /\ files ws !! original = Some content
       /\ split_input_file s3 original temp p w = (Return names, ws)
       /\ upload_file_pieces s3 bucket (basename original)
            (md5_base64 content) (Z.of_nat (length content)) names ws
          = (r, w').
Proof.
  unfold upload_file_try, mbind, M_bind.
  destruct (split_input_file s3 original temp p w) as [rs ws] eqn:Es.
  destruct (split_input_file_spec _ _ _ _ _ _ _ Es)
    as [(e & -> & ->)|
        (content & n & pcs & Hf & _ & -> & Hlen & _ & _ & _ & _ & _ & Hfs)].
  { intros [= <- <-]. left. eauto. }
  assert (Hsrc : files ws !! original = Some content).
  { rewrite Hfs, written_other; [exact Hf|].
    rewrite fst_zip by (rewrite Hlen; reflexivity).
    apply file_piece_names_fresh. }
  rewrite (get_file_hash_content s3 original default_algorithm
             (HashAlgorithm MD5.block_size MD5.digest) content ws);
    [|reflexivity|reflexivity|exact Hsrc].
  unfold getsize. rewrite Hsrc. intros H. right.
  exists content, (map (file_piece_name original temp n) (range n)), ws.
  split; [exact Hf|]. split; [exact Hsrc|]. split; [reflexivity|exact H].
Qed.

Lemma file_piece_name_under input temp n i :
  0 <= i -> under temp (file_piece_name input temp n i) = true.
Proof.
  intros Hi. unfold under. rewrite file_piece_name_shape by exact Hi.
  apply prefix_app.
Qed.

(** The [try] block of [upload_file] touches no file outside the
    temporary directory. *)
Lemma upload_file_try_files bucket original temp p w r w' path :
  upload_file_try s3 bucket original temp p w = (r, w') ->
  under temp path = false -> files w' !! path = files w !! path.
Proof.
  intros H Hout.
  destruct (upload_file_try_split _ _ _ _ _ _ _ H)
    as [(e & _ & _ & ->)|(content & names & ws & _ & _ & Hs & Hp)];
    [reflexivity|].
  apply upload_file_pieces_anatomy in Hp.
  destruct Hp as (reply & rest & (-> & _) & _).
  destruct (split_input_file_spec _ _ _ _ _ _ _ Hs)
    as [(e & [=] & _)|
        (c & n & pcs & _ & _ & [= ->] & Hlen & _ & _ & _ & _ & _ & ->)].
  apply written_other. rewrite fst_zip by (rewrite Hlen; reflexivity).
  intros Hin. apply list_elem_of_fmap in Hin as (i & -> & Hi).
  apply range_bounds in Hi.
  rewrite file_piece_name_under in Hout by lia. discriminate.
Qed.


(** The events of a run of [upload_file], by the way it goes. *)
Lemma upload_file_events bucket original p keep w r w' :
  upload_file s3 bucket original p keep w = (r, w') ->
  (trace w' = trace w /\ exists e, r = Raise e)
  \/ exists dir w1,
       mkdtemp s3 w = (Return dir, w1)
       /\ ((exists e,
              split_input_file s3 original dir p w1 = (Raise e, w1)
              /\ r = Raise e
              /\ trace w'
                 = trace w ++ Mkdtemp dir :: cleanup_events dir keep)
           \/ exists content names pieces ws wb,
                files w !! original = Some content
                /\ split_input_file s3 original dir p w1 = (Return names, ws)
                /\ Forall2 (fun name piece => files ws !! name = Some piece)
                           names pieces
                /\ (Z.of_nat (length content) < 2 ^ 53 -> 0 < p < 2 ^ 53 ->
                    concat pieces = content)
                /\ upload_file_pieces s3 bucket (basename original)
                     (md5_base64 content) (Z.of_nat (length content))
                     names ws
                   = (r, wb)
                /\ trace ws
                   = trace w ++ Mkdtemp dir :: zip_with Write names pieces
                /\ trace w' = trace wb ++ cleanup_events dir keep).
Proof.
  intros Erun.
  destruct (mkdtemp s3 w) as [[dir|e] w1] eqn:Em.
  2:{ left. unfold upload_file, mbind, M_bind in Erun. rewrite Em in Erun.
      injection Erun as <- <-.
      destruct (mkdtemp_spec _ _ _ _ Em)
        as (_ & _ & [(e' & _ & _ & Htr)|(dir & [=] & _)]). eauto. }
  right. exists dir, w1. split; [reflexivity|].
  destruct (upload_file_run _ _ _ _ _ _ _ _ _ Em Erun)
    as (wb & Ht & Hfin & Hin & _ & _ & Hf1 & Hr1 & Htr1).
  destruct (upload_file_finally_run _ _ _ _ _ Hfin Hin)
    as (_ & _ & _ & Htr & _).
  destruct (upload_file_try_split _ _ _ _ _ _ _ Ht)
    as [(e & Hs & -> & ->)|(content & names & ws & Hf & Hsrc & Hs & Hup)].
  { left. exists e. split; [exact Hs|]. split; [reflexivity|].
    rewrite Htr, Htr1, <- app_assoc. reflexivity. }
  right.
  destruct (split_input_file_spec _ _ _ _ _ _ _ Hs)
    as [(e & [=] & _)|
        (content' & n & pcs & Hf' & Hc & Hnames & Hlen & Hgr & _ & _ & _
         & Htrs & Hfs)].
  rewrite Hf in Hf'. injection Hf' as <-. injection Hnames as Hnames.
  exists content, names, pcs, ws, wb.
  split; [rewrite <- Hf1; exact Hf|]. split; [exact Hs|]. split.
  { subst names. apply Forall2_same_length_lookup.
    split; [symmetry; exact Hlen|].
    intros i name piece Hi Hpi. rewrite Hfs.
    apply (written_lookup _ _ i).
    - rewrite fst_zip by lia. apply file_piece_names_NoDup.
    - apply lookup_zip_with_Some. eauto. }
  split.
  { intros Hsize Hp.
    rewrite (count_file_pieces_exact s3 _ p w1) in Hc by lia.
    injection Hc as <-. rewrite (Hgr ltac:(lia)), groups_concat.
    apply take_ge.
    pose proof (FloatDivision.ceil_bounds (Z.of_nat (length content)) p
                  ltac:(lia)) as [Hlo Hhi].
    assert (0 <= (Z.of_nat (length content) + p - 1) / p)
      by (apply Z.div_pos; lia).
    nia. }
  split; [exact Hup|]. split; [|exact Htr].
  rewrite Htrs, Htr1, <- app_assoc, Hnames. reflexivity.
Qed.

End Runs.

Section RunTheorems.
Context (s3 : S3Client).
Implicit Types w : world s3.

(** A source that is missing, or a piece size of zero, stops [upload_file]
    before anything is sent: the error of [split_input_file] is the outcome,
    the remote store is as it was, and the temporary directory is made and
    then dealt with by the [finally] block; these are the only events. *)
Theorem upload_file_rejects_before_the_store bucket original p keep w dir w1
    e :
  mkdtemp s3 w = (Return dir, w1) ->
  (files w !! original = None /\ e = OSError original)
  \/ (p = 0 /\ e = ZeroDivisionError
      /\ exists content,
           files w !! original = Some content
           /\ Z.of_nat (length content) < 2 ^ 53) ->
  exists w',
    upload_file s3 bucket original p keep w = (Raise e, w')
    /\ remote w' = remote w
    /\ trace w' = trace w ++ Mkdtemp dir :: cleanup_events dir keep.
Proof.
  intros Em Hcase.
  destruct (upload_file s3 bucket original p keep w) as [r w'] eqn:Erun.
  destruct (upload_file_run s3 _ _ _ _ _ _ _ _ _ Em Erun)
    as (wb & Ht & Hfin & Hin & _ & _ & Hf1 & Hr1 & Htr1).
  assert (Hsplit : split_input_file s3 original dir p w1 = (Raise e, w1)).
  { unfold split_input_file, mbind, M_bind, getsize.
    destruct Hcase as [[Hf ->]|(-> & -> & content & Hf & Hs)];
      rewrite Hf1, Hf; [reflexivity|].
    rewrite count_file_pieces_zero by lia. reflexivity. }
  unfold upload_file_try, mbind, M_bind in Ht. rewrite Hsplit in Ht.
  injection Ht as <- <-.
  destruct (upload_file_finally_run s3 _ _ _ _ _ Hfin Hin)
    as (_ & Hr & _ & Htr & _).
  exists w'. split; [reflexivity|]. split; [congruence|].
  rewrite Htr, Htr1, <- app_assoc. reflexivity.
Qed.

(** Without [keep_file_pieces], [upload_file] leaves the local files and
    directories exactly as it found them, however the run ends: the source
    is untouched and everything it wrote is gone with the temporary
    directory.  (The directory is new, so nothing was under it.) *)
Theorem upload_file_restores_the_files bucket original p w r w' dir w1 :
  mkdtemp s3 w = (Return dir, w1) ->
  (forall path, under dir path = true -> files w !! path = None) ->
  upload_file s3 bucket original p false w = (r, w') ->
  files w' = files w /\ dirs w' = dirs w.
Proof.
  intros Em Hnew Erun.
  destruct (upload_file_run s3 _ _ _ _ _ _ _ _ _ Em Erun)
    as (wb & Ht & Hfin & Hin & Hdb & Hnotin & Hf1 & _).
  destruct (upload_file_finally_run s3 _ _ _ _ _ Hfin Hin)
    as (_ & _ & _ & _ & Hd & Hf).
  split.
  - apply map_eq. intros path. rewrite Hf.
    destruct (under dir path) eqn:Hu.
    + rewrite (Hnew path Hu). apply map_lookup_filter_None. right.
      intros content _ Hc. change (under dir path = false) in Hc. congruence.
    + rewrite <- Hf1, <- (upload_file_try_files s3 _ _ _ _ _ _ _ _ Ht Hu).
      destruct (files wb !! path) as [content|] eqn:E.
      * apply map_lookup_filter_Some. split; [exact E|]. exact Hu.
      * apply map_lookup_filter_None. left. exact E.
  - rewrite Hd, Hdb. apply set_eq. intros x.
    rewrite elem_of_difference, elem_of_union, !elem_of_singleton.
    split; [tauto|]. intros Hx. split; [tauto|]. intros ->. contradiction.
Qed.

(** With [keep_file_pieces], the pieces outlive the run, however it ends:
    afterwards the temporary directory is still there, each returned name
    holds its piece, the pieces put end to end are the source, and the
    source itself is as before. *)
Theorem kept_pieces_are_the_file bucket original p content w r w' dir w1 :
  mkdtemp s3 w = (Return dir, w1) ->
  files w !! original = Some content ->
  Z.of_nat (length content) < 2 ^ 53 -> 0 < p < 2 ^ 53 ->
  upload_file s3 bucket original p true w = (r, w') ->
  (dir ∈ dirs w')
  /\ files w' !! original = Some content
  /\ exists names pieces,
       Forall2 (fun name piece =>
                  under dir name = true /\ files w' !! name = Some piece)
               names pieces
       /\ concat pieces = content.
Proof.
  intros Em Hfile Hsize Hp Erun.
  destruct (upload_file_run s3 _ _ _ _ _ _ _ _ _ Em Erun)
    as (wb & Ht & Hfin & Hin & Hdb & Hnotin & Hf1 & _).
  destruct (upload_file_finally_run s3 _ _ _ _ _ Hfin Hin)
    as (_ & _ & _ & _ & Hd & Hf).
  rewrite Hd, Hf. split; [exact Hin|].
  assert (Hfile1 : files w1 !! original = Some content)
    by (rewrite Hf1; exact Hfile).
  destruct (split_input_file_summary s3 original dir p content w1 Hfile1
              Hsize Hp)
    as (names & pieces & ws & Hs & Hlen & Hnd & _ & _ & _ & _ & _ & F2
        & Hcat).
  destruct (upload_file_try_split s3 _ _ _ _ _ _ _ Ht)
    as [(e & Hs' & _)|(content' & names' & ws' & Hf' & Hsrc & Hs' & Hup)];
    rewrite Hs in Hs'; [discriminate|].
  injection Hs' as <- <-.
  rewrite Hfile1 in Hf'. injection Hf' as <-.
  apply upload_file_pieces_anatomy in Hup.
  destruct Hup as (reply & rest & (-> & _) & _).
  split; [exact Hsrc|].
  exists names, pieces. split; [|exact Hcat].
  destruct (split_input_file_spec _ _ _ _ _ _ _ Hs)
    as [(e & [=] & _)|(c & n & pcs & _ & _ & [= ->] & _)].
  apply Forall2_same_length_lookup. split; [symmetry; exact Hlen|].
  intros i name piece Hi Hpi. split.
  - apply list_lookup_fmap_Some in Hi as (j & -> & Hj).
    apply list_elem_of_lookup_2, range_bounds in Hj.
    apply file_piece_name_under. lia.
  - rewrite Forall2_lookup in F2. specialize (F2 i).
    rewrite Hi, Hpi in F2. inversion F2. assumption.
Qed.

End RunTheorems.

Lemma target_addressed b k u (e : event) :
  addressed b k u e -> forall bk, target e = Some bk -> bk = (b, k).
Proof.
  destruct e; cbn; try discriminate; try contradiction;
    intros H bk [= <-]; destruct H as (-> & -> & ?) || destruct H as (-> & ->);
    reflexivity.
Qed.

Lemma target_writes (names : list string) (pcs : list (list byte)) :
  Forall (fun e => target e = None) (zip_with Write names pcs).
Proof.
  revert pcs. induction names as [|n names IH]; intros [|p pcs]; cbn;
    try constructor; auto.
Qed.

Lemma target_cleanup dir keep :
  Forall (fun e => target e = None) (cleanup_events dir keep).
Proof. destruct keep; repeat constructor. Qed.

Section RunRequests.
Context (s3 : S3Client).
Implicit Types w : world s3.

Lemma completion_acknowledged b k h sz names w r w' :
  upload_file_pieces s3 b k h sz names w = (r, w') ->
  exists reply rest,
    trace w' = trace w
                 ++ CreateMultipartUpload b k {[ "md5" := h ]} reply :: rest
    /\ forall b' k' u parts res,
         CompleteMultipartUpload b' k' u parts res ∈ rest ->
         Forall2 (acknowledges b k u (files w) rest) (enumerate names) parts.
Proof.
  intros H. apply upload_file_pieces_anatomy in H.
  destruct H as (reply & rest & (_ & _ & _ & Tr) & H). exists reply, rest.
  split; [exact Tr|]. intros b' k' u parts res Hin.
  destruct reply as [response|code]; [|destruct H as [-> _]; inversion Hin].
  destruct (UploadId response) as [u0|];
    [|destruct H as [-> _]; inversion Hin].
  destruct H as (ups & tail & fin & chk & assigned & pending
                 & -> & Fu & Hatt & Hcon).
  assert (Hups : CompleteMultipartUpload b' k' u parts res ∉ ups).
  { intros He. rewrite Forall_forall in Fu. exact (Fu _ He). }
  assert (Hrest : CompleteMultipartUpload b' k' u parts res ∉ fin ++ chk).
  { intros He.
    unfold concluded in Hcon. destruct (assigned ≫= ETag).
    - destruct Hcon as [-> (hreply & told & -> & Fp & _)].
      apply elem_of_cons in He as [[=]|He].
      rewrite Forall_forall in Fp. exact (Fp _ He).
    - destruct Hcon as (ares & -> & Hres).
      apply elem_of_app in He as [He|He].
      + apply elem_of_app in He as [He|He].
        * apply list_elem_of_In in He. destruct He as [[=]|[[=]|[]]].
        * destruct ares; apply list_elem_of_In in He;
            [destruct He as [[=]|[]]|destruct He].
      + destruct ares as [[]|c]; [destruct pending|].
        * destruct Hres as [_ ->]. inversion He.
        * destruct Hres as (hreply & told & -> & Fp & _).
          apply elem_of_cons in He as [[=]|He].
          rewrite Forall_forall in Fp. exact (Fp _ He).
        * destruct Hres as [_ ->]. inversion He. }
  apply elem_of_app in Hin as [Hin|Hin]; [contradiction|].
  apply elem_of_app in Hin as [Hin|Hin];
    [|exfalso; apply Hrest; exact Hin].
  destruct Hatt as [(-> & _)|(parts' & res' & -> & F2 & _)];
    [inversion Hin|].
  apply list_elem_of_In in Hin. destruct Hin as [[=]|[Hin|[]]].
  injection Hin as ? ? ? ? ?; subst.
  eapply Forall2_impl; [exact F2|].
  intros entry p (Hn & body & Hb & Hup). split; [exact Hn|].
  exists body. split; [exact Hb|]. apply elem_of_app. left. exact Hup.
Qed.

Lemma upload_file_pieces_targets b k h sz names w r w' :
  upload_file_pieces s3 b k h sz names w = (r, w') ->
  exists evs,
    trace w' = trace w ++ evs
    /\ Forall (fun e => forall bk, target e = Some bk -> bk = (b, k)) evs.
Proof.
  intros H. apply upload_file_pieces_replay in H.
  destruct H as (reply & rest & (_ & _ & _ & Tr) & H).
  eexists. split; [exact Tr|].
  constructor; [intros bk [= <-]; reflexivity|].
  destruct reply as [response|code]; [|destruct H as [-> _]; constructor].
  destruct (UploadId response) as [u|]; [|destruct H as [-> _]; constructor].
  destruct H as (replies & tail & fin & chk & assigned & pending
                 & -> & Hout & Hcon).
  eapply Forall_impl; [|intros e; apply (target_addressed b k u)].
  apply Forall_app. split; [apply part_requests_addressed|].
  apply Forall_app. split.
  - destruct (parts_outcome _ _ _ _) as [[parts|e]|]; [| |contradiction].
    + destruct Hout as (res & -> & _). repeat constructor.
    + destruct Hout as (-> & _). constructor.
  - eapply concluded_addressed. exact Hcon.
Qed.

End RunRequests.

Section RunRequestTheorems.
Context (s3 : S3Client).
Implicit Types w : world s3.

(** What is uploaded is the file.  Whenever a run of [upload_file] asks
    the store to complete, the listed parts stand for bodies that, put end
    to end in the order of the list, are the content of the source: each
    part carries the number and the [ETag] of an [UploadPart] request of
    the run that sent its body with the MD5 digest of that body. *)
Theorem uploaded_parts_are_the_file bucket original p keep content w r w' :
  files w !! original = Some content ->
  Z.of_nat (length content) < 2 ^ 53 -> 0 < p < 2 ^ 53 ->
  upload_file s3 bucket original p keep w = (r, w') ->
  exists evs,
    trace w' = trace w ++ evs
    /\ forall b k u parts res,
         CompleteMultipartUpload b k u parts res ∈ evs ->
         exists bodies,
           concat bodies = content
           /\ Forall2
                (fun part body =>
                   UploadPart bucket (basename original) u (PartNumber part)
                     body (md5_base64 body)
                     (Ok {| part_ETag := Some (Part_ETag part) |}) ∈ evs)
                parts bodies.
Proof.
  intros Hfile Hsize Hp Erun.
  destruct (upload_file_events s3 _ _ _ _ _ _ _ Erun)
    as [(Htr & _)|(dir & w1 & Em & [(e & _ & _ & Htr)|
         (content' & names & pieces & ws & wb & Hf & Hs & F2 & Hcat & Hup
          & Htrs & Htr)])].
  - exists []. rewrite app_nil_r. split; [exact Htr|].
    intros b k u parts res Hin. inversion Hin.
  - eexists. split; [exact Htr|]. intros b k u parts res Hin. exfalso.
    apply elem_of_cons in Hin as [[=]|Hin].
    pose proof (target_cleanup dir keep) as F. rewrite Forall_forall in F.
    specialize (F _ Hin). discriminate.
  - rewrite Hfile in Hf. injection Hf as <-. specialize (Hcat Hsize Hp).
    apply completion_acknowledged in Hup.
    destruct Hup as (reply & rest & Trb & Hack).
    eexists. split.
    { rewrite Htr, Trb, Htrs, <- !app_assoc. cbn [app].
      rewrite <- ?app_assoc. reflexivity. }
    intros b k u parts res Hin.
    assert (Hrest : CompleteMultipartUpload b k u parts res ∈ rest).
    { apply elem_of_cons in Hin as [[=]|Hin].
      apply elem_of_app in Hin as [Hin|Hin].
      { pose proof (target_writes names pieces) as F.
        rewrite Forall_forall in F. specialize (F _ Hin). discriminate. }
      apply elem_of_cons in Hin as [[=]|Hin].
      apply elem_of_app in Hin as [Hin|Hin]; [exact Hin|].
      pose proof (target_cleanup dir keep) as F. rewrite Forall_forall in F.
      specialize (F _ Hin). discriminate. }
    specialize (Hack _ _ _ _ _ Hrest).
    exists pieces. split; [exact Hcat|].
    pose proof (Forall2_length _ _ _ Hack) as Hl1.
    pose proof (Forall2_length _ _ _ F2) as Hl2.
    rewrite enumerate_length in Hl1.
    apply Forall2_same_length_lookup. split; [lia|].
    intros i part piece Hi Hpi.
    assert (is_Some (names !! i)) as [name Hn].
    { apply lookup_lt_is_Some. apply lookup_lt_Some in Hi. lia. }
    rewrite Forall2_lookup in Hack. specialize (Hack i).
    rewrite (enumerate_lookup _ _ _ Hn), Hi in Hack.
    inversion Hack as [? ? (Hnum & body & Hb & Hev)|]; subst.
    cbn [fst snd] in Hnum, Hb, Hev.
    rewrite Forall2_lookup in F2. specialize (F2 i).
    rewrite Hn, Hpi in F2. inversion F2 as [? ? Hpiece|]; subst.
    rewrite Hpiece in Hb. injection Hb as <-. rewrite Hnum.
    apply elem_of_cons. right. apply elem_of_app. right.
    apply elem_of_cons. right. apply elem_of_app. left. exact Hev.
Qed.

(** The object is stored under the base name of the path: every request of
    a run of [upload_file] names the bucket it was given and, as key, the
    part of the source path after its last slash, so the key never holds a
    slash and two sources with one base name share a key. *)
Theorem requests_name_the_base_name bucket original p keep w r w' :
  upload_file s3 bucket original p keep w = (r, w') ->
  has_sep (basename original) = false
  /\ exists evs,
       trace w' = trace w ++ evs
       /\ Forall (fun e => forall bk,
                    target e = Some bk -> bk = (bucket, basename original))
                 evs.
Proof.
  intros Erun. split; [apply has_sep_basename|].
  destruct (upload_file_events s3 _ _ _ _ _ _ _ Erun)
    as [(Htr & _)|(dir & w1 & Em & [(e & _ & _ & Htr)|
         (content' & names & pieces & ws & wb & Hf & Hs & F2 & Hcat & Hup
          & Htrs & Htr)])].
  - exists []. rewrite app_nil_r. split; [exact Htr|constructor].
  - eexists. split; [exact Htr|]. constructor; [discriminate|].
    eapply Forall_impl; [apply target_cleanup|].
    intros e0 -> bk [=].
  - apply upload_file_pieces_targets in Hup.
    destruct Hup as (evs & Trb & F).
    eexists. split.
    { rewrite Htr, Trb, Htrs, <- !app_assoc. cbn [app].
      rewrite <- ?app_assoc. reflexivity. }
    constructor; [discriminate|]. apply Forall_app. split.
    { eapply Forall_impl; [apply target_writes|]. intros e0 -> bk [=]. }
    apply Forall_app. split; [exact F|].
    eapply Forall_impl; [apply target_cleanup|]. intros e0 -> bk [=].
Qed.

(** With a store that takes whatever it is sent and then shows an object
    with the digest and the length of the source, a source of a size a
    double holds exactly and a piece size of that kind, [upload_file]
    returns normally. *)
Theorem obliging_store_upload_succeeds bucket original p keep content w
    dir w1 :
  mkdtemp s3 w = (Return dir, w1) ->
  files w !! original = Some content ->
  Z.of_nat (length content) < 2 ^ 53 -> 0 < p < 2 ^ 53 ->
  obliging s3 bucket (basename original) (md5_base64 content)
           (Z.of_nat (length content)) ->
  exists w', upload_file s3 bucket original p keep w = (Return tt, w').
Proof.
  intros Em Hfile Hsize Hp Hob.
  destruct (upload_file s3 bucket original p keep w) as [r w'] eqn:Erun.
  exists w'. f_equal.
  destruct (upload_file_run s3 _ _ _ _ _ _ _ _ _ Em Erun)
    as (wb & Ht & _ & _ & _ & _ & Hf1 & _).
  assert (Hfile1 : files w1 !! original = Some content)
    by (rewrite Hf1; exact Hfile).
  destruct (split_input_file_summary s3 original dir p content w1 Hfile1
              Hsize Hp)
    as (names & pieces & ws & Hs & _ & _ & _ & _ & _ & _ & _ & F2 & _).
  destruct (upload_file_try_split s3 _ _ _ _ _ _ _ Ht)
    as [(e & Hs' & _)|(content' & names' & ws' & Hf' & _ & Hs' & Hup)];
    rewrite Hs in Hs'; [discriminate|].
  injection Hs' as <- <-. rewrite Hfile1 in Hf'. injection Hf' as <-.
  destruct (upload_file_pieces_progress s3 bucket (basename original)
              (md5_base64 content) (Z.of_nat (length content)) names ws Hob)
    as (w'' & Hok).
  { apply Forall_forall. intros name Hin.
    apply list_elem_of_lookup in Hin as [i Hi].
    rewrite Forall2_lookup in F2. specialize (F2 i). rewrite Hi in F2.
    inversion F2. eauto. }
  rewrite Hok in Hup. injection Hup as <- _. reflexivity.
Qed.

(** A negative piece size is not refused either: no piece is written and
    no part is sent, and the run goes on to open a session and to ask for
    the completion of an upload without parts. *)
Theorem negative_piece_size_uploads_nothing bucket original p keep content
    w r w' dir w1 :
  mkdtemp s3 w = (Return dir, w1) ->
  files w !! original = Some content ->
  Z.of_nat (length content) < 2 ^ 53 -> - 2 ^ 53 < p < 0 ->
  upload_file s3 bucket original p keep w = (r, w') ->
  exists reply rest,
    trace w'
    = trace w
        ++ Mkdtemp dir
        :: CreateMultipartUpload bucket (basename original)
             {[ "md5" := md5_base64 content ]} reply
        :: rest
    /\ forall response u,
         reply = Ok response -> UploadId response = Some u ->
         exists creply rest',
           rest = Print "Finished uploading."
                  :: CompleteMultipartUpload bucket (basename original) u []
                       creply
                  :: rest'.
Proof.
  intros Em Hfile Hsize Hp Erun.
  destruct (upload_file_run s3 _ _ _ _ _ _ _ _ _ Em Erun)
    as (wb & Ht & Hfin & Hin & _ & _ & Hf1 & _ & Htr1).
  destruct (upload_file_finally_run s3 _ _ _ _ _ Hfin Hin)
    as (_ & _ & _ & Htr & _).
  assert (Hfile1 : files w1 !! original = Some content)
    by (rewrite Hf1; exact Hfile).
  assert (Hs : split_input_file s3 original dir p w1 = (Return [], w1)).
  { unfold split_input_file, mbind, M_bind, getsize, open_rb.
    rewrite Hfile1.
    destruct (count_file_pieces_negative s3 (Z.of_nat (length content))
                (- p) w1) as (n & Hc & Hn); [lia|lia|].
    rewrite Z.opp_involutive in Hc. rewrite Hc, Hfile1.
    unfold range. replace (Z.to_nat n) with 0%nat by lia. reflexivity. }
  destruct (upload_file_try_split s3 _ _ _ _ _ _ _ Ht)
    as [(e & Hs' & _)|(content' & names' & ws' & Hf' & _ & Hs' & Hup)];
    rewrite Hs in Hs'; [discriminate|].
  injection Hs' as <- <-. rewrite Hfile1 in Hf'. injection Hf' as <-.
  apply upload_file_pieces_no_pieces in Hup.
  destruct Hup as (reply & rest & Trb & Hrest).
  exists reply, (rest ++ cleanup_events dir keep). split.
  - rewrite Htr, Trb, Htr1, <- !app_assoc. reflexivity.
  - intros response u Hr Hu.
    destruct (Hrest response u Hr Hu) as (creply & rest' & ->).
    exists creply, (rest' ++ cleanup_events dir keep). reflexivity.
Qed.

End RunRequestTheorems.

Lemma mkdtemp_test_world (s : script) :
  exists w1,
    mkdtemp (scripted s) (test_world s) = (Return "/tmp/tmpA", w1).
Proof. eexists. reflexivity. Qed.

Lemma test_world_nothing_under_tmpA (s : script) (path : string) :
  under "/tmp/tmpA" path = true -> files (test_world s) !! path = None.
Proof.
  intros Hu. apply lookup_singleton_None. intros <-.
  vm_compute in Hu. discriminate.
Qed.

Lemma healthy_obliging :
  obliging (scripted healthy) "bucket" (basename SMALL_TESTFILE_PATH)
           (md5_base64 SMALL_TESTFILE_CONTENT)
           (Z.of_nat (length SMALL_TESTFILE_CONTENT)).
Proof.
  split; [|split; [|split]].
  - intros st. do 3 eexists. split; reflexivity.
  - intros u n body md5 st. do 3 eexists. split; reflexivity.
  - intros u parts st. do 3 eexists. split; reflexivity.
  - intros st. do 2 eexists. split; [reflexivity|]. split; [|reflexivity].
    cbn [healthy head_reply Metadata mbind option_bind].
    apply lookup_singleton_eq.
Qed.

Lemma upload_file_rejects_before_the_store_witness :
  (upload_file (scripted healthy) "bucket" "./tests/missing" 20 false
               (test_world healthy)).1
  = Raise (OSError "./tests/missing").
Proof.
  destruct (mkdtemp_test_world healthy) as [w1 Em].
  destruct (upload_file_rejects_before_the_store (scripted healthy) "bucket"
              "./tests/missing" 20 false (test_world healthy) "/tmp/tmpA" w1
              (OSError "./tests/missing") Em)
    as (w' & Hrun & _).
  - left. split; [vm_compute; reflexivity|reflexivity].
  - rewrite Hrun. reflexivity.
Defined.

Lemma upload_file_restores_the_files_witness :
  let run := upload_file (scripted refusing) "bucket" SMALL_TESTFILE_PATH 20
               false (test_world refusing) in
  files run.2 = {[ SMALL_TESTFILE_PATH := SMALL_TESTFILE_CONTENT ]}
  /\ dirs run.2 = ∅.
Proof.
  intros run. destruct (mkdtemp_test_world refusing) as [w1 Em].
  apply (upload_file_restores_the_files (scripted refusing) "bucket"
           SMALL_TESTFILE_PATH 20 (test_world refusing) run.1 run.2
           "/tmp/tmpA" w1 Em (test_world_nothing_under_tmpA refusing)
           (surjective_pairing _)).
Defined.

Lemma kept_pieces_are_the_file_witness :
  let run := upload_file (scripted refusing) "bucket" SMALL_TESTFILE_PATH 20
               true (test_world refusing) in
  exists names pieces,
    Forall2 (fun name piece => files run.2 !! name = Some piece) names pieces
    /\ concat pieces = SMALL_TESTFILE_CONTENT.
Proof.
  intros run. destruct (mkdtemp_test_world refusing) as [w1 Em].
  destruct (kept_pieces_are_the_file (scripted refusing) "bucket"
              SMALL_TESTFILE_PATH 20 SMALL_TESTFILE_CONTENT
              (test_world refusing) run.1 run.2 "/tmp/tmpA" w1 Em)
    as (_ & _ & names & pieces & F & Hcat).
  - reflexivity.
  - vm_compute. reflexivity.
  - lia.
  - apply surjective_pairing.
  - exists names, pieces. split; [|exact Hcat].
    eapply Forall2_impl; [exact F|]. intros name piece [_ H]. exact H.
Defined.

Lemma uploaded_parts_are_the_file_witness :
  let run := upload_file (scripted healthy) "bucket" SMALL_TESTFILE_PATH 20
               false (test_world healthy) in
  exists bodies : list (list byte),
    length bodies = 3%nat /\ concat bodies = SMALL_TESTFILE_CONTENT.
Proof.
  intros run.
  destruct (uploaded_parts_are_the_file (scripted healthy) "bucket"
              SMALL_TESTFILE_PATH 20 false SMALL_TESTFILE_CONTENT
              (test_world healthy) run.1 run.2)
    as (evs & Htr & H).
  - reflexivity.
  - vm_compute. reflexivity.
  - lia.
  - apply surjective_pairing.
  - destruct (H "bucket" "small_testfile" "upload-1"
                [Part "etag-1" 1; Part "etag-2" 2; Part "etag-3" 3]
                (complete_reply healthy)) as (bodies & Hcat & F).
    + assert (Hev : evs = trace run.2) by (rewrite Htr; reflexivity).
      rewrite Hev. apply list_elem_of_In. vm_compute. do 12 right. left.
      reflexivity.
    + exists bodies. split; [|exact Hcat].
      apply Forall2_length in F. symmetry. exact F.
Defined.

Lemma requests_name_the_base_name_witness :
  let run := upload_file (scripted healthy) "bucket" SMALL_TESTFILE_PATH 20
               false (test_world healthy) in
  Forall (fun e => forall bk,
            target e = Some bk -> bk = ("bucket", "small_testfile"))
         (trace run.2).
Proof.
  intros run.
  destruct (requests_name_the_base_name (scripted healthy) "bucket"
              SMALL_TESTFILE_PATH 20 false (test_world healthy) run.1 run.2
              (surjective_pairing _)) as (_ & evs & Htr & F).
  rewrite Htr. exact F.
Defined.

Lemma obliging_store_upload_succeeds_witness :
  exists w',
    upload_file (scripted healthy) "bucket" SMALL_TESTFILE_PATH 20 false
                (test_world healthy) = (Return tt, w').
Proof.
  destruct (mkdtemp_test_world healthy) as [w1 Em].
  apply (obliging_store_upload_succeeds (scripted healthy) "bucket"
           SMALL_TESTFILE_PATH 20 false SMALL_TESTFILE_CONTENT
           (test_world healthy) "/tmp/tmpA" w1 Em).
  - reflexivity.
  - vm_compute. reflexivity.
  - lia.
  - exact healthy_obliging.
Defined.

Lemma negative_piece_size_uploads_nothing_witness :
  let run := upload_file (scripted healthy) "bucket" SMALL_TESTFILE_PATH
               (- 20) false (test_world healthy) in
  exists reply rest,
    trace run.2
    = Mkdtemp "/tmp/tmpA"
      :: CreateMultipartUpload "bucket" (basename SMALL_TESTFILE_PATH)
           {[ "md5" := md5_base64 SMALL_TESTFILE_CONTENT ]} reply
      :: rest.
Proof.
  intros run. destruct (mkdtemp_test_world healthy) as [w1 Em].
  destruct (negative_piece_size_uploads_nothing (scripted healthy) "bucket"
              SMALL_TESTFILE_PATH (- 20) false SMALL_TESTFILE_CONTENT
              (test_world healthy) run.1 run.2 "/tmp/tmpA" w1 Em)
    as (reply & rest & Htr & _).
  - reflexivity.
  - vm_compute. reflexivity.
  - lia.
  - apply surjective_pairing.
  - exists reply, rest. exact Htr.
Defined.

(** ** Answers to [head_object] that cannot be read *)

Lemma list_end {A} (l : list A) : l = [] \/ exists l' x, l = l' ++ [x].
Proof. induction l as [|x l _] using rev_ind; eauto. Qed.

Section HeadAnswers.
Context (s3 : S3Client).
Implicit Types w : world s3.

Lemma upload_file_pieces_checks_key b k h sz w r w' head told :
  upload_file_pieces_checks s3 b k h sz w = (r, w') ->
  trace w' = trace w ++ HeadObject b k (Ok head) :: told ->
  Metadata head ≫= (.!! "md5") = None \/ ContentLength head = None ->
  r = Raise (KeyError (missing_key head)).
Proof.
  unfold upload_file_pieces_checks, mbind, M_bind, s3_head_object.
  destruct (call s3 _ _ _ _) as [rh w1] eqn:Eh.
  apply call_run in Eh as (res & st & _ & -> & ->).
  destruct res as [head'|code].
  2:{ intros [= <- <-]. cbn [trace]. intros Htr.
      apply app_inv_head in Htr. discriminate. }
  unfold missing_key.
  destruct (Metadata head') as [metadata|] eqn:Em; cbn [getitem].
  2:{ intros [= <- <-]. cbn [trace]. intros Htr.
      apply app_inv_head in Htr. injection Htr as <- _.
      rewrite Em. reflexivity. }
  unfold mret at 1, M_ret at 1.
  destruct (metadata !! "md5") as [found_hash|] eqn:Eh; cbn [getitem].
  2:{ intros [= <- <-]. cbn [trace]. intros Htr.
      apply app_inv_head in Htr. injection Htr as <- _.
      rewrite Em, Eh. reflexivity. }
  unfold mret at 1, M_ret at 1.
  destruct (ContentLength head') as [found_size|] eqn:Es; cbn [getitem].
  2:{ intros [= <- <-]. cbn [trace]. intros Htr.
      apply app_inv_head in Htr. injection Htr as <- _.
      rewrite Em, Eh. reflexivity. }
  intros H Htr Hmiss. exfalso.
  assert (Htr0 : exists more,
            trace w' = trace w ++ HeadObject b k (Ok head') :: more).
  { unfold mret at 1, M_ret at 1 in H.
    match type of H with
    | (let (_, _) := ?m ?w0 in _) = _ =>
        destruct (m w0) as [rc wc] eqn:Ec
    end.
    apply check_assertions_spec in Ec.
    destruct Ec as (told' & (_ & _ & _ & Trc) & _).
    cbn [trace] in Trc.
    destruct rc as [[]|e]; [|injection H as _ <-].
    - unfold print, emit in H. injection H as _ <-. cbn [trace].
      rewrite Trc, <- !app_assoc. cbn [app]. eauto.
    - rewrite Trc, <- !app_assoc. cbn [app]. eauto. }
  destruct Htr0 as (more & Htr0). rewrite Htr0 in Htr.
  apply app_inv_head in Htr. injection Htr as <- _.
  rewrite Em in Hmiss. cbn [mbind option_bind] in Hmiss.
  destruct Hmiss; congruence.
Qed.


Lemma upload_file_pieces_head_key b k h sz names w r w' front head :
  upload_file_pieces s3 b k h sz names w = (r, w') ->
  trace w' = trace w ++ front ++ [HeadObject b k (Ok head)] ->
  Metadata head ≫= (.!! "md5") = None \/ ContentLength head = None ->
  r = Raise (KeyError (missing_key head)).
Proof.
  intros H Htr Hmiss. rewrite app_assoc in Htr.
  apply upload_file_pieces_inv in H.
  destruct H as (reply & w1 & (_ & _ & _ & Tr1) & H).
  assert (Hlast : forall (l : list event) e,
            trace w' = l ++ [e] -> e = HeadObject b k (Ok head)).
  { intros l e He. rewrite He in Htr. apply app_inj_tail in Htr as [_ ->].
    reflexivity. }
  destruct reply as [response|code].
  2:{ destruct H as [_ ->]. apply Hlast in Tr1. discriminate. }
  destruct (UploadId response) as [u|].
  2:{ destruct H as [_ ->]. apply Hlast in Tr1. discriminate. }
  destruct H as (rb & wb & rf & wf & _ & Hf & H).
  apply upload_file_pieces_finally_spec in Hf.
  destruct rf as [[]|e].
  - destruct rb as [a|e].
    + pose proof H as Hc. apply upload_file_pieces_checks_spec in Hc.
      destruct Hc as (hreply & told & (_ & _ & _ & Trc) & Fp & _).
      destruct (list_end told) as [->|(told' & t & ->)].
      * pose proof (Hlast _ _ Trc) as Hh. injection Hh as ->.
        eapply upload_file_pieces_checks_key;
          [exact H|exact Trc|exact Hmiss].
      * exfalso. apply Forall_app in Fp as [_ Fp].
        inversion Fp as [|? ? Ht _]; subst.
        rewrite app_comm_cons, app_assoc in Trc. apply Hlast in Trc.
        subst t. exact Ht.
    + exfalso. destruct H as [_ ->]. cbn [mbind option_bind] in Hf.
      destruct Hf as (res & (_ & _ & _ & Trf) & Hr).
      destruct res as [[]|code]; [|discriminate Hr].
      change (trace wf
              = trace wb
                  ++ [Print ("Exiting program and the upload is incomplete. "
                               +:+ "Aborting multipart upload...");
                      AbortMultipartUpload b k u (Ok tt)]
                  ++ [Print "Upload aborted."]) in Trf.
      rewrite app_assoc in Trf. apply Hlast in Trf. discriminate.
  - exfalso. destruct H as [_ ->].
    destruct (_ ≫= ETag); [destruct Hf as [_ [=]]|].
    destruct Hf as (res & (_ & _ & _ & Trf) & Hr).
    destruct res as [[]|code]; [discriminate Hr|].
    change (trace wf
            = trace wb
                ++ [Print ("Exiting program and the upload is incomplete. "
                             +:+ "Aborting multipart upload...")]
                ++ [AbortMultipartUpload b k u (Err code)]) in Trf.
    rewrite app_assoc in Trf. apply Hlast in Trf. discriminate.
Qed.

(** An answer to [head_object] that lacks the metadata, the [md5] entry
    or the length ends the call with the [KeyError] of the first of these
    that is missing, once the upload has been completed: the request for
    the object is the last event, nothing is compared and nothing is taken
    back. *)
Theorem unreadable_answer_raises_key_error b k h sz names w r w' :
  upload_file_pieces s3 b k h sz names w = (r, w') ->
  exists reply rest,
    trace w' = trace w
                 ++ CreateMultipartUpload b k {[ "md5" := h ]} reply :: rest
    /\ forall head,
         HeadObject b k (Ok head) ∈ rest ->
         Metadata head ≫= (.!! "md5") = None \/ ContentLength head = None ->
         r = Raise (KeyError (missing_key head))
         /\ exists before, rest = before ++ [HeadObject b k (Ok head)].
Proof.
  intros H. pose proof H as H2. apply upload_file_pieces_anatomy in H.
  destruct H as (reply & rest & (_ & _ & _ & Tr) & H). exists reply, rest.
  split; [exact Tr|]. intros head Hin Hmiss.
  assert (Hend : exists before, rest = before ++ [HeadObject b k (Ok head)]).
  { destruct reply as [response|code];
      [|destruct H as [-> _]; inversion Hin].
    destruct (UploadId response) as [u|];
      [|destruct H as [-> _]; inversion Hin].
    destruct H as (ups & tail & fin & chk & assigned & pending
                   & -> & Fu & Hatt & Hcon).
    assert (Hnot : forall evs, HeadObject b k (Ok head) ∈ evs ->
                     Forall (fun e => ~ is_head e) evs -> False).
    { intros evs He F. rewrite Forall_forall in F. apply (F _ He).
      exact I. }
    assert (Hfin : Forall (fun e => ~ is_head e) fin).
    { unfold concluded in Hcon. destruct (assigned ≫= ETag).
      - destruct Hcon as [-> _]. constructor.
      - destruct Hcon as (res & -> & _).
        destruct res; repeat constructor; cbn; tauto. }
    assert (Htail : Forall (fun e => ~ is_head e) tail).
    { destruct Hatt as [(-> & _)|(parts & res & -> & _)];
        repeat constructor; cbn; tauto. }
    assert (Hchk : chk = [] \/ checked b k h sz r chk).
    { unfold concluded in Hcon. destruct (assigned ≫= ETag).
      - right. apply Hcon.
      - destruct Hcon as (res & _ & Hres).
        destruct res as [[]|code]; [destruct pending|].
        + left. apply Hres.
        + right. exact Hres.
        + left. apply Hres. }
    apply elem_of_app in Hin as [Hin|Hin].
    { exfalso. apply (Hnot _ Hin). apply not_head_print_or_upload.
      exact Fu. }
    apply elem_of_app in Hin as [Hin|Hin]; [exfalso; eauto|].
    apply elem_of_app in Hin as [Hin|Hin]; [exfalso; eauto|].
    destruct Hchk as [->|(hreply & told & -> & Fp & Hv)]; [inversion Hin|].
    apply elem_of_cons in Hin as [Heq|Hin].
    2:{ exfalso. apply (Hnot _ Hin). apply not_head_print. exact Fp. }
    injection Heq as <-.
    assert (told = []) as ->.
    { destruct (Metadata head ≫= (.!! "md5")) as [found_hash|];
        [|apply Hv].
      destruct (ContentLength head) as [found_size|]; [|apply Hv].
      destruct Hmiss; discriminate. }
    exists (ups ++ tail ++ fin). rewrite <- !app_assoc. reflexivity. }
  split; [|exact Hend]. destruct Hend as (before & ->).
  eapply (upload_file_pieces_head_key _ _ _ _ _ _ _ _
            (CreateMultipartUpload b k {[ "md5" := h ]} reply :: before));
    [exact H2|exact Tr|exact Hmiss].
Qed.

End HeadAnswers.

Lemma unreadable_answer_raises_key_error_witness :
  let run := upload_file_pieces (scripted forgetful) "bucket"
               "small_testfile" (md5_base64 SMALL_TESTFILE_CONTENT) 50
               [SMALL_TESTFILE_PATH] (test_world forgetful) in
  run.1 = Raise (KeyError "Metadata").
Proof.
  intros run.
  destruct (unreadable_answer_raises_key_error (scripted forgetful) "bucket"
              "small_testfile" (md5_base64 SMALL_TESTFILE_CONTENT) 50
              [SMALL_TESTFILE_PATH] (test_world forgetful) run.1 run.2
              (surjective_pairing _)) as (reply & rest & Tr & H).
  destruct (H {| Metadata := None; ContentLength := Some 50 |})
    as (Hr & _).
  - vm_compute in Tr. injection Tr as _ <-.
    apply list_elem_of_In. do 4 right. left. reflexivity.
  - left. reflexivity.
  - exact Hr.
Defined.

(** ** The three phases of a run *)

Lemma addressed_remote b k u (e : event) :
  addressed b k u e -> is_print e \/ is_request e.
Proof. destruct e; cbn; tauto. Qed.

Lemma is_local_writes (names : list string) (pcs : list (list byte)) :
  Forall is_local (zip_with Write names pcs).
Proof.
  revert pcs. induction names as [|n names IH]; intros [|p pcs]; cbn;
    try constructor; cbn; auto.
Qed.

Section Phases.
Context (s3 : S3Client).
Implicit Types w : world s3.

Lemma upload_file_pieces_remote_only b k h sz names w r w' :
  upload_file_pieces s3 b k h sz names w = (r, w') ->
  exists evs,
    trace w' = trace w ++ evs
    /\ Forall (fun e => is_print e \/ is_request e) evs.
Proof.
  intros H. apply upload_file_pieces_replay in H.
  destruct H as (reply & rest & (_ & _ & _ & Tr) & H).
  eexists. split; [exact Tr|]. constructor; [right; exact I|].
  destruct reply as [response|code]; [|destruct H as [-> _]; constructor].
  destruct (UploadId response) as [u|]; [|destruct H as [-> _]; constructor].
  destruct H as (replies & tail & fin & chk & assigned & pending
                 & -> & Hout & Hcon).
  eapply Forall_impl; [|intros e; apply (addressed_remote b k u)].
  apply Forall_app. split; [apply part_requests_addressed|].
  apply Forall_app. split.
  - destruct (parts_outcome _ _ _ _) as [[parts|e]|]; [| |contradiction].
    + destruct Hout as (res & -> & _). repeat constructor.
    + destruct Hout as (-> & _). constructor.
  - eapply concluded_addressed. exact Hcon.
Qed.

(** A run of [upload_file] has three phases that do not overlap: first the
    temporary directory is made and all the pieces are written, then come
    the requests to the store with the lines printed between them, and
    last the [finally] block deals with the directory.  No piece is written
    once the first request has gone, and the directory is not removed
    before the last request has been answered. *)
Theorem pieces_written_before_requests bucket original p keep w r w' :
  upload_file s3 bucket original p keep w = (r, w') ->
  exists first requests last,
    trace w' = trace w ++ first ++ requests ++ last
    /\ Forall is_local first
    /\ Forall (fun e => is_print e \/ is_request e) requests
    /\ (last = [] \/ exists dir, last = cleanup_events dir keep).
Proof.
  intros Erun.
  destruct (upload_file_events s3 _ _ _ _ _ _ _ Erun)
    as [(Htr & _)|(dir & w1 & Em & [(e & _ & _ & Htr)|
         (content' & names & pieces & ws & wb & Hf & Hs & F2 & Hcat & Hup
          & Htrs & Htr)])].
  - exists [], [], []. rewrite !app_nil_r.
    split; [exact Htr|]. split; [constructor|]. split; [constructor|].
    left. reflexivity.
  - exists [Mkdtemp dir], [], (cleanup_events dir keep).
    split; [exact Htr|]. split; [repeat constructor|].
    split; [constructor|]. right. eauto.
  - apply upload_file_pieces_remote_only in Hup.
    destruct Hup as (evs & Trb & F).
    exists (Mkdtemp dir :: zip_with Write names pieces), evs,
      (cleanup_events dir keep).
    split; [rewrite Htr, Trb, Htrs, <- !app_assoc; reflexivity|].
    split; [constructor; [exact I|apply is_local_writes]|].
    split; [exact F|]. right. eauto.
Qed.

End Phases.

Lemma pieces_written_before_requests_witness :
  let run := upload_file (scripted healthy) "bucket" SMALL_TESTFILE_PATH 20
               false (test_world healthy) in
  exists first requests last,
    trace run.2 = first ++ requests ++ last
    /\ Forall is_local first
    /\ Forall (fun e => is_print e \/ is_request e) requests.
Proof.
  intros run.
  destruct (pieces_written_before_requests (scripted healthy) "bucket"
              SMALL_TESTFILE_PATH 20 false (test_world healthy) run.1 run.2
              (surjective_pairing _))
    as (first & requests & last & Htr & F1 & F2 & _).
  exists first, requests, last. split; [exact Htr|]. split; assumption.
Defined.

Lemma get_file_hash_succeeds_iff_witness :
  exists h,
    get_file_hash (scripted healthy) SMALL_TESTFILE_PATH "sha512"
                  (test_world healthy)
    = (Return h, test_world healthy).
Proof.
  apply (get_file_hash_succeeds_iff (scripted healthy) SMALL_TESTFILE_PATH
           "sha512" (test_world healthy)).
  split; [eexists; reflexivity|]. eexists. reflexivity.
Defined.

Lemma split_input_file_rejects_witness :
  split_input_file (scripted healthy) "./tests/missing" "/tmp/tmpA" 20
                   (test_world healthy)
  = (Raise (OSError "./tests/missing"), test_world healthy)
  /\ split_input_file (scripted healthy) SMALL_TESTFILE_PATH "/tmp/tmpA" 0
                      (test_world healthy)
     = (Raise ZeroDivisionError, test_world healthy).
Proof.
  destruct (split_input_file_rejects (scripted healthy) "./tests/missing"
              "/tmp/tmpA" (test_world healthy)) as [Hmissing _].
  destruct (split_input_file_rejects (scripted healthy) SMALL_TESTFILE_PATH
              "/tmp/tmpA" (test_world healthy)) as [_ Hzero].
  split.
  - apply Hmissing. vm_compute. reflexivity.
  - apply (Hzero SMALL_TESTFILE_CONTENT); [reflexivity|].
    vm_compute. reflexivity.
Defined.
